(** * SHL assessment recommendation engine: the retrieval core

    A shallow embedding of [preprocessing.py], [recommender.py],
    [evaluate.py] and the request handler of [app.py], with the
    properties of the text normaliser, the similarity ranker, the
    evaluation harness and the error paths.

    Conventions.
    - Python [str] values are lists of characters over an [Alphabet]
      that supplies the few primitives of [str] and [re] the code uses
      ([str.lower], [\w], [\s]); an instance for 8-bit ASCII text is
      given for the examples.
    - float64 values coming out of scikit-learn (tf-idf weights, cosine
      similarities) are idealised as real numbers in the main
      development: what is proved there of the scores rests on
      comparisons and on exact zeros only.  What rounding does to a
      score is computed on binary64 numbers in the module [Binary64].
    - The metrics of the evaluation harness are quotients of counters;
      they are exact rationals.
    - numpy's [argsort] is an interface ([ArgSort]): any function that
      returns the indices in ascending order of the values.  The order
      of equal values is left to the instance, as numpy's default sort
      kind leaves it. *)

From Stdlib Require Import Ascii String.
From Stdlib Require Import List Bool Arith ZArith NArith QArith Lia.
From Stdlib Require Import Permutation Sorted.
From Stdlib Require Import Reals Lra.
From Stdlib Require PrimFloat.
Import ListNotations.

Set Implicit Arguments.
Local Open Scope nat_scope.

(** ** Python results *)

Inductive exn : Type :=
| FileNotFoundError
| JSONDecodeError
| OtherException
| ValueError
| RequestValidationError
| HTTPException (status_code : Z).

Inductive pyresult (A : Type) : Type :=
| Ok (a : A)
| Raise (e : exn).
Arguments Ok {A} a.
Arguments Raise {A} e.

Definition bind {A B : Type} (m : pyresult A) (f : A -> pyresult B) : pyresult B :=
  match m with
  | Ok a => f a
  | Raise e => Raise e
  end.

Notation "x <- m ;; k" := (bind m (fun x => k))
  (at level 61, m at next level, right associativity).

(** ** Characters and text *)

(** What the code uses of Python's [str] and [re]: the code point of a
    character, [str.isalnum] and [str.isspace] on one character (the
    regular expression classes [\w] and [\s] are
    [isalnum c || c == '_'] and [isspace c]), [str.lower] on a whole
    string, and [chr] for the literal characters of the source. *)
Class Alphabet : Type := {
  char : Type;
  ord : char -> N;
  chr : N -> char;
  ord_inj : forall a b : char, ord a = ord b -> a = b;
  isalnum : char -> bool;
  isspace : char -> bool;
  str_lower : list char -> list char;
  str_lower_nil : str_lower [] = []
}.

Section Text.
Context {Sigma : Alphabet}.

Definition text : Type := list char.

(** A string literal of the source. *)
Definition lit (s : string) : text :=
  map (fun a => chr (N_of_ascii a)) (list_ascii_of_string s).

Definition c_space : char := chr 32.
Definition c_hyphen : char := chr 45.
Definition c_underscore : char := chr 95.

Definition char_eqb (a b : char) : bool := N.eqb (ord a) (ord b).

Fixpoint text_eqb (s t : text) : bool :=
  match s, t with
  | [], [] => true
  | a :: s', b :: t' => char_eqb a b && text_eqb s' t'
  | _, _ => false
  end.

(** [x in xs] on a list of strings. *)
Definition text_in (x : text) (xs : list text) : bool :=
  existsb (text_eqb x) xs.

(** The character class [\w]. *)
Definition is_word (c : char) : bool := isalnum c || char_eqb c c_underscore.

(** [sep.join(parts)]. *)
Fixpoint str_join (sep : text) (parts : list text) : text :=
  match parts with
  | [] => []
  | [p] => p
  | p :: rest => p ++ sep ++ str_join sep rest
  end.

Fixpoint dropWhile (p : char -> bool) (s : text) : text :=
  match s with
  | [] => []
  | c :: s' => if p c then dropWhile p s' else s
  end.

Fixpoint takeWhile (p : char -> bool) (s : text) : text :=
  match s with
  | [] => []
  | c :: s' => if p c then c :: takeWhile p s' else []
  end.

(** [s.strip()]: leading and trailing whitespace removed. *)
Definition lstrip (s : text) : text := dropWhile isspace s.
Definition rstrip (s : text) : text := rev (dropWhile isspace (rev s)).
Definition strip (s : text) : text := rstrip (lstrip s).

(** *** The two regular expressions of the normaliser

    [re.sub(pattern, repl, s)] scans [s] from the left; where the
    pattern matches, the match is replaced by [repl] and the scan goes
    on after it, elsewhere the character is copied.  The source uses two
    patterns: a character class, which matches one character, and a
    class under [+], which matches the longest run of at least one. *)
Inductive pattern : Type :=
| Class (p : char -> bool)
| ClassPlus (p : char -> bool).

(** Length of the match of the pattern at the start of [s], if any. *)
Definition match_at (pat : pattern) (s : text) : option nat :=
  match pat with
  | Class p =>
      match s with
      | c :: _ => if p c then Some 1 else None
      | [] => None
      end
  | ClassPlus p =>
      match length (takeWhile p s) with
      | 0 => None
      | n => Some n
      end
  end.

(** [skip] counts the characters of the current match that remain to be
    consumed. *)
Fixpoint re_sub_from (pat : pattern) (repl : text) (skip : nat) (s : text) : text :=
  match s with
  | [] => []
  | c :: s' =>
      match skip with
      | S n => re_sub_from pat repl n s'
      | 0 =>
          match match_at pat s with
          | Some (S n) => repl ++ re_sub_from pat repl n s'
          | _ => c :: re_sub_from pat repl 0 s'
          end
      end
  end.

Definition re_sub (pat : pattern) (repl : text) (s : text) : text :=
  re_sub_from pat repl 0 s.

(** [[^\w\s\-]] *)
Definition not_word_space_hyphen : pattern :=
  Class (fun c => negb (is_word c || isspace c || char_eqb c c_hyphen)).

(** [\s+] *)
Definition spaces : pattern := ClassPlus isspace.

(** ** preprocessing.py: [clean_text] *)

(** The values a catalog cell can hold. *)
Inductive pyval : Type :=
| PyNone
| PyNaN
| PyBool (b : bool)
| PyInt (z : Z)
| PyStr (s : text)
| PyList (l : list text).

Definition clean_text (v : pyval) : text :=
  match v with
  | PyStr s =>
      let s := str_lower s in
      let s := re_sub not_word_space_hyphen [c_space] s in
      let s := strip (re_sub spaces [c_space] s) in
      s
  | _ => []
  end.

(** ** recommender.py: [SHLRecommender.preprocess_query] *)

Definition preprocess_query (query : text) : text :=
  let query := str_lower query in
  let query := re_sub not_word_space_hyphen [c_space] query in
  let query := strip (re_sub spaces [c_space] query) in
  query.

(** ** The normaliser as the specification words it

    Lowercase; replace every character that is not alphanumeric,
    underscore, whitespace or hyphen by a space; collapse whitespace
    runs to one space; trim. *)

Definition allowed (c : char) : bool :=
  isalnum c || char_eqb c c_underscore || isspace c || char_eqb c c_hyphen.

Definition replace_disallowed (s : text) : text :=
  map (fun c => if allowed c then c else c_space) s.

(** [in_run] tells that the previous character was whitespace: the run
    it belongs to has already produced its space. *)
Fixpoint collapse_runs (in_run : bool) (s : text) : text :=
  match s with
  | [] => []
  | c :: s' =>
      if isspace c
      then (if in_run then collapse_runs true s' else c_space :: collapse_runs true s')
      else c :: collapse_runs false s'
  end.

Definition trim (s : text) : text :=
  rev (dropWhile isspace (rev (dropWhile isspace s))).

Definition normalize_spec (s : text) : text :=
  trim (collapse_runs false (replace_disallowed (str_lower s))).

End Text.

(** ** numpy: [argsort] and slices *)

(** [a[i]] for an index within the array. *)
Definition at_index (a : list R) (i : nat) : R := nth i a 0%R.

(** [a.argsort()]: the indices of [a], listed so that the values
    ascend.  Nothing is promised on the order of equal values. *)
Class ArgSort : Type := {
  argsort : list R -> list nat;
  argsort_perm : forall a, Permutation (argsort a) (seq 0 (length a));
  argsort_sorted :
    forall a, StronglySorted (fun i j => (at_index a i <= at_index a j)%R) (argsort a)
}.

(** The order of a stable sort: by value, then by index. *)
Definition before (a : list R) (i j : nat) : Prop :=
  (at_index a i < at_index a j)%R \/ (at_index a i = at_index a j /\ i < j).

(** An argsort is stable when equal values keep the order of their
    indices (numpy's [kind='stable'], and what its insertion sort does
    on short arrays). *)
Definition Stable (AS : ArgSort) : Prop :=
  forall a, StronglySorted (before a) (argsort a).

(** [l[start:]] with Python's treatment of a negative or too large
    start. *)
Definition slice_from {A : Type} (start : Z) (l : list A) : list A :=
  let n := Z.of_nat (length l) in
  let start := if (start <? 0)%Z then Z.max 0 (start + n) else Z.min start n in
  skipn (Z.to_nat start) l.

(** [l[:stop]] for a stop that is not negative. *)
Definition slice_to {A : Type} (stop : nat) (l : list A) : list A := firstn stop l.

(** The insertion sort on indices: index [i] goes before the first
    index whose value is not smaller. *)
Fixpoint insert_index (a : list R) (i : nat) (sorted : list nat) : list nat :=
  match sorted with
  | [] => [i]
  | j :: rest =>
      if Rle_dec (at_index a i) (at_index a j)
      then i :: sorted
      else j :: insert_index a i rest
  end.

Definition insertion_argsort (a : list R) : list nat :=
  fold_right (insert_index a) [] (seq 0 (length a)).

(** ** scikit-learn: [TfidfVectorizer] and [cosine_similarity] *)

Section Vectorizer.
Context {Sigma : Alphabet} {AS : ArgSort}.

(** The fitted vectorizer: term [j] of the vocabulary has weight [j] of
    [idf_].  The stop word list is the one given to the constructor. *)
Record TfidfVectorizer : Type := {
  vocabulary_ : list text;
  idf_ : list R;
  stop_words : list text
}.

Definition flush_token (cur : text) : list text :=
  if 2 <=? length cur then [rev cur] else [].

(** The default [token_pattern], [\b\w\w+\b]: the maximal runs of word
    characters that have two characters or more.  [cur] is the run
    being read, last character first. *)
Fixpoint tokens_from (cur : text) (s : text) : list text :=
  match s with
  | [] => flush_token cur
  | c :: s' =>
      if is_word c then tokens_from (c :: cur) s'
      else flush_token cur ++ tokens_from [] s'
  end.

Definition tokenize (s : text) : list text := tokens_from [] s.

(** The windows of [n] consecutive tokens. *)
Fixpoint windows (n : nat) (toks : list text) : list (list text) :=
  match toks with
  | [] => []
  | _ :: rest =>
      if n <=? length toks then firstn n toks :: windows n rest else []
  end.

(** [_word_ngrams] at [ngram_range=(1, 3)]: stop words are dropped
    first, then come the unigrams, the bigrams and the trigrams. *)
Definition word_ngrams (stop : list text) (tokens : list text) : list text :=
  let tokens := filter (fun w => negb (text_in w stop)) tokens in
  tokens
    ++ map (str_join [c_space]) (windows 2 tokens)
    ++ map (str_join [c_space]) (windows 3 tokens).

Definition analyze (stop : list text) (doc : text) : list text :=
  word_ngrams stop (tokenize (str_lower doc)).

Definition term_count (t : text) (terms : list text) : nat :=
  length (filter (text_eqb t) terms).

Definition sum_sq (v : list R) : R :=
  fold_right (fun x acc => (x * x + acc)%R) 0%R v.

(** [normalize(v, norm='l2')]: a row of norm zero is left as it is. *)
Definition l2_normalize (v : list R) : list R :=
  let norm := sqrt (sum_sq v) in
  let norm := if Req_dec_T norm 0 then 1%R else norm in
  map (fun x => (x / norm)%R) v.

(** The zero vector, of any length. *)
Definition all_zero (v : list R) : Prop := Forall (fun x => x = 0%R) v.

Fixpoint dot (u v : list R) : R :=
  match u, v with
  | x :: u', y :: v' => (x * y + dot u' v')%R
  | _, _ => 0%R
  end.

(** [vectorizer.transform([doc])], as a dense row. *)
Definition transform (vec : TfidfVectorizer) (doc : text) : list R :=
  let terms := analyze (stop_words vec) doc in
  let counts := map (fun t => term_count t terms) (vocabulary_ vec) in
  let weighted := map (fun cw => (INR (fst cw) * snd cw)%R) (combine counts (idf_ vec)) in
  l2_normalize weighted.

(** [cosine_similarity(x, Y).flatten()] for a single row [x]: both
    sides are normalised, then multiplied. *)
Definition cosine_similarity (x : list R) (Y : list (list R)) : list R :=
  map (fun y => dot (l2_normalize x) (l2_normalize y)) Y.

(** *** Fitting *)

(** Strings are compared by code points. *)
Fixpoint text_ltb (s t : text) : bool :=
  match s, t with
  | [], [] => false
  | [], _ :: _ => true
  | _ :: _, [] => false
  | a :: s', b :: t' =>
      if N.ltb (ord a) (ord b) then true
      else if N.ltb (ord b) (ord a) then false
      else text_ltb s' t'
  end.

(** Sorted insertion of a term, without duplicates. *)
Fixpoint insert_term (t : text) (sorted : list text) : list text :=
  match sorted with
  | [] => [t]
  | u :: rest =>
      if text_eqb t u then sorted
      else if text_ltb t u then t :: sorted
      else u :: insert_term t rest
  end.

Definition sorted_terms (terms : list text) : list text :=
  fold_right insert_term [] terms.

Definition max_features : nat := 5000.

(** [_limit_features]: when the vocabulary is larger than
    [max_features], the terms with the highest corpus-wide counts are
    kept, chosen by [(-tfs).argsort()[:limit]]. *)
Definition limit_features (vocabulary : list text) (analysed : list (list text)) : list text :=
  if length vocabulary <=? max_features then vocabulary
  else
    let tfs := map (fun t => fold_right (fun doc acc => term_count t doc + acc) 0 analysed)
                   vocabulary in
    let mask_inds := slice_to max_features (argsort (map (fun c => (- INR c)%R) tfs)) in
    map snd
        (filter (fun jt => existsb (Nat.eqb (fst jt)) mask_inds)
                (combine (seq 0 (length vocabulary)) vocabulary)).

(** The smoothed inverse document frequency. *)
Definition idf (n_docs : nat) (df : nat) : R :=
  (ln ((1 + INR n_docs) / (1 + INR df)) + 1)%R.

(** [TfidfVectorizer(max_features=5000, stop_words=stop,
    ngram_range=(1, 3)).fit_transform(raw_documents)].  It raises
    [ValueError] when no term is left. *)
Definition fit_transform (stop : list text) (raw_documents : list text)
  : pyresult (TfidfVectorizer * list (list R)) :=
  let analysed := map (analyze stop) raw_documents in
  let vocabulary := sorted_terms (concat analysed) in
  match vocabulary with
  | [] => Raise ValueError
  | _ =>
      let vocabulary := limit_features vocabulary analysed in
      let n_docs := length raw_documents in
      let df t := length (filter (fun doc => 0 <? term_count t doc) analysed) in
      let vec := {| vocabulary_ := vocabulary;
                    idf_ := map (fun t => idf n_docs (df t)) vocabulary;
                    stop_words := stop |} in
      Ok (vec, map (transform vec) raw_documents)
  end.

End Vectorizer.

(** ** The catalog as a data frame *)

(** scikit-learn's list of English stop words is a table of the library;
    it is taken as given. *)
Class StopWords {Sigma : Alphabet} : Type := {
  ENGLISH_STOP_WORDS : list text
}.

Section Catalog.
Context {Sigma : Alphabet}.

(** One record of the catalog file: the values of the eight keys that
    the code reads.  They are typed as the response model of [app.py]
    declares them ([AssessmentOutput]: strings, booleans, a list of
    strings, an integer), the description apart, which [clean_text]
    accepts as any value.  The value of a key that the record does not
    have is not looked at. *)
Record Assessment : Type := {
  a_id : text;
  a_name : text;
  a_url : text;
  a_remote_support : bool;
  a_adaptive_irt : bool;
  a_test_types : list text;
  a_description : pyval;
  a_duration : Z
}.

(** One row of the frame: the cells of the record and the cells of the
    derived columns ([None] is a missing cell). *)
Record Row : Type := {
  row_id : text;
  row_name : text;
  row_url : text;
  row_remote_support : bool;
  row_adaptive_irt : bool;
  row_test_types : list text;
  row_description : pyval;
  row_duration : Z;
  row_test_types_str : option text;
  row_remote_support_display : option text;
  row_adaptive_irt_display : option text;
  row_combined_features : option text
}.

(** A frame: the names of its columns and its rows.  The cells of a row
    that belong to no column are not looked at. *)
Record DataFrame : Type := {
  columns : list string;
  rows : list Row
}.

Definition has_column (col : string) (df : DataFrame) : bool :=
  existsb (String.eqb col) (columns df).

(** [df.empty] *)
Definition df_empty (df : DataFrame) : bool :=
  match columns df, rows df with
  | _ :: _, _ :: _ => false
  | _, _ => true
  end.

(** [pd.DataFrame()] *)
Definition empty_frame : DataFrame := {| columns := []; rows := [] |}.

Definition required_columns : list string :=
  ["id"; "name"; "url"; "remote_support"; "adaptive_irt";
   "test_types"; "description"; "duration"]%string.

Definition row_of (a : Assessment) : Row :=
  {| row_id := a_id a; row_name := a_name a; row_url := a_url a;
     row_remote_support := a_remote_support a;
     row_adaptive_irt := a_adaptive_irt a;
     row_test_types := a_test_types a;
     row_description := a_description a;
     row_duration := a_duration a;
     row_test_types_str := None;
     row_remote_support_display := None;
     row_adaptive_irt_display := None;
     row_combined_features := None |}.

(** [pd.DataFrame(data)] for a list of records that have the keys
    [keys]: the columns are the keys of the records, and there is none
    when there is no record.  The cells of the derived columns are
    missing until the preprocessing sets them: a file that already has
    a key [test_types_str] is outside this model. *)
Definition DataFrame_of (keys : list string) (data : list Assessment) : DataFrame :=
  match data with
  | [] => empty_frame
  | _ => {| columns := keys; rows := map row_of data |}
  end.


(** [df[col] = ...], row by row. *)
Definition assign (col : string) (f : Row -> Row) (df : DataFrame) : DataFrame :=
  {| columns := if has_column col df then columns df else columns df ++ [col];
     rows := map f (rows df) |}.

Definition set_description (v : pyval) (r : Row) : Row :=
  {| row_id := row_id r; row_name := row_name r; row_url := row_url r;
     row_remote_support := row_remote_support r;
     row_adaptive_irt := row_adaptive_irt r;
     row_test_types := row_test_types r;
     row_description := v;
     row_duration := row_duration r;
     row_test_types_str := row_test_types_str r;
     row_remote_support_display := row_remote_support_display r;
     row_adaptive_irt_display := row_adaptive_irt_display r;
     row_combined_features := row_combined_features r |}.

Definition set_test_types_str (v : option text) (r : Row) : Row :=
  {| row_id := row_id r; row_name := row_name r; row_url := row_url r;
     row_remote_support := row_remote_support r;
     row_adaptive_irt := row_adaptive_irt r;
     row_test_types := row_test_types r;
     row_description := row_description r;
     row_duration := row_duration r;
     row_test_types_str := v;
     row_remote_support_display := row_remote_support_display r;
     row_adaptive_irt_display := row_adaptive_irt_display r;
     row_combined_features := row_combined_features r |}.

Definition set_remote_support_display (v : option text) (r : Row) : Row :=
  {| row_id := row_id r; row_name := row_name r; row_url := row_url r;
     row_remote_support := row_remote_support r;
     row_adaptive_irt := row_adaptive_irt r;
     row_test_types := row_test_types r;
     row_description := row_description r;
     row_duration := row_duration r;
     row_test_types_str := row_test_types_str r;
     row_remote_support_display := v;
     row_adaptive_irt_display := row_adaptive_irt_display r;
     row_combined_features := row_combined_features r |}.

Definition set_adaptive_irt_display (v : option text) (r : Row) : Row :=
  {| row_id := row_id r; row_name := row_name r; row_url := row_url r;
     row_remote_support := row_remote_support r;
     row_adaptive_irt := row_adaptive_irt r;
     row_test_types := row_test_types r;
     row_description := row_description r;
     row_duration := row_duration r;
     row_test_types_str := row_test_types_str r;
     row_remote_support_display := row_remote_support_display r;
     row_adaptive_irt_display := v;
     row_combined_features := row_combined_features r |}.

Definition set_combined_features (v : option text) (r : Row) : Row :=
  {| row_id := row_id r; row_name := row_name r; row_url := row_url r;
     row_remote_support := row_remote_support r;
     row_adaptive_irt := row_adaptive_irt r;
     row_test_types := row_test_types r;
     row_description := row_description r;
     row_duration := row_duration r;
     row_test_types_str := row_test_types_str r;
     row_remote_support_display := row_remote_support_display r;
     row_adaptive_irt_display := row_adaptive_irt_display r;
     row_combined_features := v |}.

(** A cell read as a string; anything else counts as missing. *)
Definition text_of (v : pyval) : option text :=
  match v with
  | PyStr s => Some s
  | _ => None
  end.

(** [series.fillna('')] on one cell. *)
Definition fillna (c : option text) : text :=
  match c with
  | Some s => s
  | None => []
  end.

(** ** preprocessing.py: [load_data], [preprocess_data],
       [get_features_for_recommendation] *)

(** What opening and parsing the file at [file_path] gives.  A catalog
    is a JSON array of records that have the same keys, [keys], as the
    scraper writes them. *)
Inductive file_content : Type :=
| NoSuchFile
| NotJson
| Unreadable
| JsonRecords (keys : list string) (data : list Assessment).

(** The body of the [try]: [open] and [json.load]. *)
Definition json_load (f : file_content)
  : pyresult (list string * list Assessment) :=
  match f with
  | NoSuchFile => Raise FileNotFoundError
  | NotJson => Raise JSONDecodeError
  | Unreadable => Raise OtherException
  | JsonRecords keys data => Ok (keys, data)
  end.

Definition load_data (file_path : file_content) : DataFrame :=
  match json_load file_path with
  | Ok data => DataFrame_of (fst data) (snd data)
  | Raise FileNotFoundError => empty_frame
  | Raise JSONDecodeError => empty_frame
  | Raise _ => empty_frame
  end.

(** The catalog file is missing, is not JSON, cannot be read, or holds
    no record. *)
Definition empty_or_unparseable (file_path : file_content) : Prop :=
  file_path = NoSuchFile \/ file_path = NotJson \/ file_path = Unreadable
  \/ exists keys, file_path = JsonRecords keys [].


Definition yes_no (b : bool) : text := if b then lit "Yes" else lit "No".

Definition preprocess_data (df : DataFrame) : DataFrame :=
  if df_empty df then df
  else
    let processed_df := df in
    let processed_df :=
      if has_column "description" processed_df then processed_df
      else assign "description" (set_description (PyStr (lit ""))) processed_df in
    let processed_df :=
      assign "description"
             (fun r => set_description (PyStr (clean_text (row_description r))) r)
             processed_df in
    let processed_df :=
      if has_column "test_types" processed_df
      then assign "test_types_str"
                  (fun r => set_test_types_str
                              (Some (str_join (lit ", ") (row_test_types r))) r)
                  processed_df
      else processed_df in
    let processed_df :=
      if has_column "remote_support" processed_df
      then assign "remote_support_display"
                  (fun r => set_remote_support_display
                              (Some (yes_no (row_remote_support r))) r)
                  processed_df
      else processed_df in
    let processed_df :=
      if has_column "adaptive_irt" processed_df
      then assign "adaptive_irt_display"
                  (fun r => set_adaptive_irt_display
                              (Some (yes_no (row_adaptive_irt r))) r)
                  processed_df
      else processed_df in
    processed_df.

(** [description + ' ' + test_types_str] on one row; a missing cell
    makes the sum missing. *)
Definition description_and_types (r : Row) : option text :=
  match text_of (row_description r), row_test_types_str r with
  | Some d, Some t => Some (d ++ lit " " ++ t)
  | _, _ => None
  end.

Definition get_features_for_recommendation (df : DataFrame) : DataFrame :=
  if df_empty df then df
  else
    let features_df := df in
    if has_column "test_types_str" features_df && has_column "description" features_df
    then assign "combined_features"
                (fun r => set_combined_features (description_and_types r) r)
                features_df
    else if has_column "description" features_df
    then assign "combined_features"
                (fun r => set_combined_features (text_of (row_description r)) r)
                features_df
    else features_df.

End Catalog.

(** ** recommender.py: [SHLRecommender] *)

Section Recommender.
Context {Sigma : Alphabet} {AS : ArgSort} {SW : StopWords}.

(** The three attributes of the object; [None] as in the source. *)
Record SHLRecommender : Type := {
  tfidf_vectorizer : option TfidfVectorizer;
  tfidf_matrix : option (list (list R));
  data_df : option DataFrame
}.

(** The object as [__init__] first sets it up. *)
Definition unfitted : SHLRecommender :=
  {| tfidf_vectorizer := None; tfidf_matrix := None; data_df := None |}.

(** The documents the vectorizer is fitted on: [combined_features] if
    the frame has the column, otherwise [description]; missing cells
    are the empty string. *)
Definition feature_documents (df : DataFrame) : list text :=
  if has_column "combined_features" df
  then map (fun r => fillna (row_combined_features r)) (rows df)
  else map (fun r => fillna (text_of (row_description r))) (rows df).

Definition load_dataframe (self : SHLRecommender) (df : DataFrame)
  : pyresult SHLRecommender :=
  let self := {| tfidf_vectorizer := tfidf_vectorizer self;
                 tfidf_matrix := tfidf_matrix self;
                 data_df := Some df |} in
  if has_column "combined_features" df || has_column "description" df
  then
    fitted <- fit_transform ENGLISH_STOP_WORDS (feature_documents df) ;;
    Ok {| tfidf_vectorizer := Some (fst fitted);
          tfidf_matrix := Some (snd fitted);
          data_df := data_df self |}
  else Ok self.

(** The method [SHLRecommender.load_data]. *)
Definition SHLRecommender_load_data (self : SHLRecommender) (data_file : file_content)
  : pyresult SHLRecommender :=
  let raw_df := load_data data_file in
  if negb (df_empty raw_df)
  then
    let processed_df := preprocess_data raw_df in
    let features_df := get_features_for_recommendation processed_df in
    load_dataframe self features_df
  else Ok self.

(** [SHLRecommender(data_file, data_df)] *)
Definition SHLRecommender_init (data_file : option file_content)
           (data_df_arg : option DataFrame) : pyresult SHLRecommender :=
  let self := unfitted in
  match data_df_arg, data_file with
  | Some df, _ => load_dataframe self df
  | None, Some f => SHLRecommender_load_data self f
  | None, None => Ok self
  end.

(** One recommendation, the dictionary built in the loop of
    [recommend]. *)
Record Recommendation : Type := {
  rec_id : text;
  rec_name : text;
  rec_url : text;
  rec_remote_support : bool;
  rec_adaptive_irt : bool;
  rec_test_types : list text;
  rec_description : pyval;
  rec_duration : Z;
  similarity_score : R
}.

Definition empty_row : Row :=
  {| row_id := []; row_name := []; row_url := [];
     row_remote_support := false; row_adaptive_irt := false;
     row_test_types := []; row_description := PyNaN; row_duration := 0%Z;
     row_test_types_str := None; row_remote_support_display := None;
     row_adaptive_irt_display := None; row_combined_features := None |}.

(** [df.iloc[idx]].  The frame and the matrix of a recommender are set
    together from the same rows, so that [idx], an index of the matrix,
    is an index of the frame (lemmas [init_consistent] and
    [ranking_rows_in_frame]); the default row is never read. *)
Definition iloc (df : DataFrame) (idx : nat) : Row := nth idx (rows df) empty_row.

(** [assessment.get(col, default)] *)
Definition get_cell {A : Type} (df : DataFrame) (col : string) (cell default : A) : A :=
  if has_column col df then cell else default.

Definition make_recommendation (df : DataFrame) (cosine_similarities : list R)
           (idx : nat) : Recommendation :=
  let assessment := iloc df idx in
  {| rec_id := get_cell df "id" (row_id assessment) (lit "");
     rec_name := get_cell df "name" (row_name assessment) (lit "");
     rec_url := get_cell df "url" (row_url assessment) (lit "");
     rec_remote_support :=
       get_cell df "remote_support" (row_remote_support assessment) false;
     rec_adaptive_irt :=
       get_cell df "adaptive_irt" (row_adaptive_irt assessment) false;
     rec_test_types := get_cell df "test_types" (row_test_types assessment) [];
     rec_description :=
       get_cell df "description" (row_description assessment) (PyStr (lit ""));
     rec_duration := get_cell df "duration" (row_duration assessment) 0%Z;
     similarity_score := at_index cosine_similarities idx |}.

(** [cosine_similarities.argsort()[-num_recommendations:][::-1]] *)
Definition top_indices (cosine_similarities : list R) (num_recommendations : Z)
  : list nat :=
  rev (slice_from (- num_recommendations) (argsort cosine_similarities)).

(** [cosine_similarities[idx] > 0] *)
Definition is_relevant (cosine_similarities : list R) (idx : nat) : bool :=
  if Rlt_dec 0 (at_index cosine_similarities idx) then true else false.

Definition recommend (self : SHLRecommender) (query : text) (num_recommendations : Z)
  : list Recommendation :=
  match data_df self, tfidf_vectorizer self, tfidf_matrix self with
  | Some df, Some vectorizer, Some matrix =>
      let processed_query := preprocess_query query in
      let query_vector := transform vectorizer processed_query in
      let cosine_similarities := cosine_similarity query_vector matrix in
      fold_left
        (fun recommendations idx =>
           if Rlt_dec 0 (at_index cosine_similarities idx)
           then recommendations ++ [make_recommendation df cosine_similarities idx]
           else recommendations)
        (top_indices cosine_similarities num_recommendations)
        []
  | _, _, _ => []
  end.

(** *** Vocabulary for the properties of [recommend] *)

(** A recommender with its three attributes set. *)
Definition fitted (vectorizer : TfidfVectorizer) (matrix : list (list R))
           (df : DataFrame) : SHLRecommender :=
  {| tfidf_vectorizer := Some vectorizer;
     tfidf_matrix := Some matrix;
     data_df := Some df |}.

(** Some attribute is [None]: no index has been built. *)
Definition no_index (self : SHLRecommender) : Prop :=
  data_df self = None \/ tfidf_vectorizer self = None \/ tfidf_matrix self = None.

(** The array [cosine_similarities] that [recommend] computes for a
    query: one similarity for each row of the matrix. *)
Definition similarities (vectorizer : TfidfVectorizer) (matrix : list (list R))
           (query : text) : list R :=
  cosine_similarity (transform vectorizer (preprocess_query query)) matrix.

(** The rows [recommend] answers with, in the order of the answer. *)
Definition ranking (cosine_similarities : list R) (num_recommendations : Z)
  : list nat :=
  filter (is_relevant cosine_similarities)
         (top_indices cosine_similarities num_recommendations).

(** The number of documents whose similarity is positive. *)
Definition positive_count (cosine_similarities : list R) : nat :=
  length (filter (is_relevant cosine_similarities)
                 (seq 0 (length cosine_similarities))).

(** Documents with equal scores come in the order of the catalog. *)
Definition ties_in_catalog_order (cosine_similarities : list R)
           (results : list nat) : Prop :=
  forall i j, i < j < length results ->
    at_index cosine_similarities (nth i results 0)
    = at_index cosine_similarities (nth j results 0) ->
    nth i results 0 < nth j results 0.

(** Documents with equal scores come in the reverse order of the
    catalog. *)
Definition ties_in_reverse_catalog_order (cosine_similarities : list R)
           (results : list nat) : Prop :=
  forall i j, i < j < length results ->
    at_index cosine_similarities (nth i results 0)
    = at_index cosine_similarities (nth j results 0) ->
    nth j results 0 < nth i results 0.

(** *** The evaluation loop *)

(** One labelled query of the test file; a key that is absent is
    [None]. *)
Record TestItem : Type := {
  t_query : option text;
  t_expected_assessments : option (list text);
  t_relevant_ids : option (list text)
}.

(** [d.get(key, default)] *)
Definition dict_get {A : Type} (value : option A) (default : A) : A :=
  match value with
  | Some v => v
  | None => default
  end.

(** [not x] for a string or a list. *)
Definition is_empty {A : Type} (l : list A) : bool :=
  match l with
  | [] => true
  | _ => false
  end.

(** The elements of [set(xs)], each once. *)
Fixpoint distinct (xs : list text) : list text :=
  match xs with
  | [] => []
  | x :: rest => if text_in x rest then distinct rest else x :: distinct rest
  end.

Definition len {A : Type} (l : list A) : Q := inject_Z (Z.of_nat (length l)).

(** [len(set(recommended) & set(relevant)) / len(relevant)] *)
Definition recall_at_k (recommended_items relevant_items : list text) : Q :=
  let relevant_recommended :=
    distinct (filter (fun x => text_in x relevant_items) recommended_items) in
  if is_empty relevant_items then 0%Q
  else (len relevant_recommended / len relevant_items)%Q.

(** [enumerate(l)] *)
Definition enumerate {A : Type} (l : list A) : list (nat * A) :=
  combine (seq 0 (length l)) l.

(** The body of the inner loop, on the pair
    [(avg_precision, relevant_count)]. *)
Definition precision_step (relevant_items : list text) (state : Q * nat)
           (i_item : nat * text) : Q * nat :=
  let (avg_precision, relevant_count) := state in
  let (i, rec_item) := i_item in
  if text_in rec_item relevant_items
  then
    let relevant_count := relevant_count + 1 in
    let precision_at_i :=
      (inject_Z (Z.of_nat relevant_count) / inject_Z (Z.of_nat (i + 1)))%Q in
    ((avg_precision + precision_at_i)%Q, relevant_count)
  else (avg_precision, relevant_count).

Definition average_precision (recommended_items relevant_items : list text) : Q :=
  let avg_precision :=
    fst (fold_left (precision_step relevant_items) (enumerate recommended_items)
                   (0%Q, 0)) in
  if is_empty relevant_items then 0%Q
  else (avg_precision / len relevant_items)%Q.

(** [sum(l)] *)
Definition sum (l : list Q) : Q := fold_left Qplus l 0%Q.

(** [sum(l) / len(l) if l else 0] *)
Definition mean (l : list Q) : Q :=
  if is_empty l then 0%Q else (sum l / len l)%Q.

(** The body of the loop of [SHLRecommender.evaluate], on the pair of
    lists [(recalls, avg_precisions)]; [recommend] is [self.recommend]. *)
Definition evaluate_step (recommend : text -> Z -> list Recommendation) (k : Z)
           (state : list Q * list Q) (test_item : TestItem) : list Q * list Q :=
  let (recalls, avg_precisions) := state in
  let query := dict_get (t_query test_item) (lit "") in
  let (relevant_items, field_to_match) :=
    match t_expected_assessments test_item with
    | Some expected => (expected, rec_name)
    | None => (dict_get (t_relevant_ids test_item) [], rec_id)
    end in
  if is_empty query || is_empty relevant_items
  then (recalls, avg_precisions)
  else
    let recommendations := recommend query k in
    let recommended_items := map field_to_match recommendations in
    (recalls ++ [recall_at_k recommended_items relevant_items],
     avg_precisions ++ [average_precision recommended_items relevant_items]).

(** The method [SHLRecommender.evaluate]. *)
Definition evaluate (self : SHLRecommender) (test_queries : list TestItem) (k : Z)
  : Q * Q :=
  if is_empty test_queries then (0%Q, 0%Q)
  else
    let (recalls, avg_precisions) :=
      fold_left (evaluate_step (recommend self) k) test_queries ([], []) in
    (mean recalls, mean avg_precisions).

(** ** evaluate.py: [calculate_metrics] *)

(** The body of the loop of [calculate_metrics], on the pair of lists
    [(all_recalls, all_precisions)]. *)
Definition calculate_metrics_step (recommender : text -> Z -> list Recommendation)
           (k : Z) (state : list Q * list Q) (test_item : TestItem)
  : list Q * list Q :=
  let (all_recalls, all_precisions) := state in
  let query := dict_get (t_query test_item) (lit "") in
  let expected_assessments := dict_get (t_expected_assessments test_item) [] in
  if is_empty query || is_empty expected_assessments
  then (all_recalls, all_precisions)
  else
    let recommendations := recommender query k in
    let recommended_names := map rec_name recommendations in
    (all_recalls ++ [recall_at_k recommended_names expected_assessments],
     all_precisions ++ [average_precision recommended_names expected_assessments]).

(** [recommender] is any object with a [recommend] method; it is given
    here as that method. *)
Definition calculate_metrics (recommender : text -> Z -> list Recommendation)
           (test_queries : list TestItem) (k : Z) : Q * Q :=
  let (all_recalls, all_precisions) :=
    fold_left (calculate_metrics_step recommender k) test_queries ([], []) in
  (mean all_recalls, mean all_precisions).

(** *** Vocabulary for the properties of the harness *)

(** The expected items of a test query for [SHLRecommender.evaluate],
    and the field of a recommendation they are matched with. *)
Definition relevant_items_of (test_item : TestItem)
  : list text * (Recommendation -> text) :=
  match t_expected_assessments test_item with
  | Some expected => (expected, rec_name)
  | None => (dict_get (t_relevant_ids test_item) [], rec_id)
  end.

(** The test queries [SHLRecommender.evaluate] counts: the query text
    and the expected items are not empty. *)
Definition counted (test_item : TestItem) : bool :=
  negb (is_empty (dict_get (t_query test_item) (lit "")))
  && negb (is_empty (fst (relevant_items_of test_item))).

(** The test queries [calculate_metrics] counts. *)
Definition counted_by_name (test_item : TestItem) : bool :=
  negb (is_empty (dict_get (t_query test_item) (lit "")))
  && negb (is_empty (dict_get (t_expected_assessments test_item) [])).

(** The items recommended for a test query, read through a field. *)
Definition recommended_for (recommender : text -> Z -> list Recommendation) (k : Z)
           (field : Recommendation -> text) (test_item : TestItem) : list text :=
  map field (recommender (dict_get (t_query test_item) (lit "")) k).

(** Recall and average precision of one test query, as
    [SHLRecommender.evaluate] computes them. *)
Definition query_recall (recommender : text -> Z -> list Recommendation) (k : Z)
           (test_item : TestItem) : Q :=
  recall_at_k
    (recommended_for recommender k (snd (relevant_items_of test_item)) test_item)
    (fst (relevant_items_of test_item)).

Definition query_average_precision (recommender : text -> Z -> list Recommendation)
           (k : Z) (test_item : TestItem) : Q :=
  average_precision
    (recommended_for recommender k (snd (relevant_items_of test_item)) test_item)
    (fst (relevant_items_of test_item)).

(** The same, as [calculate_metrics] computes them. *)
Definition query_recall_by_name (recommender : text -> Z -> list Recommendation)
           (k : Z) (test_item : TestItem) : Q :=
  recall_at_k (recommended_for recommender k rec_name test_item)
              (dict_get (t_expected_assessments test_item) []).

Definition query_average_precision_by_name
           (recommender : text -> Z -> list Recommendation)
           (k : Z) (test_item : TestItem) : Q :=
  average_precision (recommended_for recommender k rec_name test_item)
                    (dict_get (t_expected_assessments test_item) []).

(** The arithmetic mean of [f] over the queries [qs], 0 if there is
    none. *)
Definition mean_over (f : TestItem -> Q) (qs : list TestItem) : Q :=
  match qs with
  | [] => 0%Q
  | _ => (fold_right (fun t acc => f t + acc) 0 qs / len qs)%Q
  end.

(** The expected items that are recommended, each once: the
    intersection of the two sets. *)
Definition common (recommended_items relevant_items : list text) : list text :=
  distinct (filter (fun y => text_in y recommended_items) relevant_items).

(** The size of the set of the items of a list: the number of its
    distinct items. *)
Definition set_size (items : list text) : Q := len (distinct items).

(** The number of relevant items among the first [j] recommended. *)
Definition hits (recommended_items relevant_items : list text) (j : nat) : nat :=
  length (filter (fun x => text_in x relevant_items) (firstn j recommended_items)).

(** The sum, over the ranks [j = 1, 2, ...] that hold a relevant item,
    of hits-so-far over [j]. *)
Definition precision_sum (recommended_items relevant_items : list text) : Q :=
  fold_right Qplus 0%Q
    (map (fun j =>
            if text_in (nth (j - 1) recommended_items []) relevant_items
            then (inject_Z (Z.of_nat (hits recommended_items relevant_items j))
                  / inject_Z (Z.of_nat j))%Q
            else 0%Q)
         (seq 1 (length recommended_items))).

(** ** app.py: the [/recommend] handler *)

Record QueryInput : Type := {
  qi_query : text;
  qi_num_recommendations : Z
}.

Record AssessmentOutput : Type := {
  out_id : text;
  out_name : text;
  out_url : text;
  out_remote_support : bool;
  out_adaptive_irt : bool;
  out_test_types : list text;
  out_duration : Z;
  out_similarity_score : R
}.

Record RecommendationResponse : Type := {
  resp_query : text;
  resp_recommendations : list AssessmentOutput
}.

(** [startup_event]: the module variable [recommender] stays [None]
    when the constructor raises. *)
Definition startup_event (DATA_FILE : file_content) : option SHLRecommender :=
  match SHLRecommender_init (Some DATA_FILE) None with
  | Ok r => Some r
  | Raise _ => None
  end.

(** The field constraints [ge=1, le=10] of [QueryInput]. *)
Definition validate (input_data : QueryInput) : pyresult QueryInput :=
  if ((1 <=? qi_num_recommendations input_data)
      && (qi_num_recommendations input_data <=? 10))%Z
  then Ok input_data
  else Raise RequestValidationError.

Definition assessment_output (rec : Recommendation) : AssessmentOutput :=
  {| out_id := rec_id rec; out_name := rec_name rec; out_url := rec_url rec;
     out_remote_support := rec_remote_support rec;
     out_adaptive_irt := rec_adaptive_irt rec;
     out_test_types := rec_test_types rec;
     out_duration := rec_duration rec;
     out_similarity_score := similarity_score rec |}.

(** The handler of [POST /recommend], with the module variable
    [recommender] as an argument. *)
Definition app_recommend (recommender : option SHLRecommender) (input_data : QueryInput)
  : pyresult RecommendationResponse :=
  input_data <- validate input_data ;;
  match recommender with
  | None => Raise (HTTPException 503)
  | Some r =>
      let recommendations :=
        recommend r (qi_query input_data) (qi_num_recommendations input_data) in
      Ok {| resp_query := qi_query input_data;
            resp_recommendations := map assessment_output recommendations |}
  end.

End Recommender.

(** ** app.py: [recommend_get] and [health_check] *)

Section Service.
Context {Sigma : Alphabet} {AS : ArgSort} {SW : StopWords}.

(** The handler of [GET /recommend]: it builds the input of the [POST]
    handler and calls it. *)
Definition app_recommend_get (recommender : option SHLRecommender) (query : text)
           (num_recommendations : Z) : pyresult RecommendationResponse :=
  let input_data := {| qi_query := query;
                       qi_num_recommendations := num_recommendations |} in
  app_recommend recommender input_data.

(** The answer of [GET /health]. *)
Inductive Health : Type :=
| HealthError (message : string)
| Healthy (assessments_count : nat).

Definition health_check (recommender : option SHLRecommender) : Health :=
  match recommender with
  | None => HealthError "Recommender not initialized"
  | Some r =>
      match data_df r, tfidf_matrix r with
      | Some df, Some _ => Healthy (length (rows df))
      | _, _ => HealthError "Recommender data not loaded"
      end
  end.

(** ** evaluate.py: [load_test_queries] *)

(** What opening and parsing the test file gives. *)
Inductive test_file_content : Type :=
| NoSuchTestFile
| TestNotJson
| TestUnreadable
| JsonTestItems (items : list TestItem).

Definition json_load_tests (f : test_file_content) : pyresult (list TestItem) :=
  match f with
  | NoSuchTestFile => Raise FileNotFoundError
  | TestNotJson => Raise JSONDecodeError
  | TestUnreadable => Raise OtherException
  | JsonTestItems items => Ok items
  end.

(** The lines the loader prints. *)
Inductive loader_message : Type :=
| MissingFieldWarning (index : nat)
| FileNotFoundMessage
| InvalidJsonMessage
| LoadingErrorMessage.

(** ['query' not in query or 'expected_assessments' not in query] *)
Definition lacks_field (test_item : TestItem) : bool :=
  match t_query test_item, t_expected_assessments test_item with
  | Some _, Some _ => false
  | _, _ => true
  end.

(** The test queries that are returned, and what is printed. *)
Definition load_test_queries (test_file : test_file_content)
  : list TestItem * list loader_message :=
  match json_load_tests test_file with
  | Ok test_queries =>
      (test_queries,
       fold_left
         (fun printed i_query =>
            if lacks_field (snd i_query)
            then printed ++ [MissingFieldWarning (fst i_query)]
            else printed)
         (enumerate test_queries) [])
  | Raise FileNotFoundError => ([], [FileNotFoundMessage])
  | Raise JSONDecodeError => ([], [InvalidJsonMessage])
  | Raise _ => ([], [LoadingErrorMessage])
  end.

(** ** run_evaluation.py: [main] *)

Definition k_values : list Z := [1; 3; 5; 10]%Z.

(** The dictionary [results], one entry [(k, (recall, map))] for each
    k; [None] when the test file or the recommender cannot be loaded
    and [main] returns early. *)
Definition run_evaluation (test_file : test_file_content) (data_file : file_content)
  : option (list (Z * (Q * Q))) :=
  match json_load_tests test_file with
  | Raise _ => None
  | Ok test_queries =>
      match SHLRecommender_init (Some data_file) None with
      | Raise _ => None
      | Ok recommender =>
          Some (map (fun k => (k, calculate_metrics (recommend recommender)
                                                    test_queries k))
                    k_values)
      end
  end.

(** ** streamlit_app.py: [get_recommendations] *)

(** What the function finds around it: the catalog file
    [shl_assessments.json] if it exists, whether [API_URL] starts with
    [http], and the service behind [API_URL], given by the state of its
    module variable [recommender] ([None] when the request raises). *)
Record Environment : Type := {
  local_catalog : option file_content;
  api_url_is_http : bool;
  api_service : option (option SHLRecommender)
}.

(** The dictionary returned: the recommendations are those of the
    local recommender or the ones decoded from the answer of the
    service. *)
Record UiResponse : Type := {
  ui_query : text;
  ui_recommendations : list (Recommendation + AssessmentOutput)
}.

Definition get_recommendations (env : Environment) (query : text)
           (num_recommendations : Z) : UiResponse :=
  let failed := {| ui_query := query; ui_recommendations := [] |} in
  match local_catalog env, api_url_is_http env with
  | Some data_file, false =>
      match SHLRecommender_init (Some data_file) None with
      | Ok recommender =>
          let recommendations := recommend recommender query num_recommendations in
          {| ui_query := query; ui_recommendations := map inl recommendations |}
      | Raise _ => failed
      end
  | _, _ =>
      match api_service env with
      | Some service =>
          match app_recommend_get service query num_recommendations with
          | Ok response =>
              {| ui_query := resp_query response;
                 ui_recommendations := map inr (resp_recommendations response) |}
          | Raise _ => failed
          end
      | None => failed
      end
  end.

End Service.

(** ** Vocabulary for further properties *)

Section MoreVocabulary.
Context {Sigma : Alphabet}.

(** The text does not start with whitespace. *)
Definition starts_clean (s : text) : Prop :=
  match s with
  | c :: _ => isspace c = false
  | [] => True
  end.

(** No whitespace character is followed by another one. *)
Fixpoint single_spaced (s : text) : Prop :=
  match s with
  | a :: (b :: _) as rest => (isspace a = true -> isspace b = false) /\ single_spaced rest
  | _ => True
  end.

(** A character the normaliser lets through: a word character or a
    hyphen that is not whitespace. *)
Definition kept_char (c : char) : Prop :=
  isspace c = false
  /\ (isalnum c || char_eqb c c_underscore || char_eqb c c_hyphen) = true.

(** The records of the catalog file have the key [key]. *)
Definition has_key (key : string) (keys : list string) : bool :=
  existsb (String.eqb key) keys.

(** The text fitted for one row of a frame: the cleaned description
    (the empty string when the frame has no such column), followed,
    when the frame has the column [test_types], by a space and the test
    types joined by a comma and a space. *)
Definition row_document (df : DataFrame) (r : Row) : text :=
  let description :=
    clean_text (if has_column "description" df then row_description r
                else PyStr (lit "")) in
  if has_column "test_types" df
  then description ++ lit " " ++ str_join (lit ", ") (row_test_types r)
  else description.

(** The text fitted for one record of a catalog file whose records have
    the keys [keys]. *)
Definition catalog_document (keys : list string) (a : Assessment) : text :=
  let description :=
    clean_text (if has_key "description" keys then a_description a
                else PyStr (lit "")) in
  if has_key "test_types" keys
  then description ++ lit " " ++ str_join (lit ", ") (a_test_types a)
  else description.

(** The records of the catalog file do not have the key
    [test_types_str], the name of a column that the preprocessing
    derives. *)
Definition no_derived_key (file_path : file_content) : Prop :=
  forall keys data,
    file_path = JsonRecords keys data -> has_key "test_types_str" keys = false.

(** The frame that [SHLRecommender.load_data] hands to
    [load_dataframe] for a catalog file with records. *)
Definition features_frame (keys : list string) (data : list Assessment) : DataFrame :=
  get_features_for_recommendation (preprocess_data (DataFrame_of keys data)).

(** The cells of a row that come from the catalog file, the
    description apart. *)
Definition catalog_cells (r : Row)
  : text * text * text * bool * bool * list text * Z :=
  (row_id r, row_name r, row_url r, row_remote_support r,
   row_adaptive_irt r, row_test_types r, row_duration r).

End MoreVocabulary.

(** ** The scores in binary64

    scikit-learn computes in float64.  The definitions of this module
    repeat the arithmetic of [transform], of [cosine_similarity] and of
    the loop of [recommend] on binary64 numbers, with the sums taken
    from left to right as the loops of the library take them; the text
    part ([preprocess_query], [analyze], [term_count]) is the one above.
    The logarithm is not among the primitive operations: the weights
    [idf_] of a fitted vectorizer are part of its state and are taken
    as they are. *)

Module Binary64.
Import PrimFloat.

Section Scores.
Context {Sigma : Alphabet}.
Local Open Scope float_scope.

Record TfidfVectorizer : Type := {
  vocabulary_ : list text;
  idf_ : list float;
  stop_words : list text
}.

(** A term count as a float; a count is exact up to [2^53]. *)
Fixpoint of_count (n : nat) : float :=
  match n with
  | O => 0
  | S n' => of_count n' + 1
  end.

Definition at_index (a : list float) (i : nat) : float := nth i a 0.

Definition sum_sq (v : list float) : float :=
  fold_left (fun acc x => acc + x * x) v 0.

(** [normalize(v, norm='l2')]: a row of norm zero is left as it is. *)
Definition l2_normalize (v : list float) : list float :=
  let norm := sqrt (sum_sq v) in
  let norm := if norm =? 0 then 1 else norm in
  map (fun x => x / norm) v.

Definition dot (u v : list float) : float :=
  fold_left (fun acc xy => acc + fst xy * snd xy) (combine u v) 0.

(** [vectorizer.transform([doc])], as a dense row. *)
Definition transform (vec : TfidfVectorizer) (doc : text) : list float :=
  let terms := analyze (stop_words vec) doc in
  let counts := map (fun t => term_count t terms) (vocabulary_ vec) in
  let weighted := map (fun cw => of_count (fst cw) * snd cw) (combine counts (idf_ vec)) in
  l2_normalize weighted.

(** [cosine_similarity(x, Y).flatten()] for a single row [x]. *)
Definition cosine_similarity (x : list float) (Y : list (list float)) : list float :=
  map (fun y => dot (l2_normalize x) (l2_normalize y)) Y.

(** The insertion sort that numpy's default sort kind runs on a short
    array. *)
Fixpoint insert_index (a : list float) (i : nat) (sorted : list nat) : list nat :=
  match sorted with
  | [] => [i]
  | j :: rest =>
      if at_index a i <=? at_index a j
      then i :: sorted
      else j :: insert_index a i rest
  end.

Definition argsort (a : list float) : list nat :=
  fold_right (insert_index a) [] (seq 0 (length a)).

(** The fitted part of [SHLRecommender.recommend]: of each
    recommendation, the row it is read from and its
    [similarity_score]. *)
Definition recommend (vectorizer : TfidfVectorizer) (matrix : list (list float))
           (query : text) (num_recommendations : Z) : list (nat * float) :=
  let processed_query := preprocess_query query in
  let query_vector := transform vectorizer processed_query in
  let cosine_similarities := cosine_similarity query_vector matrix in
  let top_indices :=
    rev (slice_from (- num_recommendations) (argsort cosine_similarities)) in
  fold_left
    (fun recommendations idx =>
       if 0 <? at_index cosine_similarities idx
       then recommendations ++ [(idx, at_index cosine_similarities idx)]
       else recommendations)
    top_indices
    [].

(** The float that follows 1: [1 + 2^-52], printed
    1.0000000000000002. *)
Definition after_one : float := 0x1.0000000000001p+0.

(** [score > 1] *)
Definition above_one (score : float) : bool := 1 <? score.

End Scores.

End Binary64.

(** ** ASCII text *)

Definition ascii_isalnum (c : ascii) : bool :=
  let n := N_of_ascii c in
  ((48 <=? n) && (n <=? 57) || (65 <=? n) && (n <=? 90) || (97 <=? n) && (n <=? 122))%N.

Definition ascii_isspace (c : ascii) : bool :=
  let n := N_of_ascii c in
  ((9 <=? n) && (n <=? 13) || (28 <=? n) && (n <=? 32))%N.

Definition ascii_lower (c : ascii) : ascii :=
  let n := N_of_ascii c in
  if ((65 <=? n) && (n <=? 90))%N then ascii_of_N (n + 32) else c.

(** Python's classification of the characters below 128; the bytes
    above are taken as symbols, neither alphanumeric nor whitespace. *)
#[export] Instance Ascii_alphabet : Alphabet := {|
  char := ascii;
  ord := N_of_ascii;
  chr := ascii_of_N;
  ord_inj := fun a b H =>
    eq_trans (eq_sym (ascii_N_embedding a))
             (eq_trans (f_equal ascii_of_N H) (ascii_N_embedding b));
  isalnum := ascii_isalnum;
  isspace := ascii_isspace;
  str_lower := map ascii_lower;
  str_lower_nil := eq_refl
|}.

(** A few stop words, for the examples. *)
#[export] Instance Some_stop_words : StopWords (Sigma := Ascii_alphabet) := {|
  ENGLISH_STOP_WORDS := [lit "a"; lit "and"; lit "of"; lit "the"]
|}.

(** ** Example data *)

Definition assessment (name : string) (description : string) : Assessment :=
  {| a_id := lit name; a_name := lit name; a_url := lit "";
     a_remote_support := false; a_adaptive_irt := false;
     a_test_types := []; a_description := PyStr (lit description);
     a_duration := 0%Z |}.

(** A catalog of two assessments with the same text. *)
Definition twin_catalog : list Assessment :=
  [assessment "A" "Sales"; assessment "B" "sales!"].

(** The frame [SHLRecommender.load_data] makes of it. *)
Definition twin_row (name : string) : Row :=
  {| row_id := lit name; row_name := lit name; row_url := lit "";
     row_remote_support := false; row_adaptive_irt := false;
     row_test_types := []; row_description := PyStr (lit "sales");
     row_duration := 0%Z;
     row_test_types_str := Some (lit "");
     row_remote_support_display := Some (lit "No");
     row_adaptive_irt_display := Some (lit "No");
     row_combined_features := Some (lit "sales ") |}.

Definition twin_frame : DataFrame :=
  {| columns :=
       required_columns
         ++ ["test_types_str"; "remote_support_display";
             "adaptive_irt_display"; "combined_features"]%string;
     rows := [twin_row "A"; twin_row "B"] |}.

(** The index fitted on it: one term, found in both documents. *)
Definition twin_vectorizer : TfidfVectorizer :=
  {| vocabulary_ := [lit "sales"]; idf_ := [1%R];
     stop_words := ENGLISH_STOP_WORDS |}.

Definition twin_matrix : list (list R) := [[1%R]; [1%R]].

Definition twin_recommender : SHLRecommender :=
  fitted twin_vectorizer twin_matrix twin_frame.

(** What [recommend] answers for one row of a frame, with a given
    score. *)
Definition recommendation_of (name : string) (score : R) : Recommendation :=
  {| rec_id := lit name; rec_name := lit name; rec_url := lit "";
     rec_remote_support := false; rec_adaptive_irt := false;
     rec_test_types := []; rec_description := PyStr (lit "sales");
     rec_duration := 0%Z; similarity_score := score |}.

(** A recommender object that answers every query with A, then B. *)
Definition ranked_A_B (query : text) (k : Z) : list Recommendation :=
  [recommendation_of "A" 1; recommendation_of "B" (1 / 2)].

Definition test_item (query : string) (expected : list string) : TestItem :=
  {| t_query := Some (lit query);
     t_expected_assessments := Some (map lit expected);
     t_relevant_ids := None |}.

(** A catalog whose only record has no text. *)
Definition blank_catalog : list Assessment := [assessment "A" ""].

(** A request for five recommendations. *)
Definition sales_request : QueryInput :=
  {| qi_query := lit "Sales?"; qi_num_recommendations := 5 |}.


(** A catalog of one assessment, described by two words. *)
Definition manager_catalog : list Assessment := [assessment "A" "Sales manager"].

(** The index fitted on it has three terms, each found once in the one
    document, with weight [ln (2 / 2) + 1 = 1]; here it is in binary64,
    with the row that [transform] computes for the document. *)
Definition manager_vectorizer : Binary64.TfidfVectorizer :=
  {| Binary64.vocabulary_ := [lit "manager"; lit "sales"; lit "sales manager"];
     Binary64.idf_ := [Binary64.of_count 1; Binary64.of_count 1; Binary64.of_count 1];
     Binary64.stop_words := ENGLISH_STOP_WORDS |}.

Definition manager_matrix : list (list PrimFloat.float) :=
  [Binary64.transform manager_vectorizer (lit "sales manager ")].

(** A test query in the older format, labelled by ids. *)
Definition old_test_item (query : string) (ids : list string) : TestItem :=
  {| t_query := Some (lit query);
     t_expected_assessments := None;
     t_relevant_ids := Some (map lit ids) |}.

(** * Properties *)

(** ** Text *)

Section TextFacts.
Context {Sigma : Alphabet}.

Lemma char_eqb_eq (a b : char) : char_eqb a b = true <-> a = b.
Proof.
  unfold char_eqb. rewrite N.eqb_eq. split.
  - apply ord_inj.
  - intros ->. reflexivity.
Qed.

Lemma text_eqb_eq (s t : text) : text_eqb s t = true <-> s = t.
Proof.
  revert t. induction s as [|a s IH]; intros [|b t]; simpl; try (split; congruence).
  rewrite andb_true_iff, char_eqb_eq, IH. split.
  - intros [-> ->]. reflexivity.
  - intros H. injection H as -> ->. split; reflexivity.
Qed.

Lemma text_eqb_refl (s : text) : text_eqb s s = true.
Proof. apply text_eqb_eq. reflexivity. Qed.

Lemma text_in_In (x : text) (xs : list text) : text_in x xs = true <-> In x xs.
Proof.
  unfold text_in. rewrite existsb_exists. split.
  - intros [y [Hy E]]. apply text_eqb_eq in E. subst. assumption.
  - intros H. exists x. split; [assumption | apply text_eqb_refl].
Qed.

(** A class pattern rewrites character by character. *)
Lemma re_sub_class (p : char -> bool) (r : char) (s : text) :
  re_sub (Class p) [r] s = map (fun c => if p c then r else c) s.
Proof.
  unfold re_sub. induction s as [|c s IH]; simpl; [reflexivity|].
  destruct (p c); simpl; rewrite IH; reflexivity.
Qed.

(** Within a run of whitespace the scan drops what is left of the run;
    outside, it opens a new run at the first whitespace character. *)
Lemma re_sub_spaces_runs (s : text) :
  re_sub_from spaces [c_space] 0 s = collapse_runs false s
  /\ re_sub_from spaces [c_space] (length (takeWhile isspace s)) s
     = collapse_runs true s.
Proof.
  induction s as [|c s [IH0 IHrun]]; [split; reflexivity|].
  assert (H0 : re_sub_from spaces [c_space] 0 (c :: s) = collapse_runs false (c :: s)).
  { simpl. destruct (isspace c); simpl.
    - rewrite IHrun. reflexivity.
    - rewrite IH0. reflexivity. }
  split; [exact H0|].
  cbn [takeWhile]. destruct (isspace c) eqn:Hc.
  - cbn [length re_sub_from collapse_runs]. rewrite Hc. exact IHrun.
  - cbn [length]. rewrite H0. simpl. rewrite Hc. reflexivity.
Qed.

Lemma re_sub_spaces (s : text) :
  re_sub spaces [c_space] s = collapse_runs false s.
Proof. apply re_sub_spaces_runs. Qed.

Lemma re_sub_disallowed (s : text) :
  re_sub not_word_space_hyphen [c_space] s = replace_disallowed s.
Proof.
  unfold not_word_space_hyphen. rewrite re_sub_class.
  unfold replace_disallowed. apply map_ext. intros c.
  unfold allowed, is_word. destruct (_ || _ || _ || _); reflexivity.
Qed.

Lemma preprocess_query_nil : preprocess_query [] = [].
Proof. unfold preprocess_query. rewrite str_lower_nil. reflexivity. Qed.

End TextFacts.

(** C8. The text normaliser [clean_text] lowercases, replaces each
    character that is not alphanumeric, underscore, whitespace or hyphen
    by a space, collapses whitespace runs to a single space and trims;
    on a value that is not a string it returns the empty string. *)
Theorem clean_text_normalizes {Sigma : Alphabet} (v : pyval) :
  clean_text v =
  match v with
  | PyStr s => normalize_spec s
  | _ => []
  end.
Proof.
  destruct v; try reflexivity.
  unfold clean_text, normalize_spec.
  rewrite re_sub_disallowed, re_sub_spaces. reflexivity.
Qed.

(** C9. The normaliser applied to catalog text at fit time
    ([clean_text]) and the one applied to the query ([preprocess_query])
    are the same function on strings. *)
Theorem preprocess_query_is_clean_text {Sigma : Alphabet} (query : text) :
  preprocess_query query = clean_text (PyStr query).
Proof. reflexivity. Qed.

Example clean_text_punctuation :
  clean_text (PyStr (lit "  Java/C++ Developer,   (Entry-Level)  "))
  = lit "java c developer entry-level".
Proof. reflexivity. Qed.

Example clean_text_missing_cell : clean_text PyNaN = lit "".
Proof. reflexivity. Qed.

Example analyze_sales_manager :
  analyze ENGLISH_STOP_WORDS (lit "the sales manager of a team")
  = [lit "sales"; lit "manager"; lit "team";
     lit "sales manager"; lit "manager team"; lit "sales manager team"].
Proof. reflexivity. Qed.

(** ** Vectors, norms and the cosine *)

Section VectorFacts.
Local Open Scope R_scope.

Lemma sum_sq_nonneg (v : list R) : 0 <= sum_sq v.
Proof.
  induction v as [|x v IH]; simpl; [lra|].
  pose proof (Rle_0_sqr x) as Hx. unfold Rsqr in Hx. lra.
Qed.

Lemma sum_sq_scale (c : R) (v : list R) :
  c <> 0 -> sum_sq (map (fun x => x / c) v) = sum_sq v / (c * c).
Proof.
  intros Hc. induction v as [|x v IH]; simpl.
  - unfold Rdiv. ring.
  - rewrite IH. field. assumption.
Qed.

Lemma square_le (x y : R) : 0 <= y -> x * x <= y * y -> x <= y.
Proof.
  intros Hy H. destruct (Rle_dec x y) as [|Hn]; [assumption|].
  exfalso. assert (y < x) by lra. nra.
Qed.

(** The Cauchy-Schwarz inequality, for rows of any two lengths. *)
Lemma dot_sq_le (u v : list R) : dot u v * dot u v <= sum_sq u * sum_sq v.
Proof.
  revert v. induction u as [|x u IH]; intros [|y v]; simpl;
    try (rewrite ?Rmult_0_r, ?Rmult_0_l; lra).
  - pose proof (sum_sq_nonneg u) as HA. pose proof (sum_sq_nonneg v) as HB.
    specialize (IH v).
    set (S := dot u v) in *. set (A := sum_sq u) in *. set (B := sum_sq v) in *.
    clearbody S A B.
    pose proof (Rle_0_sqr x) as Hx. pose proof (Rle_0_sqr y) as Hy.
    unfold Rsqr in Hx, Hy.
    assert (Hcross : 2 * (x * y) * S <= x * x * B + y * y * A).
    { apply square_le.
      - pose proof (Rmult_le_pos _ _ Hx HB). pose proof (Rmult_le_pos _ _ Hy HA). lra.
      - pose proof (Rle_0_sqr (x * x * B - y * y * A)) as Hsq. unfold Rsqr in Hsq.
        pose proof (Rmult_le_compat_l _ _ _ (Rmult_le_pos _ _ Hx Hy) IH) as Hm.
        replace (2 * (x * y) * S * (2 * (x * y) * S))
          with (4 * (x * x * (y * y) * (S * S))) by ring.
        replace ((x * x * B + y * y * A) * (x * x * B + y * y * A))
          with ((x * x * B - y * y * A) * (x * x * B - y * y * A)
                + 4 * (x * x * (y * y) * (A * B))) by ring.
        lra. }
    replace ((x * y + S) * (x * y + S))
      with (x * x * (y * y) + 2 * (x * y) * S + S * S) by ring.
    replace ((x * x + A) * (y * y + B))
      with (x * x * (y * y) + (x * x * B + y * y * A) + A * B) by ring.
    lra.
Qed.

Lemma sum_sq_l2_normalize (v : list R) : sum_sq (l2_normalize v) <= 1.
Proof.
  unfold l2_normalize. pose proof (sum_sq_nonneg v) as Hv.
  destruct (Req_dec_T (sqrt (sum_sq v)) 0) as [E|N].
  - apply sqrt_eq_0 in E; [|assumption].
    rewrite sum_sq_scale by lra. rewrite E. lra.
  - rewrite sum_sq_scale by assumption.
    rewrite sqrt_sqrt by assumption.
    assert (sum_sq v <> 0) by (intros Z; apply N; rewrite Z; apply sqrt_0).
    right. field. assumption.
Qed.

Lemma dot_l2_normalize_le_1 (x y : list R) :
  dot (l2_normalize x) (l2_normalize y) <= 1.
Proof.
  pose proof (dot_sq_le (l2_normalize x) (l2_normalize y)) as H.
  pose proof (sum_sq_l2_normalize x) as Hx.
  pose proof (sum_sq_l2_normalize y) as Hy.
  pose proof (sum_sq_nonneg (l2_normalize x)) as Hx0.
  pose proof (sum_sq_nonneg (l2_normalize y)) as Hy0.
  apply square_le; [lra|]. nra.
Qed.

(** In exact arithmetic every cosine similarity, and the value read
    past the end of the array, is at most 1.  The bound does not
    survive rounding (module [Binary64]); no property of [recommend]
    below rests on it. *)
Lemma cosine_similarity_le_1 (x : list R) (Y : list (list R)) (i : nat) :
  at_index (cosine_similarity x Y) i <= 1.
Proof.
  unfold at_index, cosine_similarity.
  destruct (Nat.lt_ge_cases i (length Y)) as [Hi|Hi].
  - rewrite nth_indep with (d' := dot (l2_normalize x) (l2_normalize [])).
    + rewrite map_nth with (f := fun y => dot (l2_normalize x) (l2_normalize y)).
      apply dot_l2_normalize_le_1.
    + rewrite length_map. assumption.
  - rewrite nth_overflow; [lra|]. rewrite length_map. assumption.
Qed.

(** *** The zero vector *)

Lemma l2_normalize_zero (v : list R) : all_zero v -> all_zero (l2_normalize v).
Proof.
  unfold all_zero, l2_normalize. intros H. apply Forall_map.
  eapply Forall_impl; [|exact H]. intros x ->. unfold Rdiv. apply Rmult_0_l.
Qed.

Lemma dot_zero_l (u v : list R) : all_zero u -> dot u v = 0.
Proof.
  intros H. revert v. induction H as [|x u Hx _ IH]; intros [|y v]; simpl; try reflexivity.
  rewrite IH, Hx. ring.
Qed.

Lemma cosine_similarity_zero (x : list R) (Y : list (list R)) (i : nat) :
  all_zero x -> at_index (cosine_similarity x Y) i = 0.
Proof.
  intros Hx. unfold at_index, cosine_similarity.
  destruct (Nat.lt_ge_cases i (length Y)) as [Hi|Hi].
  - rewrite nth_indep with (d' := dot (l2_normalize x) (l2_normalize [])).
    + rewrite map_nth with (f := fun y => dot (l2_normalize x) (l2_normalize y)).
      apply dot_zero_l, l2_normalize_zero, Hx.
    + rewrite length_map. assumption.
  - apply nth_overflow. rewrite length_map. assumption.
Qed.

End VectorFacts.

Section TransformFacts.
Context {Sigma : Alphabet}.

Lemma analyze_nil (stop : list text) : analyze stop [] = [].
Proof. unfold analyze. rewrite str_lower_nil. reflexivity. Qed.

(** The empty document has no term: its row is the zero vector. *)
Lemma transform_nil (vec : TfidfVectorizer) : all_zero (transform vec []).
Proof.
  unfold transform. apply l2_normalize_zero. rewrite analyze_nil.
  unfold all_zero. apply Forall_map.
  generalize (idf_ vec). induction (vocabulary_ vec) as [|t ts IH]; intros [|w ws];
    simpl; constructor.
  - simpl. apply Rmult_0_l.
  - apply IH.
Qed.

End TransformFacts.

(** ** Sorted lists *)

Section SortedFacts.
Variable A : Type.

Lemma StronglySorted_weaken (Rel : A -> A -> Prop) (Rel' : A -> A -> Prop) (l : list A) :
  (forall x y, Rel x y -> Rel' x y) -> StronglySorted Rel l -> StronglySorted Rel' l.
Proof.
  intros Hw H. induction H as [|x l _ IH Hx]; constructor; [assumption|].
  eapply Forall_impl; [|exact Hx]. intros y. apply Hw.
Qed.

Lemma StronglySorted_skipn (Rel : A -> A -> Prop) (n : nat) (l : list A) :
  StronglySorted Rel l -> StronglySorted Rel (skipn n l).
Proof.
  revert l. induction n as [|n IH]; intros l H; [exact H|].
  destruct l as [|x l]; [constructor|]. simpl. apply IH.
  apply StronglySorted_inv in H. apply H.
Qed.

Lemma StronglySorted_filter (Rel : A -> A -> Prop) (p : A -> bool) (l : list A) :
  StronglySorted Rel l -> StronglySorted Rel (filter p l).
Proof.
  intros H. induction H as [|x l _ IH Hx]; simpl; [constructor|].
  destruct (p x); [|assumption]. constructor; [assumption|].
  rewrite Forall_forall in *. intros y Hy. apply filter_In in Hy. apply Hx, Hy.
Qed.

Lemma StronglySorted_snoc (Rel : A -> A -> Prop) (l : list A) (x : A) :
  StronglySorted Rel l -> Forall (fun y => Rel y x) l -> StronglySorted Rel (l ++ [x]).
Proof.
  intros H. induction H as [|y l _ IH Hy]; intros Hx; simpl.
  - constructor; constructor.
  - inversion Hx as [|? ? Hyx Hlx]; subst. constructor; [apply IH, Hlx|].
    apply Forall_app. split; [assumption|]. constructor; [assumption|constructor].
Qed.

Lemma StronglySorted_rev (Rel : A -> A -> Prop) (l : list A) :
  StronglySorted Rel l -> StronglySorted (fun x y => Rel y x) (rev l).
Proof.
  intros H. induction H as [|x l _ IH Hx]; simpl; [constructor|].
  apply StronglySorted_snoc; [assumption|].
  rewrite Forall_forall in *. intros y Hy. apply Hx. apply in_rev. assumption.
Qed.

Lemma StronglySorted_nth (Rel : A -> A -> Prop) (l : list A) (d : A) (i j : nat) :
  StronglySorted Rel l -> i < j < length l -> Rel (nth i l d) (nth j l d).
Proof.
  intros H. revert i j. induction H as [|x l _ IH Hx]; intros i j [Hij Hj]; simpl in *.
  - lia.
  - destruct j as [|j]; [lia|]. destruct i as [|i].
    + rewrite Forall_forall in Hx. apply Hx, nth_In. lia.
    + apply IH. lia.
Qed.

End SortedFacts.

Lemma StronglySorted_map (A B : Type) (f : A -> B) (Rel : B -> B -> Prop) (l : list A) :
  StronglySorted (fun x y => Rel (f x) (f y)) l -> StronglySorted Rel (map f l).
Proof.
  intros H. induction H as [|x l _ IH Hx]; simpl; constructor; [assumption|].
  apply Forall_map. assumption.
Qed.

Lemma filter_none (A : Type) (p : A -> bool) (l : list A) :
  (forall x, p x = false) -> filter p l = [].
Proof.
  intros H. induction l as [|x l IH]; simpl; [reflexivity|]. rewrite H. exact IH.
Qed.

Lemma filter_length_Permutation (A : Type) (p : A -> bool) (l l' : list A) :
  Permutation l l' -> length (filter p l) = length (filter p l').
Proof.
  intros H. induction H; simpl.
  - reflexivity.
  - destruct (p x); simpl; congruence.
  - destruct (p x), (p y); reflexivity.
  - congruence.
Qed.

(** In a list that ascends for [key], the elements above a threshold
    are at the end: a suffix has as many of them as its length
    allows. *)
Lemma sorted_suffix_count (A : Type) (key : A -> R) (p : A -> bool) (l : list A) :
  (forall x y, (key x <= key y)%R -> p x = true -> p y = true) ->
  StronglySorted (fun x y => (key x <= key y)%R) l ->
  forall m, length (filter p (skipn m l)) = Nat.min (length l - m) (length (filter p l)).
Proof.
  intros Hp H. induction H as [|x l Hl IH Hx]; intros m.
  - rewrite skipn_nil. simpl. lia.
  - pose proof (filter_length_le p l) as Hle.
    destruct m as [|m].
    + pose proof (filter_length_le p (x :: l)) as Hle'. rewrite skipn_O. lia.
    + cbn [skipn length]. rewrite IH. cbn [filter]. destruct (p x) eqn:Epx.
      * assert (Hall : filter p l = l).
        { apply forallb_filter_id. apply forallb_forall. intros y Hy.
          rewrite Forall_forall in Hx. apply (Hp x y); [apply Hx, Hy | exact Epx]. }
        rewrite Hall. cbn [length]. lia.
      * lia.
Qed.

(** ** Slices *)

Lemma slice_from_0 (A : Type) (l : list A) : slice_from 0 l = l.
Proof.
  unfold slice_from. simpl. rewrite Z.min_l by lia. reflexivity.
Qed.

Example slice_last_two : slice_from (- 2) [10; 20; 30] = [20; 30].
Proof. reflexivity. Qed.

Example slice_last_five : slice_from (- 5) [10; 20; 30] = [10; 20; 30].
Proof. reflexivity. Qed.

Example slice_last_none : slice_from (- 0) [10; 20; 30] = [10; 20; 30].
Proof. reflexivity. Qed.

Lemma slice_from_last (A : Type) (k : Z) (l : list A) :
  (1 <= k)%Z -> slice_from (- k) l = skipn (length l - Z.to_nat k) l.
Proof.
  intros Hk. unfold slice_from.
  destruct (Z.ltb_spec (- k) 0) as [_|H]; [|lia].
  f_equal. lia.
Qed.

(** ** The ranking *)

Section RankingFacts.
Context {AS : ArgSort}.

Lemma argsort_length (a : list R) : length (argsort a) = length a.
Proof.
  rewrite (Permutation_length (argsort_perm a)). apply length_seq.
Qed.

Lemma argsort_In (a : list R) (i : nat) : In i (argsort a) <-> i < length a.
Proof.
  split; intros H.
  - apply (Permutation_in _ (argsort_perm a)) in H. apply in_seq in H. lia.
  - apply (Permutation_in _ (Permutation_sym (argsort_perm a))). apply in_seq. lia.
Qed.

Lemma argsort_NoDup (a : list R) : NoDup (argsort a).
Proof.
  apply (Permutation_NoDup (Permutation_sym (argsort_perm a))). apply seq_NoDup.
Qed.

Lemma is_relevant_true (a : list R) (i : nat) :
  is_relevant a i = true <-> (0 < at_index a i)%R.
Proof.
  unfold is_relevant. destruct (Rlt_dec 0 (at_index a i)); split; congruence || auto.
Qed.

Lemma is_relevant_monotone (a : list R) (i j : nat) :
  (at_index a i <= at_index a j)%R -> is_relevant a i = true -> is_relevant a j = true.
Proof.
  rewrite !is_relevant_true. lra.
Qed.

Lemma positive_count_argsort (a : list R) :
  length (filter (is_relevant a) (argsort a)) = positive_count a.
Proof.
  unfold positive_count. apply filter_length_Permutation, argsort_perm.
Qed.

Lemma top_indices_incl (a : list R) (k : Z) (i : nat) :
  In i (top_indices a k) -> In i (argsort a).
Proof.
  unfold top_indices, slice_from. intros H. apply in_rev in H.
  remember (Z.to_nat _) as m eqn:Em. clear Em.
  rewrite <- (firstn_skipn m (argsort a)). apply in_or_app. right. exact H.
Qed.

Lemma top_indices_NoDup (a : list R) (k : Z) : NoDup (top_indices a k).
Proof.
  unfold top_indices, slice_from.
  remember (Z.to_nat _) as m eqn:Em. clear Em.
  apply NoDup_rev. pose proof (argsort_NoDup a) as H.
  rewrite <- (firstn_skipn m (argsort a)) in H.
  apply NoDup_app_remove_l in H. exact H.
Qed.

Lemma ranking_In (a : list R) (k : Z) (i : nat) :
  In i (ranking a k) -> i < length a /\ (0 < at_index a i)%R.
Proof.
  unfold ranking. intros H. apply filter_In in H. destruct H as [Hi Hp].
  split.
  - apply argsort_In, (top_indices_incl _ _ _ Hi).
  - apply is_relevant_true, Hp.
Qed.

Lemma ranking_NoDup (a : list R) (k : Z) : NoDup (ranking a k).
Proof. apply NoDup_filter, top_indices_NoDup. Qed.

(** The answer descends. *)
Lemma ranking_sorted (a : list R) (k : Z) :
  StronglySorted (fun i j => (at_index a j <= at_index a i)%R) (ranking a k).
Proof.
  unfold ranking, top_indices, slice_from.
  apply StronglySorted_filter.
  apply StronglySorted_rev with (Rel := fun i j => (at_index a i <= at_index a j)%R).
  apply StronglySorted_skipn, argsort_sorted.
Qed.

(** For [k >= 1] the answer holds the [k] best rows, or all the rows
    with a positive similarity when they are fewer. *)
Lemma ranking_length (a : list R) (k : Z) :
  (1 <= k)%Z -> length (ranking a k) = Nat.min (Z.to_nat k) (positive_count a).
Proof.
  intros Hk. unfold ranking, top_indices.
  rewrite slice_from_last by assumption.
  rewrite filter_rev, length_rev.
  rewrite (sorted_suffix_count (at_index a) (is_relevant a)).
  - rewrite positive_count_argsort, argsort_length.
    assert (positive_count a <= length a).
    { unfold positive_count.
      etransitivity; [apply filter_length_le|]. rewrite length_seq. lia. }
    lia.
  - apply is_relevant_monotone.
  - apply argsort_sorted.
Qed.

(** For [k = 0] the slice is the whole array. *)
Lemma ranking_0 (a : list R) :
  ranking a 0 = filter (is_relevant a) (rev (argsort a)).
Proof.
  unfold ranking, top_indices. simpl. rewrite slice_from_0. reflexivity.
Qed.

Lemma ranking_0_length (a : list R) : length (ranking a 0) = positive_count a.
Proof.
  rewrite ranking_0, filter_rev, length_rev. apply positive_count_argsort.
Qed.

Lemma ranking_0_In (a : list R) (i : nat) :
  In i (ranking a 0) <-> i < length a /\ (0 < at_index a i)%R.
Proof.
  split; [apply ranking_In|]. intros [Hi Hp].
  rewrite ranking_0. apply filter_In. split.
  - rewrite <- in_rev. apply argsort_In, Hi.
  - apply is_relevant_true, Hp.
Qed.

(** With a stable sort, equal scores come out in the reverse order of
    their rows. *)
Lemma ranking_stable (a : list R) (k : Z) :
  Stable AS ->
  StronglySorted (fun i j => before a j i) (ranking a k).
Proof.
  intros Hs. unfold ranking, top_indices, slice_from.
  apply StronglySorted_filter.
  apply StronglySorted_rev with (Rel := before a).
  apply StronglySorted_skipn, Hs.
Qed.

End RankingFacts.

(** ** The insertion sort is a stable argsort *)

Section InsertionSort.
Variable a : list R.

Lemma before_trans (i j k : nat) : before a i j -> before a j k -> before a i k.
Proof.
  unfold before. intros [H1|[H1 L1]] [H2|[H2 L2]].
  - left. lra.
  - left. lra.
  - left. lra.
  - right. split; [congruence | lia].
Qed.

Lemma insert_index_perm (i : nat) (l : list nat) :
  Permutation (insert_index a i l) (i :: l).
Proof.
  induction l as [|j l IH]; simpl; [reflexivity|].
  destruct (Rle_dec _ _); [reflexivity|].
  rewrite IH. apply perm_swap.
Qed.

Lemma insert_index_sorted (i : nat) (l : list nat) :
  Forall (fun j => i < j) l ->
  StronglySorted (before a) l -> StronglySorted (before a) (insert_index a i l).
Proof.
  intros Hlt H. induction H as [|j l Hl IH Hj]; simpl.
  - constructor; constructor.
  - inversion Hlt as [|? ? Hij Hil]; subst.
    destruct (Rle_dec (at_index a i) (at_index a j)) as [Hle|Hgt].
    + assert (Hb : before a i j).
      { unfold before. destruct Hle as [Hle|Heq]; [left|right]; auto. }
      constructor; [constructor; assumption|].
      constructor; [assumption|].
      eapply Forall_impl; [|exact Hj]. intros k. apply before_trans, Hb.
    + constructor; [apply IH, Hil|].
      rewrite Forall_forall in *. intros k Hk.
      apply (Permutation_in _ (insert_index_perm i l)) in Hk.
      destruct Hk as [<-|Hk]; [|apply Hj, Hk].
      left. lra.
Qed.

Lemma insertion_sort_from (start n : nat) :
  let l := fold_right (insert_index a) [] (seq start n) in
  Permutation l (seq start n) /\ StronglySorted (before a) l.
Proof.
  revert start. induction n as [|n IH]; intros start; simpl.
  - split; constructor.
  - destruct (IH (S start)) as [Hp Hs]. split.
    + rewrite insert_index_perm. constructor. exact Hp.
    + apply insert_index_sorted; [|exact Hs].
      rewrite Forall_forall. intros j Hj.
      apply (Permutation_in _ Hp) in Hj. apply in_seq in Hj. lia.
Qed.

Lemma insertion_argsort_perm :
  Permutation (insertion_argsort a) (seq 0 (length a)).
Proof. apply insertion_sort_from. Qed.

Lemma insertion_argsort_stable : StronglySorted (before a) (insertion_argsort a).
Proof. apply insertion_sort_from. Qed.

Lemma insertion_argsort_sorted :
  StronglySorted (fun i j => (at_index a i <= at_index a j)%R) (insertion_argsort a).
Proof.
  eapply StronglySorted_weaken; [|apply insertion_argsort_stable].
  unfold before. intros i j [H|[H _]]; lra.
Qed.

End InsertionSort.

#[export] Instance Insertion_argsort : ArgSort := {|
  argsort := insertion_argsort;
  argsort_perm := insertion_argsort_perm;
  argsort_sorted := insertion_argsort_sorted
|}.

Lemma Insertion_argsort_stable : Stable Insertion_argsort.
Proof. intros a. apply insertion_argsort_stable. Qed.

(** ** The recommender *)

Section RecommenderFacts.
Context {Sigma : Alphabet} {AS : ArgSort}.

Lemma fold_left_collect (A B : Type) (P : A -> Prop) (D : forall x, {P x} + {~ P x})
      (f : A -> B) (l : list A) (acc : list B) :
  fold_left (fun acc x => if D x then acc ++ [f x] else acc) l acc
  = acc ++ map f (filter (fun x => if D x then true else false) l).
Proof.
  revert acc. induction l as [|x l IH]; intros acc; simpl.
  - rewrite app_nil_r. reflexivity.
  - rewrite IH. destruct (D x); simpl; [rewrite <- app_assoc|]; reflexivity.
Qed.

(** The loop of [recommend] keeps the rows of [top_indices] whose
    similarity is positive. *)
Lemma recommend_fitted (vec : TfidfVectorizer) (matrix : list (list R))
      (df : DataFrame) (query : text) (k : Z) :
  recommend (fitted vec matrix df) query k
  = map (make_recommendation df (similarities vec matrix query))
        (ranking (similarities vec matrix query) k).
Proof.
  unfold recommend, fitted, ranking, similarities. cbn [data_df tfidf_vectorizer tfidf_matrix].
  rewrite fold_left_collect. reflexivity.
Qed.

Lemma recommend_no_index (self : SHLRecommender) (query : text) (k : Z) :
  no_index self -> recommend self query k = [].
Proof.
  unfold no_index, recommend. intros [H|[H|H]]; rewrite H.
  - reflexivity.
  - destruct (data_df self); reflexivity.
  - destruct (data_df self), (tfidf_vectorizer self); reflexivity.
Qed.

(** *** The frame and the matrix have the same rows *)

Lemma fit_transform_rows (stop : list text) (docs : list text)
      (vec : TfidfVectorizer) (m : list (list R)) :
  fit_transform stop docs = Ok (vec, m) -> length m = length docs.
Proof.
  unfold fit_transform. destruct (sorted_terms _); [discriminate|].
  intros H. injection H as _ <-. apply length_map.
Qed.

Lemma feature_documents_length (df : DataFrame) :
  length (feature_documents df) = length (rows df).
Proof.
  unfold feature_documents. destruct (has_column _ df); apply length_map.
Qed.

Lemma load_dataframe_consistent {SW : StopWords} (df : DataFrame)
      (self : SHLRecommender) :
  load_dataframe unfitted df = Ok self ->
  forall m, tfidf_matrix self = Some m ->
            data_df self = Some df /\ length m = length (rows df).
Proof.
  unfold load_dataframe. destruct (has_column _ df || has_column _ df).
  - destruct (fit_transform _ _) as [[vec m']|e] eqn:Hfit; [|discriminate].
    cbn [bind fst snd data_df]. intros H m Hm. injection H as <-.
    cbn [tfidf_matrix data_df] in *. injection Hm as <-.
    split; [reflexivity|].
    rewrite (fit_transform_rows _ _ Hfit). apply feature_documents_length.
  - intros H m Hm. injection H as <-. discriminate Hm.
Qed.

(** On a recommender that the constructor returns, the rows that
    [recommend] looks up with [iloc] are rows of the frame. *)
Lemma init_consistent {SW : StopWords} (data_file : option file_content)
      (data_df_arg : option DataFrame) (self : SHLRecommender) :
  SHLRecommender_init data_file data_df_arg = Ok self ->
  forall df m, data_df self = Some df -> tfidf_matrix self = Some m ->
               length m = length (rows df).
Proof.
  unfold SHLRecommender_init, SHLRecommender_load_data.
  intros H df m Hdf Hm.
  destruct data_df_arg as [df0|].
  - destruct (load_dataframe_consistent _ H Hm) as [Hd Hl]. congruence.
  - destruct data_file as [f|].
    + destruct (negb (df_empty (load_data f))).
      * destruct (load_dataframe_consistent _ H Hm) as [Hd Hl]. congruence.
      * injection H as <-. discriminate Hm.
    + injection H as <-. discriminate Hm.
Qed.

Lemma ranking_rows_in_frame (vec : TfidfVectorizer) (matrix : list (list R))
      (df : DataFrame) (query : text) (k : Z) (idx : nat) :
  length matrix = length (rows df) ->
  In idx (ranking (similarities vec matrix query) k) -> idx < length (rows df).
Proof.
  intros Hl H. apply ranking_In in H. destruct H as [H _].
  unfold similarities, cosine_similarity in H. rewrite length_map in H. lia.
Qed.

Lemma similarities_empty_query (vec : TfidfVectorizer) (matrix : list (list R))
      (i : nat) :
  at_index (similarities vec matrix []) i = 0%R.
Proof.
  unfold similarities. rewrite preprocess_query_nil.
  apply cosine_similarity_zero, transform_nil.
Qed.

End RecommenderFacts.

(** C4, amended.  On a fitted recommender, for every query and every
    [k >= 1], [recommend] returns at most [k] results, every score is
    greater than 0, the scores do not increase along the answer, and
    the answer holds distinct rows of the catalog with a positive
    similarity: [k] of them, or all of them when they are fewer than
    [k], so that the answer is then shorter than [k] and not padded.
    The score is the similarity as it was computed, not clipped: no
    bound of 1 is stated (see [score_above_one]). *)
Theorem recommend_top_k {Sigma : Alphabet} {AS : ArgSort}
        (vec : TfidfVectorizer) (matrix : list (list R)) (df : DataFrame)
        (query : text) (k : Z) :
  (1 <= k)%Z ->
  let results := recommend (fitted vec matrix df) query k in
  let cosine_similarities := similarities vec matrix query in
  (Z.of_nat (length results) <= k)%Z
  /\ Forall (fun r => (0 < similarity_score r)%R) results
  /\ StronglySorted (fun r1 r2 => (similarity_score r2 <= similarity_score r1)%R) results
  /\ length results = Nat.min (Z.to_nat k) (positive_count cosine_similarities)
  /\ ((Z.of_nat (positive_count cosine_similarities) < k)%Z ->
      (Z.of_nat (length results) < k)%Z)
  /\ exists rows_found,
       results = map (make_recommendation df cosine_similarities) rows_found
       /\ NoDup rows_found
       /\ Forall (fun idx => idx < length matrix
                             /\ (0 < at_index cosine_similarities idx)%R) rows_found.
Proof.
  intros Hk results cos.
  assert (Hres : results = map (make_recommendation df cos) (ranking cos k))
    by apply recommend_fitted.
  assert (Hlen : length results = Nat.min (Z.to_nat k) (positive_count cos)).
  { rewrite Hres, length_map. apply ranking_length, Hk. }
  split; [lia|]. split; [|split; [|split; [exact Hlen|split; [lia|]]]].
  - rewrite Hres. apply Forall_map. rewrite Forall_forall. intros idx Hidx.
    apply ranking_In in Hidx. cbn [similarity_score make_recommendation].
    apply Hidx.
  - rewrite Hres. apply StronglySorted_map. cbn [similarity_score make_recommendation].
    apply ranking_sorted.
  - exists (ranking cos k). split; [exact Hres|]. split; [apply ranking_NoDup|].
    rewrite Forall_forall. intros idx Hidx. apply ranking_In in Hidx.
    destruct Hidx as [Hi Hp]. split; [|exact Hp].
    unfold cos, similarities, cosine_similarity in Hi. rewrite length_map in Hi. exact Hi.
Qed.

(** C7. On a fitted recommender, for every [k], the empty query gets
    the empty answer: its vector is the zero vector, so that no
    document has a positive similarity. *)
Theorem recommend_empty_query {Sigma : Alphabet} {AS : ArgSort}
        (vec : TfidfVectorizer) (matrix : list (list R)) (df : DataFrame) (k : Z) :
  all_zero (transform vec (preprocess_query (lit "")))
  /\ (forall idx, at_index (similarities vec matrix (lit "")) idx = 0%R)
  /\ recommend (fitted vec matrix df) (lit "") k = [].
Proof.
  change (lit "") with (@nil char).
  split; [rewrite preprocess_query_nil; apply transform_nil|].
  split; [apply similarities_empty_query|].
  rewrite recommend_fitted. unfold ranking. rewrite filter_none; [reflexivity|].
  intros idx. unfold is_relevant. rewrite similarities_empty_query.
  destruct (Rlt_dec 0 0) as [H|H]; [lra|reflexivity].
Qed.

(** C10. With [num_recommendations = 0] the slice [[-0:]] is the whole
    of the sorted array: [recommend] answers with every document whose
    similarity is positive, not with no result. *)
Theorem recommend_zero_returns_all {Sigma : Alphabet} {AS : ArgSort}
        (vec : TfidfVectorizer) (matrix : list (list R)) (df : DataFrame)
        (query : text) :
  let cosine_similarities := similarities vec matrix query in
  top_indices cosine_similarities 0 = rev (argsort cosine_similarities)
  /\ recommend (fitted vec matrix df) query 0
     = map (make_recommendation df cosine_similarities) (ranking cosine_similarities 0)
  /\ (forall idx, In idx (ranking cosine_similarities 0)
                  <-> idx < length matrix /\ (0 < at_index cosine_similarities idx)%R)
  /\ length (recommend (fitted vec matrix df) query 0)
     = positive_count cosine_similarities.
Proof.
  intros cos. split; [|split; [|split]].
  - unfold top_indices. simpl. rewrite slice_from_0. reflexivity.
  - apply recommend_fitted.
  - intros idx. rewrite ranking_0_In.
    unfold cos, similarities, cosine_similarity. rewrite length_map. reflexivity.
  - rewrite recommend_fitted, length_map. apply ranking_0_length.
Qed.

(** ** The evaluation harness *)

Section HarnessFacts.
Context {Sigma : Alphabet}.

Lemma sum_from (l : list Q) (acc : Q) :
  (fold_left Qplus l acc == acc + fold_right Qplus 0 l)%Q.
Proof.
  revert acc. induction l as [|x l IH]; intros acc; simpl.
  - ring.
  - rewrite IH. ring.
Qed.

Lemma sum_map (A : Type) (f : A -> Q) (l : list A) :
  (sum (map f l) == fold_right (fun t acc => f t + acc) 0 l)%Q.
Proof.
  unfold sum. rewrite sum_from, Qplus_0_l.
  induction l as [|x l IH]; simpl; [reflexivity|]. rewrite IH. reflexivity.
Qed.

(** The mean the code computes is the arithmetic mean. *)
Lemma mean_map (f : TestItem -> Q) (qs : list TestItem) :
  (mean (map f qs) == mean_over f qs)%Q.
Proof.
  destruct qs as [|t qs]; [reflexivity|].
  unfold mean, mean_over. change (is_empty (map f (t :: qs))) with false.
  cbv iota. rewrite sum_map. unfold len. rewrite length_map. reflexivity.
Qed.

Lemma evaluate_step_counted (recommender : text -> Z -> list Recommendation) (k : Z)
      (t : TestItem) (recalls avg_precisions : list Q) :
  evaluate_step recommender k (recalls, avg_precisions) t
  = if counted t
    then (recalls ++ [query_recall recommender k t],
          avg_precisions ++ [query_average_precision recommender k t])
    else (recalls, avg_precisions).
Proof.
  unfold evaluate_step, counted, query_recall, query_average_precision,
    recommended_for, relevant_items_of.
  rewrite <- negb_orb.
  destruct (t_expected_assessments t) as [expected|]; cbn [fst snd];
    match goal with
    | |- context [is_empty ?q || is_empty ?r] => destruct (is_empty q || is_empty r)
    end; reflexivity.
Qed.

(** The loop of [SHLRecommender.evaluate] appends one recall and one
    average precision for each counted query, in order. *)
Lemma evaluate_loop (recommender : text -> Z -> list Recommendation) (k : Z)
      (test_queries : list TestItem) (recalls avg_precisions : list Q) :
  fold_left (evaluate_step recommender k) test_queries (recalls, avg_precisions)
  = (recalls ++ map (query_recall recommender k) (filter counted test_queries),
     avg_precisions
       ++ map (query_average_precision recommender k) (filter counted test_queries)).
Proof.
  revert recalls avg_precisions.
  induction test_queries as [|t ts IH]; intros recalls avg_precisions.
  - simpl. rewrite !app_nil_r. reflexivity.
  - cbn [fold_left filter]. rewrite evaluate_step_counted.
    destruct (counted t); rewrite IH; cbn [map]; rewrite <- ?app_assoc; reflexivity.
Qed.

Lemma calculate_metrics_step_counted (recommender : text -> Z -> list Recommendation)
      (k : Z) (t : TestItem) (all_recalls all_precisions : list Q) :
  calculate_metrics_step recommender k (all_recalls, all_precisions) t
  = if counted_by_name t
    then (all_recalls ++ [query_recall_by_name recommender k t],
          all_precisions ++ [query_average_precision_by_name recommender k t])
    else (all_recalls, all_precisions).
Proof.
  unfold calculate_metrics_step, counted_by_name, query_recall_by_name,
    query_average_precision_by_name, recommended_for.
  rewrite <- negb_orb.
  match goal with
  | |- context [is_empty ?q || is_empty ?r] => destruct (is_empty q || is_empty r)
  end; reflexivity.
Qed.

Lemma calculate_metrics_loop (recommender : text -> Z -> list Recommendation) (k : Z)
      (test_queries : list TestItem) (all_recalls all_precisions : list Q) :
  fold_left (calculate_metrics_step recommender k) test_queries
            (all_recalls, all_precisions)
  = (all_recalls
       ++ map (query_recall_by_name recommender k) (filter counted_by_name test_queries),
     all_precisions
       ++ map (query_average_precision_by_name recommender k)
              (filter counted_by_name test_queries)).
Proof.
  revert all_recalls all_precisions.
  induction test_queries as [|t ts IH]; intros all_recalls all_precisions.
  - simpl. rewrite !app_nil_r. reflexivity.
  - cbn [fold_left filter]. rewrite calculate_metrics_step_counted.
    destruct (counted_by_name t); rewrite IH; cbn [map]; rewrite <- ?app_assoc;
      reflexivity.
Qed.

(** What [SHLRecommender.evaluate] returns, with [self.recommend] as
    [recommender]: the means over the counted queries. *)
Lemma evaluate_means {AS : ArgSort} (self : SHLRecommender)
      (test_queries : list TestItem) (k : Z) :
  evaluate self test_queries k
  = (mean (map (query_recall (recommend self) k) (filter counted test_queries)),
     mean (map (query_average_precision (recommend self) k)
               (filter counted test_queries))).
Proof.
  unfold evaluate. destruct test_queries as [|t ts]; [reflexivity|].
  cbn [is_empty]. rewrite evaluate_loop. reflexivity.
Qed.

Lemma calculate_metrics_means (recommender : text -> Z -> list Recommendation)
      (test_queries : list TestItem) (k : Z) :
  calculate_metrics recommender test_queries k
  = (mean (map (query_recall_by_name recommender k)
               (filter counted_by_name test_queries)),
     mean (map (query_average_precision_by_name recommender k)
               (filter counted_by_name test_queries))).
Proof.
  unfold calculate_metrics. rewrite calculate_metrics_loop. reflexivity.
Qed.

(** *** Recall: the size of an intersection *)

Lemma distinct_In (x : text) (l : list text) : In x (distinct l) <-> In x l.
Proof.
  induction l as [|y l IH]; simpl; [reflexivity|].
  destruct (text_in y l) eqn:E; simpl; rewrite IH.
  - apply text_in_In in E. split; [auto|]. intros [<-|H]; assumption.
  - reflexivity.
Qed.

Lemma distinct_NoDup (l : list text) : NoDup (distinct l).
Proof.
  induction l as [|y l IH]; simpl; [constructor|].
  destruct (text_in y l) eqn:E; [assumption|].
  constructor; [|assumption]. rewrite distinct_In, <- text_in_In, E. discriminate.
Qed.

Lemma distinct_length (l : list text) : length (distinct l) <= length l.
Proof.
  induction l as [|x l IH]; simpl; [lia|].
  destruct (text_in x l); simpl; lia.
Qed.

Lemma distinct_without_duplicates (l : list text) : NoDup l -> distinct l = l.
Proof.
  intros H. induction H as [|x l Hx _ IH]; simpl; [reflexivity|].
  destruct (text_in x l) eqn:E.
  - apply text_in_In in E. contradiction.
  - rewrite IH. reflexivity.
Qed.

(** A list that repeats an item is longer than its set. *)
Lemma distinct_length_repeated (l : list text) :
  ~ NoDup l -> length (distinct l) < length l.
Proof.
  induction l as [|x l IH]; intros H; [exfalso; apply H; constructor|].
  cbn [distinct length]. destruct (text_in x l) eqn:E.
  - pose proof (distinct_length l). lia.
  - cbn [length]. apply -> Nat.succ_lt_mono. apply IH. intros Hl. apply H.
    constructor; [|exact Hl]. rewrite <- text_in_In, E. discriminate.
Qed.

(** The set [set(recommended) & set(relevant)] has as many elements
    when it is read off the relevant items. *)
Lemma intersection_size (recommended relevant : list text) :
  length (distinct (filter (fun x => text_in x relevant) recommended))
  = length (common recommended relevant).
Proof.
  unfold common. apply Permutation_length, NoDup_Permutation.
  - apply distinct_NoDup.
  - apply distinct_NoDup.
  - intros x. rewrite !distinct_In, !filter_In, !text_in_In. tauto.
Qed.

Lemma recall_at_k_common (recommended relevant : list text) :
  recall_at_k recommended relevant
  = if is_empty relevant then 0%Q
    else (len (common recommended relevant) / len relevant)%Q.
Proof.
  unfold recall_at_k, len. rewrite intersection_size. reflexivity.
Qed.

(** *** Average precision: the loop and the sum over ranks *)

Lemma precision_step_eq (relevant : list text) (acc : Q) (count i : nat) (x : text) :
  precision_step relevant (acc, count) (i, x)
  = if text_in x relevant
    then ((acc + inject_Z (Z.of_nat (count + 1)) / inject_Z (Z.of_nat (i + 1)))%Q,
          count + 1)
    else (acc, count).
Proof. reflexivity. Qed.

(** After the items [done], the loop has counted the relevant ones
    among them; over the items [todo] it adds the terms of the ranks
    that follow. *)
Lemma precision_loop (relevant : list text) (todo done : list text) (acc : Q) :
  (fst (fold_left (precision_step relevant)
                  (combine (seq (length done) (length todo)) todo)
                  (acc, length (filter (fun x => text_in x relevant) done)))
   == acc
      + fold_right Qplus 0
          (map (fun j =>
                  if text_in (nth (j - 1) (done ++ todo) []) relevant
                  then inject_Z (Z.of_nat (hits (done ++ todo) relevant j))
                       / inject_Z (Z.of_nat j)
                  else 0)
               (seq (S (length done)) (length todo))))%Q.
Proof.
  revert done acc. induction todo as [|x todo IH]; intros done acc.
  - simpl. ring.
  - cbn [length seq combine fold_left map fold_right].
    assert (Hnth : nth (S (length done) - 1) (done ++ x :: todo) [] = x).
    { replace (S (length done) - 1) with (length done) by lia.
      rewrite app_nth2 by lia. rewrite Nat.sub_diag. reflexivity. }
    assert (Hhits : hits (done ++ x :: todo) relevant (S (length done))
                    = length (filter (fun y => text_in y relevant) (done ++ [x]))).
    { unfold hits. f_equal. f_equal.
      replace (S (length done)) with (length done + 1) by lia.
      rewrite firstn_app_2. reflexivity. }
    rewrite Hnth, Hhits.
    specialize (IH (done ++ [x])).
    rewrite length_app in IH. cbn [length] in IH.
    rewrite Nat.add_1_r in IH. rewrite <- app_assoc in IH. cbn [app] in IH.
    rewrite filter_app in IH |- *. rewrite length_app in IH |- *.
    rewrite precision_step_eq. cbn [filter] in IH |- *.
    destruct (text_in x relevant); cbn [length] in IH |- *.
    + rewrite IH. rewrite (Nat.add_1_r (length done)). ring.
    + rewrite Nat.add_0_r in IH. rewrite IH. ring.
Qed.

Lemma average_precision_sum (recommended relevant : list text) :
  (average_precision recommended relevant
   == if is_empty relevant then 0
      else precision_sum recommended relevant / len relevant)%Q.
Proof.
  unfold average_precision, precision_sum, enumerate.
  destruct (is_empty relevant); [reflexivity|].
  pose proof (precision_loop relevant recommended [] 0) as H.
  cbn [length app filter] in H. rewrite H, Qplus_0_l. reflexivity.
Qed.

End HarnessFacts.

Lemma filter_idempotent (A : Type) (p : A -> bool) (l : list A) :
  filter p (filter p l) = filter p l.
Proof.
  induction l as [|x l IH]; simpl; [reflexivity|].
  destruct (p x) eqn:E; simpl; rewrite ?E, IH; reflexivity.
Qed.

Lemma filter_complement (A : Type) (p : A -> bool) (l : list A) :
  filter p (filter (fun x => negb (p x)) l) = [].
Proof.
  induction l as [|x l IH]; simpl; [reflexivity|].
  destruct (p x) eqn:E; simpl; rewrite ?E, IH; reflexivity.
Qed.

(** C5. [SHLRecommender.evaluate] and [calculate_metrics] skip the test
    queries whose query text or expected set is empty: the two results
    are the arithmetic means of recall and of average precision over
    the counted queries alone, the skipped queries can be removed
    without changing the result, and the result is (0, 0) when no query
    is counted. *)
Theorem evaluate_means_over_counted {Sigma : Alphabet} {AS : ArgSort}
        (self : SHLRecommender) (recommender : text -> Z -> list Recommendation)
        (test_queries : list TestItem) (k : Z) :
  let counted_queries := filter counted test_queries in
  let skipped_queries := filter (fun t => negb (counted t)) test_queries in
  let counted_names := filter counted_by_name test_queries in
  let skipped_names := filter (fun t => negb (counted_by_name t)) test_queries in
  (fst (evaluate self test_queries k)
   == mean_over (query_recall (recommend self) k) counted_queries)%Q
  /\ (snd (evaluate self test_queries k)
      == mean_over (query_average_precision (recommend self) k) counted_queries)%Q
  /\ evaluate self test_queries k = evaluate self counted_queries k
  /\ evaluate self skipped_queries k = (0%Q, 0%Q)
  /\ (fst (calculate_metrics recommender test_queries k)
      == mean_over (query_recall_by_name recommender k) counted_names)%Q
  /\ (snd (calculate_metrics recommender test_queries k)
      == mean_over (query_average_precision_by_name recommender k) counted_names)%Q
  /\ calculate_metrics recommender test_queries k
     = calculate_metrics recommender counted_names k
  /\ calculate_metrics recommender skipped_names k = (0%Q, 0%Q).
Proof.
  intros cs ss cn sn.
  rewrite !evaluate_means, !calculate_metrics_means. cbn [fst snd].
  unfold cs, ss, cn, sn.
  rewrite !filter_idempotent, !filter_complement.
  repeat split; try reflexivity; apply mean_map.
Qed.

(** C6. For a counted test query whose expected assessments are listed
    without repetition, the recall is the size of the intersection of
    the recommended and the expected items over the size of the
    expected set; the average precision adds, at each rank [j] (from 1)
    that holds an expected item, the number of hits so far over [j],
    and divides the sum by the size of the expected set.  With A and C
    expected and A, B recommended at [k = 2], recall is 1/2 and average
    precision is 1/2. *)
Theorem recall_and_average_precision :
  (forall (Sigma : Alphabet) (recommended relevant : list text),
      NoDup relevant ->
      is_empty relevant = false ->
      recall_at_k recommended relevant
      = (len (common recommended relevant) / set_size relevant)%Q
      /\ (average_precision recommended relevant
          == precision_sum recommended relevant / set_size relevant)%Q)
  /\ (recall_at_k [lit "A"; lit "B"] [lit "A"; lit "C"] == 1 # 2)%Q
  /\ (average_precision [lit "A"; lit "B"] [lit "A"; lit "C"] == 1 # 2)%Q
  /\ calculate_metrics ranked_A_B [test_item "job description" ["A"; "C"]%string] 2
     = ((1 # 2)%Q, (1 # 2)%Q).
Proof.
  split; [|split; [|split]].
  - intros Sigma recommended relevant Hnd Hne. unfold set_size.
    rewrite distinct_without_duplicates by exact Hnd. split.
    + rewrite recall_at_k_common, Hne. reflexivity.
    + rewrite average_precision_sum, Hne. reflexivity.
  - vm_compute. reflexivity.
  - vm_compute. reflexivity.
  - vm_compute. reflexivity.
Qed.

Lemma recall_and_average_precision_witness :
  NoDup [lit "A"; lit "C"]
  /\ is_empty [lit "A"; lit "C"] = false
  /\ recall_at_k [lit "A"; lit "B"] [lit "A"; lit "C"]
     = (len (common [lit "A"; lit "B"] [lit "A"; lit "C"])
        / set_size [lit "A"; lit "C"])%Q
  /\ (len (common [lit "A"; lit "B"] [lit "A"; lit "C"]) == 1)%Q
  /\ (set_size [lit "A"; lit "C"] == 2)%Q.
Proof.
  assert (Hnd : NoDup [lit "A"; lit "C"]).
  { constructor; [intros [H|[]]; discriminate H|].
    constructor; [intros []|constructor]. }
  assert (Hne : is_empty [lit "A"; lit "C"] = false) by reflexivity.
  split; [exact Hnd|]. split; [exact Hne|]. split.
  - exact (proj1 (proj1 recall_and_average_precision Ascii_alphabet
                        [lit "A"; lit "B"] [lit "A"; lit "C"] Hnd Hne)).
  - split; reflexivity.
Defined.

(** When the expected list repeats a name, the recall divides by the
    length of the list, not by the size of the set: with A listed twice
    and recommended, recall is 1/2. *)
Example recall_with_repeated_name :
  (recall_at_k [lit "A"] [lit "A"; lit "A"] == 1 # 2)%Q.
Proof. vm_compute. reflexivity. Qed.

(** ** The twin catalog, from the file to the answer *)

Section TwinCatalog.
Local Open Scope R_scope.

(** A term found in every document has weight 1. *)
Lemma idf_all_documents {Sigma : Alphabet} (n : nat) : idf n n = 1.
Proof.
  unfold idf. replace ((1 + INR n) / (1 + INR n)) with 1.
  - rewrite ln_1. lra.
  - pose proof (pos_INR n). field. lra.
Qed.

Lemma l2_normalize_unit : l2_normalize [1] = [1].
Proof.
  unfold l2_normalize. cbn [sum_sq fold_right map].
  replace (1 * 1 + 0) with 1 by lra. rewrite sqrt_1.
  destruct (Req_dec_T 1 0) as [H|H]; [lra|].
  f_equal. lra.
Qed.

Lemma transform_twin (doc : text) :
  analyze ENGLISH_STOP_WORDS doc = [lit "sales"] ->
  transform twin_vectorizer doc = [1].
Proof.
  intros H. unfold transform. cbn [stop_words vocabulary_ idf_ twin_vectorizer].
  rewrite H.
  change (map (fun t => term_count t [lit "sales"]) [lit "sales"]) with [1%nat].
  cbn [combine map fst snd INR].
  replace (1 * 1) with 1 by lra. apply l2_normalize_unit.
Qed.

Lemma twin_fit_transform {AS : ArgSort} :
  fit_transform ENGLISH_STOP_WORDS (feature_documents twin_frame)
  = Ok (twin_vectorizer, twin_matrix).
Proof.
  unfold fit_transform.
  change (map (analyze ENGLISH_STOP_WORDS) (feature_documents twin_frame))
    with [[lit "sales"]; [lit "sales"]].
  change (sorted_terms (concat [[lit "sales"]; [lit "sales"]])) with [lit "sales"].
  change (limit_features [lit "sales"] [[lit "sales"]; [lit "sales"]])
    with [lit "sales"].
  change (length (feature_documents twin_frame)) with 2%nat.
  change (map (fun t0 : text =>
                 idf 2 (length (filter (fun doc : list text =>
                                          (0 <? term_count t0 doc)%nat)
                                       [[lit "sales"]; [lit "sales"]])))
              [lit "sales"])
    with [idf 2 2].
  rewrite idf_all_documents. fold twin_vectorizer.
  change (feature_documents twin_frame) with [lit "sales "; lit "sales "].
  cbn [map]. rewrite !transform_twin by reflexivity. reflexivity.
Qed.


(** Loading the twin catalog gives the twin recommender. *)
Lemma twin_init {AS : ArgSort} :
  SHLRecommender_init (Some (JsonRecords required_columns twin_catalog)) None
  = Ok twin_recommender.
Proof.
  unfold SHLRecommender_init, SHLRecommender_load_data.
  change (negb (df_empty (load_data (JsonRecords required_columns twin_catalog))))
    with true.
  cbv iota.
  change (get_features_for_recommendation
            (preprocess_data (load_data (JsonRecords required_columns twin_catalog))))
    with twin_frame.
  unfold load_dataframe.
  change (has_column "combined_features" twin_frame
          || has_column "description" twin_frame)%bool
    with true.
  cbv iota. rewrite twin_fit_transform. reflexivity.
Qed.

(** Both assessments are as similar to the query as can be. *)
Lemma twin_similarities :
  similarities twin_vectorizer twin_matrix (lit "Sales?") = [1; 1].
Proof.
  unfold similarities. rewrite transform_twin by reflexivity.
  unfold cosine_similarity, twin_matrix. cbn [map]. rewrite l2_normalize_unit.
  cbn [dot]. f_equal; [lra|f_equal; lra].
Qed.

Lemma insertion_argsort_twin : insertion_argsort [1; 1] = [0; 1]%nat.
Proof.
  unfold insertion_argsort. cbn [length seq fold_right insert_index].
  destruct (Rle_dec (at_index [1; 1] 0) (at_index [1; 1] 1)) as [H|H]; [reflexivity|].
  exfalso. apply H. unfold at_index. cbn [nth]. lra.
Qed.

(** The stable sort lists A before B; the answer is B, then A. *)
Lemma twin_ranking :
  ranking (AS := Insertion_argsort)
          (similarities twin_vectorizer twin_matrix (lit "Sales?")) 2
  = [1; 0]%nat.
Proof.
  rewrite twin_similarities. unfold ranking, top_indices.
  change (argsort [1; 1]) with (insertion_argsort [1; 1]).
  rewrite insertion_argsort_twin.
  replace (rev (slice_from (Z.opp 2) [0%nat; 1%nat])) with [1%nat; 0%nat]
    by reflexivity.
  cbn [filter]. unfold is_relevant, at_index. cbn [nth].
  destruct (Rlt_dec 0 1) as [H|H]; [reflexivity|lra].
Qed.

Lemma twin_ranking_one :
  ranking (AS := Insertion_argsort)
          (similarities twin_vectorizer twin_matrix (lit "Sales?")) 1
  = [1]%nat.
Proof.
  unfold ranking, top_indices. rewrite twin_similarities.
  change (argsort [1%R; 1%R]) with (insertion_argsort [1%R; 1%R]).
  rewrite insertion_argsort_twin.
  replace (rev (slice_from (Z.opp 1) [0%nat; 1%nat])) with [1%nat] by reflexivity.
  cbn [filter]. unfold is_relevant, at_index. cbn [nth].
  destruct (Rlt_dec 0 1) as [H|H]; [reflexivity|lra].
Qed.

Lemma twin_recommend :
  recommend (AS := Insertion_argsort) twin_recommender (lit "Sales?") 2
  = [recommendation_of "B" 1; recommendation_of "A" 1].
Proof.
  unfold twin_recommender. rewrite recommend_fitted, twin_ranking, twin_similarities.
  reflexivity.
Qed.

(** Asked for one recommendation, it gives the later row. *)
Lemma twin_recommend_one :
  recommend (AS := Insertion_argsort) twin_recommender (lit "Sales?") 1
  = [recommendation_of "B" 1].
Proof.
  unfold twin_recommender. rewrite recommend_fitted, twin_ranking_one, twin_similarities.
  reflexivity.
Qed.

(** Asked for no recommendation, the twin recommender gives two. *)
Lemma twin_recommend_zero :
  recommend (AS := Insertion_argsort) twin_recommender (lit "Sales?") 0
  = [recommendation_of "B" 1; recommendation_of "A" 1].
Proof.
  unfold twin_recommender. rewrite recommend_fitted, ranking_0, twin_similarities.
  change (argsort [1; 1]) with (insertion_argsort [1; 1]).
  rewrite insertion_argsort_twin. cbn [rev app filter].
  unfold is_relevant, at_index. cbn [nth].
  destruct (Rlt_dec 0 1) as [H|H]; [reflexivity|lra].
Qed.

End TwinCatalog.

(** ** Ties *)

(** C3, as stated, fails: with a stable argsort the two assessments of
    the twin catalog, equally similar to the query, come out B first,
    A second. *)
Lemma twin_ties_against_catalog_order :
  ~ ties_in_catalog_order
      (similarities twin_vectorizer twin_matrix (lit "Sales?"))
      (ranking (AS := Insertion_argsort)
               (similarities twin_vectorizer twin_matrix (lit "Sales?")) 2).
Proof.
  rewrite twin_ranking, twin_similarities. intros H.
  specialize (H 0 1). cbn [length nth] in H.
  assert (1 < 0) as Habs by (apply H; [lia | reflexivity]).
  lia.
Qed.

(** C3, amended.  [recommend] lists the rows of [top_indices] that
    have a positive similarity, that is the rows in the reverse of the
    order [argsort] gives them; when the argsort is stable, documents
    with equal scores come in the reverse order of the catalog: the
    later row first. *)
Theorem recommend_ties_reverse_catalog_order {Sigma : Alphabet} {AS : ArgSort}
        (vec : TfidfVectorizer) (matrix : list (list R)) (df : DataFrame)
        (query : text) (k : Z) :
  let cosine_similarities := similarities vec matrix query in
  recommend (fitted vec matrix df) query k
  = map (make_recommendation df cosine_similarities) (ranking cosine_similarities k)
  /\ ranking cosine_similarities k
     = rev (filter (is_relevant cosine_similarities)
                   (slice_from (- k) (argsort cosine_similarities)))
  /\ (Stable AS ->
      ties_in_reverse_catalog_order cosine_similarities
                                    (ranking cosine_similarities k)).
Proof.
  intros cos. split; [apply recommend_fitted|]. split.
  - unfold ranking, top_indices. apply filter_rev.
  - intros Hs i j Hij Heq.
    pose proof (StronglySorted_nth 0 (ranking_stable cos k Hs) Hij) as H.
    cbv beta in H. unfold before in H. destruct H as [H|[_ H]]; [|exact H].
    rewrite Heq in H. exfalso. exact (Rlt_irrefl _ H).
Qed.

Lemma recommend_ties_reverse_catalog_order_witness :
  Stable Insertion_argsort
  /\ ties_in_reverse_catalog_order
       (similarities twin_vectorizer twin_matrix (lit "Sales?"))
       (ranking (AS := Insertion_argsort)
                (similarities twin_vectorizer twin_matrix (lit "Sales?")) 2).
Proof.
  split.
  - exact Insertion_argsort_stable.
  - exact (proj2 (proj2 (recommend_ties_reverse_catalog_order
                           twin_vectorizer twin_matrix twin_frame (lit "Sales?") 2))
                 Insertion_argsort_stable).
Defined.

(** ** A score above 1 *)

Lemma manager_query :
  Binary64.transform manager_vectorizer (preprocess_query (lit "Sales manager"))
  = Binary64.l2_normalize
      [Binary64.of_count 1; Binary64.of_count 1; Binary64.of_count 1].
Proof. reflexivity. Qed.

(** In exact arithmetic the weights of the vectorizer are those of the
    fit on the catalog: three terms, each of weight 1. *)
Lemma manager_fit {AS : ArgSort} :
  exists matrix,
    fit_transform ENGLISH_STOP_WORDS [lit "sales manager "]
    = Ok ({| vocabulary_ := Binary64.vocabulary_ manager_vectorizer;
             idf_ := [1%R; 1%R; 1%R];
             stop_words := ENGLISH_STOP_WORDS |}, matrix).
Proof.
  unfold fit_transform.
  change (map (analyze ENGLISH_STOP_WORDS) [lit "sales manager "])
    with [[lit "sales"; lit "manager"; lit "sales manager"]].
  change (sorted_terms (concat [[lit "sales"; lit "manager"; lit "sales manager"]]))
    with [lit "manager"; lit "sales"; lit "sales manager"].
  change (limit_features [lit "manager"; lit "sales"; lit "sales manager"]
                         [[lit "sales"; lit "manager"; lit "sales manager"]])
    with [lit "manager"; lit "sales"; lit "sales manager"].
  cbv iota beta zeta.
  change (map (fun t : text =>
                 idf (length [lit "sales manager "])
                     (length (filter (fun doc : list text => 0 <? term_count t doc)
                                     [[lit "sales"; lit "manager"; lit "sales manager"]])))
              [lit "manager"; lit "sales"; lit "sales manager"])
    with [idf 1 1; idf 1 1; idf 1 1].
  rewrite idf_all_documents. eexists. reflexivity.
Qed.

(** C4, as stated, fails on the bound 1.  The catalog holds one
    assessment described by two words; the query is these two words.
    The row of the document and the vector of the query are three times
    [1 / sqrt 3], which is 0.57735026918962584 in binary64; the sum of
    their squares is rounded to 1.0000000000000002, whose square root is
    rounded to 1, so that normalising again changes nothing, and the
    product, returned as the score, is 1.0000000000000002. *)
Lemma score_above_one :
  Binary64.recommend manager_vectorizer manager_matrix (lit "Sales manager") 1
  = [(0, Binary64.after_one)]
  /\ Binary64.above_one Binary64.after_one = true.
Proof.
  unfold Binary64.recommend. rewrite manager_query. unfold manager_matrix.
  change (Binary64.transform manager_vectorizer (lit "sales manager "))
    with (Binary64.l2_normalize
            [Binary64.of_count 1; Binary64.of_count 1; Binary64.of_count 1]).
  split; vm_compute; reflexivity.
Qed.

Lemma recommend_top_k_witness :
  (1 <= 2)%Z
  /\ length (recommend (AS := Insertion_argsort) twin_recommender (lit "Sales?") 2)
     = Nat.min (Z.to_nat 2)
               (positive_count (similarities twin_vectorizer twin_matrix (lit "Sales?"))).
Proof.
  assert (H : (1 <= 2)%Z) by lia.
  split; [exact H|].
  exact (proj1 (proj2 (proj2 (proj2 (recommend_top_k
           (AS := Insertion_argsort)
           twin_vectorizer twin_matrix twin_frame (lit "Sales?") H))))).
Defined.

(** ** Calls without an index *)

Section NoIndex.
Context {Sigma : Alphabet}.

Lemma recall_at_k_none (relevant : list text) : (recall_at_k [] relevant == 0)%Q.
Proof.
  unfold recall_at_k. destruct (is_empty relevant); reflexivity.
Qed.

Lemma average_precision_none (relevant : list text) :
  (average_precision [] relevant == 0)%Q.
Proof.
  unfold average_precision. destruct (is_empty relevant); reflexivity.
Qed.

Lemma mean_over_zero (f : TestItem -> Q) (qs : list TestItem) :
  (forall t, f t == 0)%Q -> (mean_over f qs == 0)%Q.
Proof.
  intros Hf. destruct qs as [|t qs]; [reflexivity|].
  unfold mean_over.
  assert (H : (fold_right (fun t acc => f t + acc) 0 (t :: qs) == 0)%Q).
  { induction (t :: qs) as [|x l IH]; simpl; [reflexivity|].
    rewrite Hf, IH. reflexivity. }
  rewrite H. reflexivity.
Qed.

End NoIndex.

(** C1, as stated, fails: when the catalog file is missing the
    recommender object exists without an index, and the handler answers
    a query with an empty list, not with the error 503. *)
Lemma missing_catalog_is_not_unavailable :
  app_recommend (AS := Insertion_argsort) (startup_event NoSuchFile)
                {| qi_query := lit "sales manager"; qi_num_recommendations := 5 |}
  <> Raise (HTTPException 503).
Proof.
  change (app_recommend (AS := Insertion_argsort) (startup_event NoSuchFile)
                        {| qi_query := lit "sales manager";
                           qi_num_recommendations := 5 |})
    with (Ok {| resp_query := lit "sales manager"; resp_recommendations := [] |}).
  discriminate.
Qed.

(** C1, amended.  On a recommender without an index (its data, its
    vectorizer or its matrix is absent) [recommend] returns the empty
    list and the evaluation returns (0, 0): these are normal results.
    The handler answers a valid request with an empty list of
    recommendations; it fails with 503 only when there is no
    recommender object. *)
Theorem recommend_without_index {Sigma : Alphabet} {AS : ArgSort}
        (self : SHLRecommender) (input_data : QueryInput)
        (test_queries : list TestItem) (k : Z) :
  no_index self ->
  validate input_data = Ok input_data ->
  recommend self (qi_query input_data) (qi_num_recommendations input_data) = []
  /\ (fst (evaluate self test_queries k) == 0)%Q
  /\ (snd (evaluate self test_queries k) == 0)%Q
  /\ (fst (calculate_metrics (recommend self) test_queries k) == 0)%Q
  /\ (snd (calculate_metrics (recommend self) test_queries k) == 0)%Q
  /\ app_recommend (Some self) input_data
     = Ok {| resp_query := qi_query input_data; resp_recommendations := [] |}
  /\ app_recommend None input_data = Raise (HTTPException 503).
Proof.
  intros Hno Hvalid.
  assert (Hrec : forall q n, recommend self q n = [])
    by (intros; apply recommend_no_index, Hno).
  split; [apply Hrec|].
  rewrite evaluate_means, calculate_metrics_means. cbn [fst snd].
  rewrite !mean_map.
  repeat split.
  - apply mean_over_zero. intros t. unfold query_recall, recommended_for.
    rewrite Hrec. apply recall_at_k_none.
  - apply mean_over_zero. intros t. unfold query_average_precision, recommended_for.
    rewrite Hrec. apply average_precision_none.
  - apply mean_over_zero. intros t. unfold query_recall_by_name, recommended_for.
    rewrite Hrec. apply recall_at_k_none.
  - apply mean_over_zero. intros t.
    unfold query_average_precision_by_name, recommended_for.
    rewrite Hrec. apply average_precision_none.
  - unfold app_recommend. rewrite Hvalid. cbn [bind]. rewrite Hrec. reflexivity.
  - unfold app_recommend. rewrite Hvalid. reflexivity.
Qed.

Lemma recommend_without_index_witness :
  no_index (Sigma := Ascii_alphabet) unfitted
  /\ validate {| qi_query := lit "sales manager"; qi_num_recommendations := 5 |}
     = Ok {| qi_query := lit "sales manager"; qi_num_recommendations := 5 |}
  /\ app_recommend (AS := Insertion_argsort) (Some unfitted)
                   {| qi_query := lit "sales manager"; qi_num_recommendations := 5 |}
     = Ok {| resp_query := lit "sales manager"; resp_recommendations := [] |}.
Proof.
  assert (Hno : no_index (Sigma := Ascii_alphabet) unfitted) by (left; reflexivity).
  assert (Hvalid :
            validate {| qi_query := lit "sales manager"; qi_num_recommendations := 5 |}
            = Ok {| qi_query := lit "sales manager"; qi_num_recommendations := 5 |})
    by reflexivity.
  split; [exact Hno|]. split; [exact Hvalid|].
  exact (proj1 (proj2 (proj2 (proj2 (proj2 (proj2
           (recommend_without_index (AS := Insertion_argsort) [] 3 Hno Hvalid))))))).
Defined.

(** ** Loading an empty or unparseable catalog *)

(** C2, as stated, fails: on the empty catalog the constructor raises
    no error. *)
Lemma empty_catalog_raises_nothing :
  ~ exists e,
      SHLRecommender_init (AS := Insertion_argsort) (Some (JsonRecords [] [])) None
      = Raise e.
Proof.
  intros [e H].
  change (SHLRecommender_init (AS := Insertion_argsort) (Some (JsonRecords [] [])) None)
    with (Ok (unfitted (Sigma := Ascii_alphabet))) in H.
  discriminate H.
Qed.

(** C2, amended.  On a catalog file that is missing, unparseable,
    unreadable or without records, [load_data] returns the empty frame;
    the constructor raises no error and leaves the recommender as it
    was set up, with no data, no vectorizer and no matrix: no fitted
    state comes from such input. *)
Theorem empty_catalog_leaves_unfitted {Sigma : Alphabet} {AS : ArgSort} {SW : StopWords}
        (file_path : file_content) :
  empty_or_unparseable file_path ->
  load_data file_path = empty_frame
  /\ SHLRecommender_init (Some file_path) None = Ok unfitted
  /\ startup_event file_path = Some unfitted
  /\ no_index unfitted.
Proof.
  intros [ -> | [ -> | [ -> | [keys ->] ] ] ];
    repeat split; try reflexivity; left; reflexivity.
Qed.

Lemma empty_catalog_leaves_unfitted_witness :
  empty_or_unparseable (Sigma := Ascii_alphabet) (JsonRecords [] [])
  /\ SHLRecommender_init (AS := Insertion_argsort) (Some (JsonRecords [] [])) None
     = Ok unfitted.
Proof.
  assert (H : empty_or_unparseable (Sigma := Ascii_alphabet) (JsonRecords [] []))
    by (right; right; right; exists []; reflexivity).
  split; [exact H|].
  exact (proj1 (proj2 (empty_catalog_leaves_unfitted (AS := Insertion_argsort) H))).
Defined.

(** * Further properties *)

(** ** The shape of normalised text *)

Section NormalForm.
Context {Sigma : Alphabet}.

Lemma dropWhile_suffix (p : char -> bool) (s : text) :
  exists dropped, s = dropped ++ dropWhile p s.
Proof.
  induction s as [|c s [d IH]]; simpl.
  - exists []. reflexivity.
  - destruct (p c).
    + exists (c :: d). simpl. rewrite <- IH. reflexivity.
    + exists []. reflexivity.
Qed.

Lemma dropWhile_head (p : char -> bool) (s : text) :
  match dropWhile p s with
  | c :: _ => p c = false
  | [] => True
  end.
Proof.
  induction s as [|c s IH]; simpl; [exact I|].
  destruct (p c) eqn:E; [exact IH | exact E].
Qed.

(** [rstrip] keeps a prefix. *)
Lemma rstrip_prefix (s : text) : exists dropped, s = rstrip s ++ dropped.
Proof.
  unfold rstrip. destruct (dropWhile_suffix isspace (rev s)) as [d H].
  exists (rev d). rewrite <- rev_app_distr, <- H. symmetry. apply rev_involutive.
Qed.

Lemma single_spaced_app_r (l1 l2 : text) :
  single_spaced (l1 ++ l2) -> single_spaced l2.
Proof.
  induction l1 as [|a l1 IH]; simpl; [auto|].
  destruct (l1 ++ l2) eqn:E; intros H.
  - destruct l1; [simpl in E; subst; exact I | discriminate].
  - apply IH. apply H.
Qed.

Lemma single_spaced_app_l (l1 l2 : text) :
  single_spaced (l1 ++ l2) -> single_spaced l1.
Proof.
  induction l1 as [|a l1 IH]; simpl; [auto|].
  destruct l1 as [|b l1]; [auto|]. simpl. intros [H1 H2]. split; [exact H1|].
  apply IH. exact H2.
Qed.

(** What [collapse_runs] emits after a whitespace character is not
    whitespace. *)
Lemma collapse_runs_in_run_head (s : text) : starts_clean (collapse_runs true s).
Proof.
  induction s as [|c s IH]; simpl; [exact I|].
  destruct (isspace c) eqn:E; [exact IH | exact E].
Qed.

Lemma collapse_runs_single_spaced (in_run : bool) (s : text) :
  single_spaced (collapse_runs in_run s).
Proof.
  revert in_run. induction s as [|c s IH]; intros in_run; simpl; [exact I|].
  destruct (isspace c) eqn:E.
  - destruct in_run; [apply IH|].
    pose proof (collapse_runs_in_run_head s) as Hh. pose proof (IH true) as Hs.
    destruct (collapse_runs true s) as [|b rest]; [exact I|].
    split; [intros _; exact Hh | exact Hs].
  - pose proof (IH false) as Hs.
    destruct (collapse_runs false s) as [|b rest]; [exact I|].
    split; [intros Hc; congruence | exact Hs].
Qed.

Lemma collapse_runs_chars (P : char -> Prop) (in_run : bool) (s : text) :
  P c_space -> Forall (fun c => isspace c = false -> P c) s ->
  Forall P (collapse_runs in_run s).
Proof.
  intros Hsp H. revert in_run. induction H as [|c s Hc _ IH]; intros in_run; simpl.
  - constructor.
  - destruct (isspace c) eqn:E.
    + destruct in_run; [apply IH | constructor; [exact Hsp | apply IH]].
    + constructor; [apply Hc; reflexivity | apply IH].
Qed.

Lemma replace_disallowed_chars (s : text) :
  Forall (fun c => isspace c = false -> c = c_space \/ kept_char c)
         (replace_disallowed s).
Proof.
  unfold replace_disallowed. apply Forall_map. apply Forall_forall. intros c _.
  destruct (allowed c) eqn:E; [|left; reflexivity].
  intros Hs. right. split; [exact Hs|].
  unfold allowed in E. rewrite Hs in E.
  destruct (isalnum c), (char_eqb c c_underscore), (char_eqb c c_hyphen);
    simpl in *; congruence.
Qed.

Lemma trim_shape (P : char -> Prop) (s : text) :
  single_spaced s -> Forall P s ->
  starts_clean (trim s) /\ starts_clean (rev (trim s))
  /\ single_spaced (trim s) /\ Forall P (trim s).
Proof.
  intros Hs HP.
  change (trim s) with (rstrip (dropWhile isspace s)).
  destruct (dropWhile_suffix isspace s) as [d Hd].
  destruct (rstrip_prefix (dropWhile isspace s)) as [e He].
  pose proof (dropWhile_head isspace s) as Hh.
  set (l := dropWhile isspace s) in *. set (out := rstrip l) in *.
  assert (Hsl : single_spaced l) by (rewrite Hd in Hs; exact (single_spaced_app_r _ _ Hs)).
  assert (HPl : Forall P l) by (rewrite Hd in HP; apply Forall_app in HP; apply HP).
  repeat split.
  - destruct out as [|c o] eqn:Eo; [exact I|]. rewrite He in Hh. exact Hh.
  - unfold out, rstrip. rewrite rev_involutive. apply dropWhile_head.
  - rewrite He in Hsl. exact (single_spaced_app_l _ _ Hsl).
  - rewrite He in HPl. apply Forall_app in HPl. apply HPl.
Qed.

End NormalForm.

(** X1. Whatever the cell, the text [clean_text] returns has no
    whitespace at either end, never two whitespace characters in a row,
    and consists of the space and of characters that are not whitespace
    and are alphanumeric, the underscore or the hyphen. *)
Theorem clean_text_shape {Sigma : Alphabet} (v : pyval) :
  starts_clean (clean_text v)
  /\ starts_clean (rev (clean_text v))
  /\ single_spaced (clean_text v)
  /\ Forall (fun c => c = c_space \/ kept_char c) (clean_text v).
Proof.
  destruct v; try (repeat split; constructor).
  unfold clean_text. rewrite re_sub_disallowed, re_sub_spaces.
  apply trim_shape.
  - apply collapse_runs_single_spaced.
  - apply collapse_runs_chars; [left; reflexivity|].
    apply replace_disallowed_chars.
Qed.

(** ** From the catalog file to the fitted documents *)

Section Loading.
Context {Sigma : Alphabet}.

Lemma has_column_assign (col c : string) (f : Row -> Row) (df : DataFrame) :
  has_column col (assign c f df) = has_column col df || String.eqb col c.
Proof.
  unfold assign, has_column. cbn [columns].
  destruct (existsb (String.eqb c) (columns df)) eqn:E.
  - destruct (String.eqb_spec col c) as [->|_].
    + rewrite E. reflexivity.
    + rewrite orb_false_r. reflexivity.
  - rewrite existsb_app. cbn [existsb]. rewrite orb_false_r. reflexivity.
Qed.

Lemma df_empty_assign (c : string) (f : Row -> Row) (df : DataFrame) :
  df_empty df = false -> df_empty (assign c f df) = false.
Proof.
  unfold df_empty, assign. cbn [columns rows].
  destruct (columns df) as [|c0 cs]; [discriminate|].
  destruct (rows df) as [|r rs]; [discriminate|]. intros _.
  destruct (has_column c _); reflexivity.
Qed.

Lemma preprocess_data_not_empty (df : DataFrame) :
  df_empty df = false -> df_empty (preprocess_data df) = false.
Proof.
  intros He. unfold preprocess_data. rewrite He.
  repeat match goal with
         | |- context [if ?b then _ else _] => destruct b
         end;
    repeat apply df_empty_assign; exact He.
Qed.

Ltac through_assign :=
  repeat rewrite has_column_assign;
  repeat match goal with
         | |- context [String.eqb ?a ?b] =>
             let v := eval vm_compute in (String.eqb a b) in
             change (String.eqb a b) with v
         end;
  rewrite ?orb_false_r, ?orb_true_r.

Lemma feature_documents_of_frame (df : DataFrame) :
  df_empty df = false ->
  has_column "test_types_str" df = false ->
  feature_documents (get_features_for_recommendation (preprocess_data df))
  = map (row_document df) (rows df).
Proof.
  intros He Hs.
  unfold get_features_for_recommendation.
  rewrite (preprocess_data_not_empty df He).
  unfold preprocess_data. rewrite He. cbv zeta.
  unfold row_document.
  destruct (has_column "description" df) eqn:Hd;
    through_assign; rewrite ?Hd;
    destruct (has_column "test_types" df) eqn:Ht;
    through_assign; rewrite ?Ht;
    destruct (has_column "remote_support" df) eqn:Hr;
    through_assign; rewrite ?Hr;
    destruct (has_column "adaptive_irt" df) eqn:Ha;
    through_assign; rewrite ?Hd, ?Hs, ?Ht; cbn [andb orb];
    unfold feature_documents; through_assign; cbv iota;
    cbn [rows assign]; rewrite !map_map; apply map_ext; intros r; reflexivity.
Qed.


Lemma preprocess_data_has_description (df : DataFrame) :
  df_empty df = false -> has_column "description" (preprocess_data df) = true.
Proof.
  intros He. unfold preprocess_data. rewrite He. cbv zeta.
  destruct (has_column "description" df) eqn:Hd;
    destruct (has_column "test_types" _);
    destruct (has_column "remote_support" _);
    destruct (has_column "adaptive_irt" _);
    through_assign; rewrite ?Hd; reflexivity.
Qed.

(** After the two steps the frame has the column [combined_features]. *)
Lemma features_have_documents (df : DataFrame) :
  df_empty df = false ->
  has_column "combined_features"
             (get_features_for_recommendation (preprocess_data df)) = true.
Proof.
  intros He. unfold get_features_for_recommendation.
  rewrite (preprocess_data_not_empty df He).
  rewrite (preprocess_data_has_description df He).
  destruct (has_column "test_types_str" _); cbn [andb]; through_assign; reflexivity.
Qed.

Lemma catalog_frame_not_empty (keys : list string) (a : Assessment)
      (data : list Assessment) :
  keys <> [] -> df_empty (DataFrame_of keys (a :: data)) = false.
Proof.
  intros Hk. destruct keys; [contradiction | reflexivity].
Qed.

(** The documents of a catalog file, record by record. *)
Lemma catalog_documents (keys : list string) (a : Assessment) (data : list Assessment) :
  keys <> [] ->
  has_key "test_types_str" keys = false ->
  feature_documents (features_frame keys (a :: data))
  = map (catalog_document keys) (a :: data).
Proof.
  intros Hk Hs. unfold features_frame.
  rewrite feature_documents_of_frame.
  - change (rows (DataFrame_of keys (a :: data))) with (map row_of (a :: data)).
    rewrite map_map. apply map_ext. intros x. reflexivity.
  - apply catalog_frame_not_empty, Hk.
  - exact Hs.
Qed.

End Loading.

Section Preprocessing.
Context {Sigma : Alphabet}.

Lemma map_cells_step (f : Row -> Row) (l : list Row) :
  (forall r, catalog_cells (f r) = catalog_cells r) ->
  map catalog_cells (map f l) = map catalog_cells l.
Proof.
  intros H. rewrite map_map. apply map_ext. exact H.
Qed.

(** Each step of the preprocessing rewrites the rows in place. *)
Lemma preprocess_data_cells (df : DataFrame) :
  map catalog_cells (rows (preprocess_data df)) = map catalog_cells (rows df).
Proof.
  unfold preprocess_data.
  repeat match goal with
         | |- context [if ?b then _ else _] => destruct b
         end;
    cbn [rows assign];
    repeat (rewrite map_cells_step; [|intros r; reflexivity]);
    reflexivity.
Qed.

Lemma get_features_cells (df : DataFrame) :
  map catalog_cells (rows (get_features_for_recommendation df))
  = map catalog_cells (rows df).
Proof.
  unfold get_features_for_recommendation.
  repeat match goal with
         | |- context [if ?b then _ else _] => destruct b
         end;
    cbn [rows assign];
    repeat (rewrite map_cells_step; [|intros r; reflexivity]);
    reflexivity.
Qed.

Lemma preprocess_data_descriptions (df : DataFrame) :
  df_empty df = false ->
  map row_description (rows (preprocess_data df))
  = map (fun r => PyStr (clean_text (if has_column "description" df
                                      then row_description r
                                      else PyStr (lit ""))))
        (rows df).
Proof.
  intros He. unfold preprocess_data. rewrite He.
  destruct (has_column "description" df);
    repeat match goal with
           | |- context [if ?b then _ else _] => destruct b
           end;
    cbn [rows assign]; rewrite !map_map; apply map_ext; intros r; reflexivity.
Qed.

Lemma get_features_descriptions (df : DataFrame) :
  map row_description (rows (get_features_for_recommendation df))
  = map row_description (rows df).
Proof.
  unfold get_features_for_recommendation.
  repeat match goal with
         | |- context [if ?b then _ else _] => destruct b
         end;
    cbn [rows assign]; rewrite ?map_map; reflexivity.
Qed.

End Preprocessing.

(** X3. On any frame, [preprocess_data] followed by
    [get_features_for_recommendation] keeps every row in its place with
    its id, name, url, flags, test types and duration; on a frame that
    is not empty each description becomes the cleaned text of the
    description it had, or of the empty string when the frame had no
    such column. *)
Theorem preprocessing_keeps_rows {Sigma : Alphabet} (df : DataFrame) :
  let features_df := get_features_for_recommendation (preprocess_data df) in
  map catalog_cells (rows features_df) = map catalog_cells (rows df)
  /\ length (rows features_df) = length (rows df)
  /\ (df_empty df = false ->
      map row_description (rows features_df)
      = map (fun r => PyStr (clean_text (if has_column "description" df
                                          then row_description r
                                          else PyStr (lit ""))))
            (rows df)).
Proof.
  intros features_df.
  assert (Hc : map catalog_cells (rows features_df) = map catalog_cells (rows df)).
  { unfold features_df. rewrite get_features_cells. apply preprocess_data_cells. }
  split; [exact Hc|]. split.
  - rewrite <- (length_map catalog_cells), Hc. apply length_map.
  - intros He. unfold features_df.
    rewrite get_features_descriptions. apply preprocess_data_descriptions, He.
Qed.

(** X4. For a catalog file with at least one record, whose records
    have the keys [keys] (at least one, and not [test_types_str]), the
    documents the vectorizer is fitted on are, record by record, the
    cleaned description (the empty string when the records have no
    description), followed, when the records have the key
    [test_types], by a space and the test types, a list of strings,
    joined by a comma and a space; the test types are not cleaned.
    Without the key [test_types] the document is the cleaned
    description alone. *)
Theorem fitted_documents {Sigma : Alphabet} (keys : list string)
        (a : Assessment) (data : list Assessment) :
  keys <> [] ->
  has_key "test_types_str" keys = false ->
  feature_documents
    (get_features_for_recommendation
       (preprocess_data (load_data (JsonRecords keys (a :: data)))))
  = map (fun a =>
           let description :=
             clean_text (if has_key "description" keys then a_description a
                         else PyStr (lit "")) in
           if has_key "test_types" keys
           then description ++ lit " " ++ str_join (lit ", ") (a_test_types a)
           else description)
        (a :: data).
Proof.
  intros Hk Hs.
  change (load_data (JsonRecords keys (a :: data)))
    with (DataFrame_of keys (a :: data)).
  rewrite feature_documents_of_frame.
  - change (rows (DataFrame_of keys (a :: data))) with (map row_of (a :: data)).
    rewrite map_map. apply map_ext. intros x. reflexivity.
  - destruct keys; [contradiction | reflexivity].
  - exact Hs.
Qed.

Lemma fitted_documents_witness :
  ["name"; "description"]%string <> []
  /\ has_key "test_types_str" ["name"; "description"]%string = false
  /\ feature_documents
       (get_features_for_recommendation
          (preprocess_data
             (load_data (JsonRecords ["name"; "description"]%string manager_catalog))))
     = [lit "sales manager"]
  /\ feature_documents
       (get_features_for_recommendation
          (preprocess_data (load_data (JsonRecords required_columns manager_catalog))))
     = [lit "sales manager "].
Proof.
  assert (Hk : ["name"; "description"]%string <> []) by discriminate.
  assert (Hs : has_key "test_types_str" ["name"; "description"]%string = false)
    by reflexivity.
  split; [exact Hk|]. split; [exact Hs|]. split.
  - exact (fitted_documents (assessment "A" "Sales manager") [] Hk Hs).
  - reflexivity.
Defined.

Section Constructor.
Context {Sigma : Alphabet} {AS : ArgSort} {SW : StopWords}.

(** A recommender has no index, or its three attributes are set. *)
Lemma recommender_cases (self : SHLRecommender) :
  no_index self \/ exists vec matrix df, self = fitted vec matrix df.
Proof.
  destruct self as [[vec|] [m|] [df|]]; unfold no_index; cbn; auto.
  right. exists vec, m, df. reflexivity.
Qed.

(** The constructor on a catalog file with records and keys: it fits
    the documents of the frame, or raises what the fit raises. *)
Lemma init_of_frame (keys : list string) (a : Assessment) (data : list Assessment) :
  keys <> [] ->
  SHLRecommender_init (Some (JsonRecords keys (a :: data))) None
  = match fit_transform ENGLISH_STOP_WORDS
            (feature_documents (features_frame keys (a :: data))) with
    | Ok fit => Ok (fitted (fst fit) (snd fit) (features_frame keys (a :: data)))
    | Raise e => Raise e
    end.
Proof.
  intros Hk. unfold SHLRecommender_init, SHLRecommender_load_data.
  change (load_data (JsonRecords keys (a :: data)))
    with (DataFrame_of keys (a :: data)).
  rewrite (catalog_frame_not_empty a data Hk). cbn [negb].
  fold (features_frame keys (a :: data)).
  unfold load_dataframe.
  replace (has_column "combined_features" (features_frame keys (a :: data))) with true
    by (symmetry; apply features_have_documents, catalog_frame_not_empty, Hk).
  cbn [orb].
  destruct (fit_transform _ _) as [fit|e]; reflexivity.
Qed.

Lemma init_of_records (keys : list string) (a : Assessment) (data : list Assessment) :
  keys <> [] ->
  has_key "test_types_str" keys = false ->
  SHLRecommender_init (Some (JsonRecords keys (a :: data))) None
  = match fit_transform ENGLISH_STOP_WORDS
            (map (catalog_document keys) (a :: data)) with
    | Ok fit => Ok (fitted (fst fit) (snd fit) (features_frame keys (a :: data)))
    | Raise e => Raise e
    end.
Proof.
  intros Hk Hs. rewrite init_of_frame by exact Hk.
  rewrite catalog_documents by assumption. reflexivity.
Qed.

(** Records without any key make a frame without columns, which is
    empty. *)
Lemma init_without_keys (data : list Assessment) :
  SHLRecommender_init (Some (JsonRecords [] data)) None = Ok unfitted.
Proof. destruct data; reflexivity. Qed.

Lemma features_frame_rows (keys : list string) (a : Assessment)
      (data : list Assessment) :
  length (rows (features_frame keys (a :: data))) = length (a :: data).
Proof.
  unfold features_frame.
  rewrite <- (length_map catalog_cells), get_features_cells, preprocess_data_cells.
  rewrite length_map. cbn [DataFrame_of rows]. apply length_map.
Qed.

(** Without any term in the documents the fit raises. *)
Lemma fit_transform_no_term (stop : list text) (docs : list text) :
  Forall (fun doc => analyze stop doc = []) docs ->
  fit_transform stop docs = Raise ValueError.
Proof.
  intros H. unfold fit_transform.
  assert (E : concat (map (analyze stop) docs) = []).
  { induction H as [|d docs Hd _ IH]; simpl; [reflexivity|]. rewrite Hd, IH. reflexivity. }
  rewrite E. reflexivity.
Qed.

End Constructor.



(** X6. When no document of the catalog has a term (the texts hold
    only stop words, single characters or nothing), the fit raises
    [ValueError] and so does the constructor; [startup_event] then
    leaves the module variable at [None], and the handler answers
    every valid request with the error 503. *)
Theorem blank_catalog_unavailable {Sigma : Alphabet} {AS : ArgSort} {SW : StopWords}
        (keys : list string) (a : Assessment) (data : list Assessment)
        (input_data : QueryInput) :
  keys <> [] ->
  has_key "test_types_str" keys = false ->
  Forall (fun a => analyze ENGLISH_STOP_WORDS (catalog_document keys a) = [])
         (a :: data) ->
  validate input_data = Ok input_data ->
  SHLRecommender_init (Some (JsonRecords keys (a :: data))) None = Raise ValueError
  /\ startup_event (JsonRecords keys (a :: data)) = None
  /\ app_recommend (startup_event (JsonRecords keys (a :: data))) input_data
     = Raise (HTTPException 503).
Proof.
  intros Hk Hs Hno Hvalid.
  assert (Hinit : SHLRecommender_init (Some (JsonRecords keys (a :: data))) None
                  = Raise ValueError).
  { rewrite init_of_records by assumption.
    rewrite fit_transform_no_term; [reflexivity|].
    apply Forall_map. exact Hno. }
  split; [exact Hinit|]. unfold startup_event. rewrite Hinit.
  split; [reflexivity|]. unfold app_recommend. rewrite Hvalid. reflexivity.
Qed.

Lemma blank_catalog_unavailable_witness :
  required_columns <> []
  /\ has_key "test_types_str" required_columns = false
  /\ Forall (fun a => analyze ENGLISH_STOP_WORDS
                              (catalog_document required_columns a) = [])
            blank_catalog
  /\ validate sales_request = Ok sales_request
  /\ app_recommend (AS := Insertion_argsort)
                   (startup_event (JsonRecords required_columns blank_catalog))
                   sales_request
     = Raise (HTTPException 503).
Proof.
  assert (Hk : required_columns <> []) by discriminate.
  assert (Hs : has_key "test_types_str" required_columns = false) by reflexivity.
  assert (Hno : Forall (fun a => analyze ENGLISH_STOP_WORDS
                                         (catalog_document required_columns a) = [])
                       blank_catalog)
    by (repeat constructor).
  assert (Hvalid : validate sales_request = Ok sales_request) by reflexivity.
  split; [exact Hk|]. split; [exact Hs|]. split; [exact Hno|]. split; [exact Hvalid|].
  exact (proj2 (proj2 (blank_catalog_unavailable (AS := Insertion_argsort)
                         Hk Hs Hno Hvalid))).
Defined.

(** ** A catalog file without some of the required keys *)

Section Defaults.
Context {Sigma : Alphabet}.




End Defaults.



(** ** The service *)

Section ServiceFacts.
Context {Sigma : Alphabet} {AS : ArgSort}.

(** For [k >= 1], whatever the state of the recommender: at most [k]
    recommendations, with positive scores. *)
Lemma recommend_bounds (self : SHLRecommender) (query : text) (k : Z) :
  (1 <= k)%Z ->
  (Z.of_nat (length (recommend self query k)) <= k)%Z
  /\ Forall (fun r => (0 < similarity_score r)%R) (recommend self query k).
Proof.
  intros Hk. destruct (recommender_cases self) as [Hno|[vec [m [df ->]]]].
  - rewrite recommend_no_index by assumption. split; [cbn; lia | constructor].
  - rewrite recommend_fitted. split.
    + rewrite length_map, ranking_length by assumption. lia.
    + apply Forall_map. apply Forall_forall. intros idx Hidx.
      apply ranking_In in Hidx. cbn [similarity_score make_recommendation].
      apply Hidx.
Qed.

End ServiceFacts.

(** A normal answer of the handlers echoes the query and is not longer
    than asked. *)
Lemma handler_answer {Sigma : Alphabet} {AS : ArgSort}
        (recommender : option SHLRecommender) (query : text) (k : Z)
        (response : RecommendationResponse) :
  app_recommend_get recommender query k = Ok response ->
  resp_query response = query
  /\ (Z.of_nat (length (resp_recommendations response)) <= k)%Z.
Proof.
  unfold app_recommend_get, app_recommend, validate.
  cbn [qi_query qi_num_recommendations].
  destruct (1 <=? k)%Z eqn:H1; [|discriminate].
  destruct (k <=? 10)%Z; [|discriminate].
  apply Z.leb_le in H1. cbn [andb bind qi_query qi_num_recommendations].
  destruct recommender as [r|]; [|discriminate].
  intros H. injection H as <-. cbn [resp_query resp_recommendations].
  split; [reflexivity|]. rewrite length_map. apply recommend_bounds, H1.
Qed.

(** X7. Whatever the recommender, a request that the handlers of
    [/recommend] ([GET] or [POST]) answer normally asks for between 1
    and 10 recommendations, is echoed in the answer and gets at most as
    many recommendations as it asks for, each with a score greater than
    0: the service never calls [recommend] with a number outside
    1..10. *)
Theorem response_within_request {Sigma : Alphabet} {AS : ArgSort}
        (recommender : option SHLRecommender) (query : text) (k : Z)
        (response : RecommendationResponse) :
  app_recommend_get recommender query k = Ok response ->
  app_recommend recommender {| qi_query := query; qi_num_recommendations := k |}
  = Ok response
  /\ resp_query response = query
  /\ (1 <= k <= 10)%Z
  /\ (Z.of_nat (length (resp_recommendations response)) <= k)%Z
  /\ Forall (fun out => (0 < out_similarity_score out)%R)
            (resp_recommendations response).
Proof.
  intros Hget. split; [exact Hget|].
  unfold app_recommend_get, app_recommend, validate in Hget.
  cbn [qi_query qi_num_recommendations] in Hget.
  destruct ((1 <=? k) && (k <=? 10))%Z eqn:Hv; [|discriminate].
  apply andb_true_iff in Hv. destruct Hv as [H1 H10].
  apply Z.leb_le in H1. apply Z.leb_le in H10.
  cbn [bind qi_query qi_num_recommendations] in Hget.
  destruct recommender as [r|]; [|discriminate].
  injection Hget as <-. cbn [resp_query resp_recommendations].
  destruct (recommend_bounds r query H1) as [Hlen Hscore].
  split; [reflexivity|]. split; [lia|]. split.
  - rewrite length_map. lia.
  - apply Forall_map. exact Hscore.
Qed.

Lemma response_within_request_witness :
  app_recommend_get (AS := Insertion_argsort) (Some twin_recommender) (lit "Sales?") 1
  = Ok {| resp_query := lit "Sales?";
          resp_recommendations := [assessment_output (recommendation_of "B" 1)] |}
  /\ (1 <= 1 <= 10)%Z
  /\ (Z.of_nat (length [assessment_output (recommendation_of "B" 1)]) <= 1)%Z
  /\ Forall (fun out => (0 < out_similarity_score out)%R)
            [assessment_output (recommendation_of "B" 1)].
Proof.
  assert (H : app_recommend_get (AS := Insertion_argsort) (Some twin_recommender)
                                (lit "Sales?") 1
              = Ok {| resp_query := lit "Sales?";
                      resp_recommendations :=
                        [assessment_output (recommendation_of "B" 1)] |}).
  { unfold app_recommend_get, app_recommend.
    change (validate {| qi_query := lit "Sales?"; qi_num_recommendations := 1 |})
      with (Ok {| qi_query := lit "Sales?"; qi_num_recommendations := 1 |}).
    cbn [bind qi_query qi_num_recommendations].
    rewrite twin_recommend_one. reflexivity. }
  split; [exact H|].
  exact (proj2 (proj2 (response_within_request _ _ _ H))).
Defined.

(** X8. When [GET /health] reports an error, [/recommend] gives no
    recommendation: a valid request is answered with the error 503
    (no recommender object) or with an empty list (data not loaded). *)
Theorem health_error_no_recommendation {Sigma : Alphabet} {AS : ArgSort}
        (recommender : option SHLRecommender) (input_data : QueryInput)
        (message : string) :
  health_check recommender = HealthError message ->
  validate input_data = Ok input_data ->
  (recommender = None
   /\ app_recommend recommender input_data = Raise (HTTPException 503))
  \/ (recommender <> None
      /\ app_recommend recommender input_data
         = Ok {| resp_query := qi_query input_data; resp_recommendations := [] |}).
Proof.
  intros Hh Hvalid. unfold app_recommend. rewrite Hvalid. cbn [bind].
  destruct recommender as [r|]; [right | left; split; reflexivity].
  split; [discriminate|].
  rewrite recommend_no_index; [reflexivity|].
  unfold health_check in Hh. unfold no_index.
  destruct (data_df r); [|left; reflexivity].
  destruct (tfidf_matrix r); [discriminate|]. right. right. reflexivity.
Qed.

Lemma health_error_no_recommendation_witness :
  health_check (startup_event (AS := Insertion_argsort) NoSuchFile)
  = HealthError "Recommender data not loaded"
  /\ validate sales_request = Ok sales_request
  /\ ((startup_event (AS := Insertion_argsort) NoSuchFile = None
       /\ app_recommend (startup_event NoSuchFile) sales_request
          = Raise (HTTPException 503))
      \/ (startup_event (AS := Insertion_argsort) NoSuchFile <> None
          /\ app_recommend (startup_event NoSuchFile) sales_request
             = Ok {| resp_query := qi_query sales_request;
                     resp_recommendations := [] |})).
Proof.
  assert (Hh : health_check (startup_event (AS := Insertion_argsort) NoSuchFile)
               = HealthError "Recommender data not loaded") by reflexivity.
  assert (Hvalid : validate sales_request = Ok sales_request) by reflexivity.
  split; [exact Hh|]. split; [exact Hvalid|].
  exact (@health_error_no_recommendation _ _ _ _ _ Hh Hvalid).
Defined.

(** X9. After [startup_event] on a catalog file, [GET /health] reports
    a healthy service with [n] assessments exactly when the file holds
    [n >= 1] records with keys and the fit on their documents
    succeeded. *)
Theorem healthy_after_startup {Sigma : Alphabet} {AS : ArgSort} {SW : StopWords}
        (DATA_FILE : file_content) (n : nat) :
  no_derived_key DATA_FILE ->
  health_check (startup_event DATA_FILE) = Healthy n
  <-> exists keys data fit,
        DATA_FILE = JsonRecords keys data
        /\ keys <> []
        /\ n = length data
        /\ 0 < n
        /\ fit_transform ENGLISH_STOP_WORDS (map (catalog_document keys) data)
           = Ok fit.
Proof.
  intros Hplain. unfold startup_event.
  destruct DATA_FILE as [| | |keys [|a data]];
    try (split; [discriminate | intros [ks [d [fit [H _]]]]; discriminate H]).
  - split; [discriminate|]. intros [ks [d [fit [H [_ [Hn [Hpos _]]]]]]].
    injection H as _ <-. subst n. cbn in Hpos. lia.
  - destruct keys as [|key keys].
    + rewrite init_without_keys. split; [discriminate|].
      intros [ks [d [fit [H [Hk _]]]]]. injection H as <- _. contradiction.
    + rewrite init_of_records;
        [|discriminate | apply (Hplain (key :: keys) (a :: data)); reflexivity].
      destruct (fit_transform _ _) as [fit|e] eqn:Hfit.
      * unfold health_check, fitted. cbn [data_df tfidf_matrix].
        rewrite features_frame_rows. split.
        -- intros H. injection H as <-. exists (key :: keys), (a :: data), fit.
           repeat split; [discriminate | cbn; lia | exact Hfit].
        -- intros [ks [d [fit' [H [_ [Hn _]]]]]]. injection H as _ <-. subst n.
           reflexivity.
      * split; [discriminate|]. intros [ks [d [fit' [H [_ [_ [_ Hf]]]]]]].
        injection H as <- <-. rewrite Hfit in Hf. discriminate Hf.
Qed.

Lemma healthy_after_startup_witness :
  no_derived_key (JsonRecords required_columns twin_catalog)
  /\ health_check (startup_event (AS := Insertion_argsort)
                                 (JsonRecords required_columns twin_catalog))
     = Healthy 2
  /\ exists keys data fit,
       JsonRecords required_columns twin_catalog = JsonRecords keys data
       /\ keys <> []
       /\ 2 = length data
       /\ 0 < 2
       /\ fit_transform ENGLISH_STOP_WORDS (map (catalog_document keys) data) = Ok fit.
Proof.
  assert (Hplain : no_derived_key (JsonRecords required_columns twin_catalog)).
  { intros keys data H. injection H as <- _. reflexivity. }
  assert (Hh : health_check (startup_event (AS := Insertion_argsort)
                               (JsonRecords required_columns twin_catalog))
               = Healthy 2).
  { unfold startup_event. rewrite twin_init. reflexivity. }
  split; [exact Hplain|]. split; [exact Hh|].
  exact (proj1 (healthy_after_startup (AS := Insertion_argsort) 2 Hplain) Hh).
Defined.

(** ** The number of recommendations asked for *)

Section NumberOfRecommendations.
Context {AS : ArgSort}.

(** A longer slice from the end starts earlier. *)
Lemma slice_from_last_more (A : Type) (k k' : Z) (l : list A) :
  (1 <= k <= k')%Z ->
  exists extra, slice_from (- k') l = extra ++ slice_from (- k) l.
Proof.
  intros Hk. rewrite !slice_from_last by lia.
  set (m' := length l - Z.to_nat k'). set (m := length l - Z.to_nat k).
  exists (firstn (m - m') (skipn m' l)).
  rewrite <- (firstn_skipn (m - m') (skipn m' l)) at 1.
  f_equal. rewrite skipn_skipn. f_equal. unfold m, m'. lia.
Qed.

Lemma ranking_prefix (a : list R) (k k' : Z) :
  (1 <= k <= k')%Z -> exists more, ranking a k' = ranking a k ++ more.
Proof.
  intros Hk. unfold ranking, top_indices.
  destruct (slice_from_last_more (argsort a) Hk) as [extra ->].
  rewrite rev_app_distr, filter_app. eexists. reflexivity.
Qed.

(** A number of recommendations that is not below the number of
    documents selects them all, as 0 does. *)
Lemma top_indices_all (a : list R) (k : Z) :
  (Z.of_nat (length a) <= k)%Z -> top_indices a k = top_indices a 0.
Proof.
  intros Hk. unfold top_indices. f_equal.
  change (- 0)%Z with 0%Z. rewrite slice_from_0.
  destruct (Z.eq_dec k 0) as [->|Hne]; [apply slice_from_0|].
  rewrite slice_from_last by lia. rewrite argsort_length.
  replace (length a - Z.to_nat k) with 0 by lia. reflexivity.
Qed.

(** A negative number [k] drops the [-k] least similar documents. *)
Lemma top_indices_negative (a : list R) (k : Z) :
  (k < 0)%Z ->
  top_indices a k
  = if (Z.of_nat (length a) + k <=? 0)%Z then []
    else top_indices a (Z.of_nat (length a) + k).
Proof.
  intros Hk. unfold top_indices.
  destruct (Z.leb_spec (Z.of_nat (length a) + k) 0) as [Hle|Hgt].
  - unfold slice_from. destruct (Z.ltb_spec (- k) 0) as [|_]; [lia|].
    rewrite argsort_length. rewrite Z.min_r by lia. rewrite Nat2Z.id.
    rewrite <- (argsort_length a). rewrite skipn_all. reflexivity.
  - f_equal. rewrite (@slice_from_last _ (Z.of_nat (length a) + k)) by lia.
    rewrite argsort_length.
    unfold slice_from. destruct (Z.ltb_spec (- k) 0) as [|_]; [lia|].
    rewrite argsort_length. f_equal. lia.
Qed.

End NumberOfRecommendations.

Lemma recommend_extends {Sigma : Alphabet} {AS : ArgSort}
      (self : SHLRecommender) (query : text) (k k' : Z) :
  (1 <= k <= k')%Z ->
  exists more, recommend self query k' = recommend self query k ++ more.
Proof.
  intros Hk. destruct (recommender_cases self) as [Hno|[vec [m [df ->]]]].
  - exists []. rewrite !recommend_no_index by assumption. reflexivity.
  - rewrite !recommend_fitted.
    destruct (ranking_prefix (similarities vec m query) Hk) as [more ->].
    rewrite map_app. eexists. reflexivity.
Qed.

(** X10. For [1 <= k <= k'], whatever the state of the recommender, the
    answer of [recommend] for [k] is the beginning of its answer for
    [k']: asking for more recommendations only adds to the end. *)
Theorem recommend_prefix {Sigma : Alphabet} {AS : ArgSort}
        (self : SHLRecommender) (query : text) (k k' : Z) :
  (1 <= k <= k')%Z ->
  (exists more, recommend self query k' = recommend self query k ++ more)
  /\ recommend self query k
     = firstn (length (recommend self query k)) (recommend self query k')
  /\ length (recommend self query k) <= length (recommend self query k').
Proof.
  intros Hk. destruct (recommend_extends self query Hk) as [more E].
  split; [exists more; exact E|]. rewrite E. split.
  - rewrite firstn_app, Nat.sub_diag, firstn_all, firstn_O, app_nil_r. reflexivity.
  - rewrite length_app. lia.
Qed.

Lemma recommend_prefix_witness :
  (1 <= 1 <= 2)%Z
  /\ exists more,
       recommend (AS := Insertion_argsort) twin_recommender (lit "Sales?") 2
       = recommend twin_recommender (lit "Sales?") 1 ++ more.
Proof.
  assert (H : (1 <= 1 <= 2)%Z) by lia.
  split; [exact H|].
  exact (proj1 (recommend_prefix (AS := Insertion_argsort) twin_recommender
                  (lit "Sales?") H)).
Defined.

(** X11. On a fitted recommender, a number of recommendations that is
    not below the number of documents gives the same answer as 0: every
    document with a positive similarity. *)
Theorem recommend_saturates {Sigma : Alphabet} {AS : ArgSort}
        (vec : TfidfVectorizer) (matrix : list (list R)) (df : DataFrame)
        (query : text) (k : Z) :
  (Z.of_nat (length matrix) <= k)%Z ->
  recommend (fitted vec matrix df) query k = recommend (fitted vec matrix df) query 0
  /\ length (recommend (fitted vec matrix df) query k)
     = positive_count (similarities vec matrix query).
Proof.
  intros Hk.
  assert (E : recommend (fitted vec matrix df) query k
              = recommend (fitted vec matrix df) query 0).
  { rewrite !recommend_fitted. unfold ranking. rewrite top_indices_all; [reflexivity|].
    unfold similarities, cosine_similarity. rewrite length_map. exact Hk. }
  split; [exact E|]. rewrite E, recommend_fitted, length_map. apply ranking_0_length.
Qed.

Lemma recommend_saturates_witness :
  (Z.of_nat (length twin_matrix) <= 7)%Z
  /\ recommend (AS := Insertion_argsort) twin_recommender (lit "Sales?") 7
     = recommend twin_recommender (lit "Sales?") 0.
Proof.
  assert (H : (Z.of_nat (length twin_matrix) <= 7)%Z) by (cbn; lia).
  split; [exact H|].
  exact (proj1 (recommend_saturates (AS := Insertion_argsort)
                  twin_vectorizer twin_matrix twin_frame (lit "Sales?") H)).
Defined.

(** X12. On a fitted recommender with [n] documents, a negative number
    of recommendations [k] is not refused: [recommend] answers as for
    [n + k], that is without the [-k] least similar documents, and with
    nothing when [n + k <= 0]. *)
Theorem recommend_negative {Sigma : Alphabet} {AS : ArgSort}
        (vec : TfidfVectorizer) (matrix : list (list R)) (df : DataFrame)
        (query : text) (k : Z) :
  (k < 0)%Z ->
  recommend (fitted vec matrix df) query k
  = if (Z.of_nat (length matrix) + k <=? 0)%Z then []
    else recommend (fitted vec matrix df) query (Z.of_nat (length matrix) + k).
Proof.
  intros Hk. rewrite !recommend_fitted. unfold ranking.
  rewrite top_indices_negative by assumption.
  unfold similarities at 3 5, cosine_similarity. rewrite length_map.
  destruct (_ <=? 0)%Z; reflexivity.
Qed.

Lemma recommend_negative_witness :
  (-1 < 0)%Z
  /\ recommend (AS := Insertion_argsort) twin_recommender (lit "Sales?") (-1)
     = recommend twin_recommender (lit "Sales?") 1.
Proof.
  assert (H : (-1 < 0)%Z) by lia.
  split; [exact H|].
  exact (recommend_negative (AS := Insertion_argsort)
           twin_vectorizer twin_matrix twin_frame (lit "Sales?") H).
Defined.

(** ** Which documents are recommended *)

Section RecommendedDocuments.
Context {Sigma : Alphabet}.

Lemma dot_zero_r (u v : list R) : all_zero v -> dot u v = 0%R.
Proof.
  intros H. revert u. induction H as [|y v Hy _ IH]; intros [|x u]; simpl;
    try reflexivity.
  rewrite IH, Hy. ring.
Qed.

(** A query without any term of the vocabulary has the zero vector. *)
Lemma transform_no_overlap (vec : TfidfVectorizer) (doc : text) :
  Forall (fun t => term_count t (analyze (stop_words vec) doc) = 0) (vocabulary_ vec) ->
  all_zero (transform vec doc).
Proof.
  intros H. unfold transform. apply l2_normalize_zero.
  unfold all_zero. apply Forall_map.
  generalize (idf_ vec). induction H as [|t ts Ht _ IH]; intros [|w ws];
    simpl; constructor.
  - simpl. rewrite Ht. simpl. apply Rmult_0_l.
  - apply IH.
Qed.

Lemma similarities_at (vec : TfidfVectorizer) (matrix : list (list R))
      (query : text) (idx : nat) :
  idx < length matrix ->
  at_index (similarities vec matrix query) idx
  = dot (l2_normalize (transform vec (preprocess_query query)))
        (l2_normalize (nth idx matrix [])).
Proof.
  intros Hi. unfold at_index, similarities, cosine_similarity.
  rewrite nth_indep
    with (d' := dot (l2_normalize (transform vec (preprocess_query query)))
                    (l2_normalize [])).
  - apply map_nth with (f := fun y => dot (l2_normalize _) (l2_normalize y)).
  - rewrite length_map. exact Hi.
Qed.

End RecommendedDocuments.

(** X13. On a recommender whose frame and matrix have the same number
    of rows, as the constructor builds them, and whose frame has the
    columns id, name and url, every recommendation carries the id, the
    name and the url of one row of the catalog, and no row is
    recommended twice. *)
Theorem recommendations_from_catalog {Sigma : Alphabet} {AS : ArgSort}
        (vec : TfidfVectorizer) (matrix : list (list R)) (df : DataFrame)
        (query : text) (k : Z) :
  length matrix = length (rows df) ->
  (has_column "id" df && has_column "name" df && has_column "url" df)%bool = true ->
  exists rows_found,
    NoDup rows_found
    /\ Forall (fun idx => idx < length (rows df)) rows_found
    /\ map (fun r => (rec_id r, rec_name r, rec_url r))
           (recommend (fitted vec matrix df) query k)
       = map (fun idx => let row := nth idx (rows df) empty_row in
                         (row_id row, row_name row, row_url row))
             rows_found.
Proof.
  intros Hlen Hcols.
  apply andb_true_iff in Hcols. destruct Hcols as [Hcols Hurl].
  apply andb_true_iff in Hcols. destruct Hcols as [Hid Hname].
  exists (ranking (similarities vec matrix query) k).
  split; [apply ranking_NoDup|]. split.
  - apply Forall_forall. intros idx Hidx.
    apply (ranking_rows_in_frame vec matrix df query k idx Hlen Hidx).
  - rewrite recommend_fitted, map_map. apply map_ext. intros idx.
    unfold make_recommendation, get_cell, iloc.
    cbn [rec_id rec_name rec_url]. rewrite Hid, Hname, Hurl. reflexivity.
Qed.

Lemma recommendations_from_catalog_witness :
  length twin_matrix = length (rows twin_frame)
  /\ (has_column "id" twin_frame && has_column "name" twin_frame
      && has_column "url" twin_frame)%bool = true
  /\ exists rows_found,
       NoDup rows_found
       /\ Forall (fun idx => idx < length (rows twin_frame)) rows_found
       /\ map (fun r => (rec_id r, rec_name r, rec_url r))
              (recommend (AS := Insertion_argsort) twin_recommender (lit "Sales?") 2)
          = map (fun idx => let row := nth idx (rows twin_frame) empty_row in
                            (row_id row, row_name row, row_url row))
                rows_found.
Proof.
  assert (Hlen : length twin_matrix = length (rows twin_frame)) by reflexivity.
  assert (Hcols : (has_column "id" twin_frame && has_column "name" twin_frame
                   && has_column "url" twin_frame)%bool = true) by reflexivity.
  split; [exact Hlen|]. split; [exact Hcols|].
  exact (recommendations_from_catalog (AS := Insertion_argsort)
           twin_vectorizer twin_matrix twin_frame (lit "Sales?") 2 Hlen Hcols).
Defined.

(** X14. A query that, once normalised and analysed, holds no term of
    the fitted vocabulary gets the empty answer for every [k]: words
    out of the vocabulary, stop words and single characters count for
    nothing, and are no error. *)
Theorem recommend_out_of_vocabulary {Sigma : Alphabet} {AS : ArgSort}
        (vec : TfidfVectorizer) (matrix : list (list R)) (df : DataFrame)
        (query : text) (k : Z) :
  Forall (fun t => term_count t (analyze (stop_words vec) (preprocess_query query)) = 0)
         (vocabulary_ vec) ->
  recommend (fitted vec matrix df) query k = [].
Proof.
  intros H. rewrite recommend_fitted. unfold ranking.
  rewrite filter_none; [reflexivity|].
  intros idx. unfold is_relevant, similarities.
  rewrite cosine_similarity_zero by (apply transform_no_overlap; exact H).
  destruct (Rlt_dec 0 0) as [Hlt|_]; [exfalso; exact (Rlt_irrefl _ Hlt) | reflexivity].
Qed.

Lemma recommend_out_of_vocabulary_witness :
  Forall (fun t => term_count t (analyze (stop_words twin_vectorizer)
                                         (preprocess_query (lit "The manager of X")))
                   = 0)
         (vocabulary_ twin_vectorizer)
  /\ recommend (AS := Insertion_argsort) twin_recommender (lit "The manager of X") 3 = [].
Proof.
  assert (H : Forall (fun t => term_count t
                                 (analyze (stop_words twin_vectorizer)
                                          (preprocess_query (lit "The manager of X")))
                               = 0)
                     (vocabulary_ twin_vectorizer))
    by (repeat constructor).
  split; [exact H|].
  exact (recommend_out_of_vocabulary (AS := Insertion_argsort)
           twin_vectorizer twin_matrix twin_frame (lit "The manager of X") 3 H).
Defined.

(** X15. A document whose row of the matrix is the zero vector (its
    text has no term of the vocabulary) is never recommended, whatever
    the query and [k]. *)
Theorem zero_row_never_recommended {Sigma : Alphabet} {AS : ArgSort}
        (vec : TfidfVectorizer) (matrix : list (list R)) (df : DataFrame)
        (query : text) (k : Z) (idx : nat) :
  idx < length matrix ->
  all_zero (nth idx matrix []) ->
  recommend (fitted vec matrix df) query k
  = map (make_recommendation df (similarities vec matrix query))
        (ranking (similarities vec matrix query) k)
  /\ ~ In idx (ranking (similarities vec matrix query) k).
Proof.
  intros Hi Hz. split; [apply recommend_fitted|].
  intros Hin. apply ranking_In in Hin. destruct Hin as [_ Hpos].
  rewrite similarities_at in Hpos by assumption.
  rewrite dot_zero_r in Hpos by (apply l2_normalize_zero; exact Hz).
  exact (Rlt_irrefl _ Hpos).
Qed.

Lemma zero_row_never_recommended_witness :
  1 < length [[1%R]; [0%R]]
  /\ all_zero (nth 1 [[1%R]; [0%R]] [])
  /\ ~ In 1 (ranking (AS := Insertion_argsort)
                     (similarities twin_vectorizer [[1%R]; [0%R]] (lit "Sales?")) 2).
Proof.
  assert (Hi : 1 < length [[1%R]; [0%R]]) by (cbn; lia).
  assert (Hz : all_zero (nth 1 [[1%R]; [0%R]] [])) by (repeat constructor).
  split; [exact Hi|]. split; [exact Hz|].
  exact (proj2 (zero_row_never_recommended (AS := Insertion_argsort)
                  twin_vectorizer [[1%R]; [0%R]] twin_frame (lit "Sales?") 2 Hi Hz)).
Defined.

(** ** Bounds on the metrics *)

Section MetricBounds.
Context {Sigma : Alphabet}.

Lemma len_nonneg (A : Type) (l : list A) : (0 <= len l)%Q.
Proof.
  unfold len. rewrite <- (Zle_Qle 0). lia.
Qed.

Lemma len_pos (A : Type) (l : list A) : is_empty l = false -> (0 < len l)%Q.
Proof.
  destruct l as [|x l]; [discriminate|]. intros _. unfold len.
  rewrite <- (Zlt_Qlt 0). cbn [length]. lia.
Qed.

Lemma len_le (A B : Type) (l : list A) (l' : list B) :
  length l <= length l' -> (len l <= len l')%Q.
Proof.
  intros H. unfold len. rewrite <- Zle_Qle. lia.
Qed.

(** A quotient of a part by the whole. *)
Lemma ratio_bounds (x d : Q) : (0 <= x)%Q -> (x <= d)%Q -> (0 < d)%Q ->
  (0 <= x / d)%Q /\ (x / d <= 1)%Q.
Proof.
  intros H0 Hle Hd. split.
  - apply Qle_shift_div_l; [exact Hd|]. rewrite Qmult_0_l. exact H0.
  - apply Qle_shift_div_r; [exact Hd|]. rewrite Qmult_1_l. exact Hle.
Qed.

Lemma ratio_monotone (x y d : Q) : (x <= y)%Q -> (0 <= d)%Q -> (x / d <= y / d)%Q.
Proof.
  intros Hle Hd. unfold Qdiv. apply Qmult_le_compat_r; [exact Hle|].
  apply Qinv_le_0_compat. exact Hd.
Qed.

Lemma Qplus_nonneg (x y : Q) : (0 <= x)%Q -> (0 <= y)%Q -> (0 <= x + y)%Q.
Proof.
  intros Hx Hy. change (0 + 0 <= x + y)%Q. apply Qplus_le_compat; assumption.
Qed.

Lemma recall_at_k_bounds (recommended relevant : list text) :
  (0 <= recall_at_k recommended relevant)%Q
  /\ (recall_at_k recommended relevant <= 1)%Q.
Proof.
  rewrite recall_at_k_common.
  destruct (is_empty relevant) eqn:E; [split; discriminate|].
  apply ratio_bounds.
  - apply len_nonneg.
  - apply len_le. unfold common.
    etransitivity; [apply distinct_length | apply filter_length_le].
  - apply len_pos, E.
Qed.

(** The loop of the average precision: the sum never exceeds the number
    of hits, which never exceeds the rank. *)
Lemma precision_loop_bounds (relevant : list text) (l : list text)
      (i count : nat) (acc : Q) :
  count <= i -> (0 <= acc)%Q -> (acc <= inject_Z (Z.of_nat count))%Q ->
  let final := fold_left (precision_step relevant) (combine (seq i (length l)) l)
                         (acc, count) in
  (acc <= fst final)%Q
  /\ (fst final
      <= inject_Z (Z.of_nat (count
                             + length (filter (fun x => text_in x relevant) l))))%Q.
Proof.
  revert i count acc. induction l as [|x l IH]; intros i count acc Hc H0 Hle.
  - cbn. rewrite Nat.add_0_r. split; [apply Qle_refl | exact Hle].
  - cbn [length seq combine fold_left filter]. rewrite precision_step_eq.
    destruct (text_in x relevant).
    + assert (Hterm : (0 <= inject_Z (Z.of_nat (count + 1))
                            / inject_Z (Z.of_nat (i + 1)))%Q
                      /\ (inject_Z (Z.of_nat (count + 1))
                          / inject_Z (Z.of_nat (i + 1)) <= 1)%Q).
      { apply ratio_bounds.
        - rewrite <- (Zle_Qle 0). lia.
        - rewrite <- Zle_Qle. lia.
        - rewrite <- (Zlt_Qlt 0). lia. }
      destruct Hterm as [Ht0 Ht1].
      set (term := (inject_Z (Z.of_nat (count + 1))
                    / inject_Z (Z.of_nat (i + 1)))%Q) in *.
      assert (Hnew : (acc + term <= inject_Z (Z.of_nat (count + 1)))%Q).
      { rewrite Nat2Z.inj_add, inject_Z_plus. apply Qplus_le_compat; assumption. }
      assert (Hnew0 : (0 <= acc + term)%Q).
      { apply Qplus_nonneg; assumption. }
      destruct (IH (S i) (count + 1) (acc + term)%Q ltac:(lia) Hnew0 Hnew) as [Ha Hb].
      cbn [length]. split.
      * eapply Qle_trans; [|exact Ha].
        rewrite <- (Qplus_0_r acc) at 1. apply Qplus_le_compat; [apply Qle_refl|exact Ht0].
      * replace (count + S (length (filter (fun x => text_in x relevant) l)))
          with (count + 1 + length (filter (fun x => text_in x relevant) l)) by lia.
        exact Hb.
    + apply (IH (S i) count acc); [lia | exact H0 | exact Hle].
Qed.

Lemma average_precision_bounds (recommended relevant : list text) :
  (0 <= average_precision recommended relevant)%Q
  /\ (average_precision recommended relevant
      <= if is_empty relevant then 0
         else len (filter (fun x => text_in x relevant) recommended) / len relevant)%Q.
Proof.
  unfold average_precision, enumerate.
  destruct (is_empty relevant) eqn:E; [split; apply Qle_refl|].
  destruct (precision_loop_bounds relevant recommended (i := 0) (count := 0)
              (acc := 0%Q) (le_n 0) (Qle_refl 0) (Qle_refl 0)) as [H0 Hle].
  cbv zeta in H0, Hle. cbn [Nat.add] in Hle.
  pose proof (len_pos relevant E) as Hpos. split.
  - apply Qle_shift_div_l; [exact Hpos|]. rewrite Qmult_0_l. exact H0.
  - apply ratio_monotone; [exact Hle | apply Qlt_le_weak, Hpos].
Qed.

Lemma sum_over_nonneg (f : TestItem -> Q) (l : list TestItem) :
  (forall t, 0 <= f t)%Q -> (0 <= fold_right (fun t acc => f t + acc) 0 l)%Q.
Proof.
  intros H0. induction l as [|x l IH]; simpl; [apply Qle_refl|].
  apply Qplus_nonneg; [apply H0 | exact IH].
Qed.

Lemma sum_over_le_len (f : TestItem -> Q) (l : list TestItem) :
  (forall t, f t <= 1)%Q -> (fold_right (fun t acc => f t + acc) 0 l <= len l)%Q.
Proof.
  intros H1. unfold len. induction l as [|x l IH]; [apply Qle_refl|].
  cbn [fold_right length]. rewrite Nat2Z.inj_succ, <- Z.add_1_l, inject_Z_plus.
  apply Qplus_le_compat; [apply H1 | exact IH].
Qed.

(** The mean of values between 0 and 1. *)
Lemma mean_over_bounds (f : TestItem -> Q) (qs : list TestItem) :
  (forall t, 0 <= f t)%Q ->
  (0 <= mean_over f qs)%Q
  /\ ((forall t, f t <= 1)%Q -> (mean_over f qs <= 1)%Q).
Proof.
  intros H0. destruct qs as [|t qs]; [split; [apply Qle_refl | intros _; discriminate]|].
  unfold mean_over.
  assert (Hpos : (0 < len (t :: qs))%Q) by (apply len_pos; reflexivity).
  split.
  - apply Qle_shift_div_l; [exact Hpos|]. rewrite Qmult_0_l.
    apply sum_over_nonneg, H0.
  - intros H1. apply Qle_shift_div_r; [exact Hpos|]. rewrite Qmult_1_l.
    apply sum_over_le_len, H1.
Qed.

Lemma mean_over_monotone (f g : TestItem -> Q) (qs : list TestItem) :
  (forall t, f t <= g t)%Q -> (mean_over f qs <= mean_over g qs)%Q.
Proof.
  intros H. destruct qs as [|t qs]; [apply Qle_refl|].
  unfold mean_over. apply ratio_monotone; [|apply len_nonneg].
  induction (t :: qs) as [|x l IH]; simpl; [apply Qle_refl|].
  apply Qplus_le_compat; [apply H | exact IH].
Qed.

End MetricBounds.

(** X16. Whatever the recommender and the test queries, the mean recall
    that [calculate_metrics] and [SHLRecommender.evaluate] return is
    between 0 and 1, and the mean average precision is not negative. *)
Theorem metrics_bounds {Sigma : Alphabet} {AS : ArgSort}
        (self : SHLRecommender) (recommender : text -> Z -> list Recommendation)
        (test_queries : list TestItem) (k : Z) :
  (0 <= fst (calculate_metrics recommender test_queries k) <= 1)%Q
  /\ (0 <= snd (calculate_metrics recommender test_queries k))%Q
  /\ (0 <= fst (evaluate self test_queries k) <= 1)%Q
  /\ (0 <= snd (evaluate self test_queries k))%Q.
Proof.
  rewrite evaluate_means, calculate_metrics_means. cbn [fst snd].
  rewrite !mean_map.
  repeat split.
  - apply mean_over_bounds. intros t. apply recall_at_k_bounds.
  - apply mean_over_bounds; intros t; apply recall_at_k_bounds.
  - apply mean_over_bounds. intros t. apply average_precision_bounds.
  - apply mean_over_bounds. intros t. apply recall_at_k_bounds.
  - apply mean_over_bounds; intros t; apply recall_at_k_bounds.
  - apply mean_over_bounds. intros t. apply average_precision_bounds.
Qed.

(** X17. When the recommended items of a query are all different, its
    average precision is at most its recall, hence at most 1. *)
Theorem average_precision_at_most_recall {Sigma : Alphabet}
        (recommended_items relevant_items : list text) :
  NoDup recommended_items ->
  (average_precision recommended_items relevant_items
   <= recall_at_k recommended_items relevant_items)%Q
  /\ (average_precision recommended_items relevant_items <= 1)%Q.
Proof.
  intros Hnd.
  assert (H : (average_precision recommended_items relevant_items
               <= recall_at_k recommended_items relevant_items)%Q).
  { eapply Qle_trans; [apply average_precision_bounds|].
    unfold recall_at_k. rewrite distinct_without_duplicates by (apply NoDup_filter, Hnd).
    apply Qle_refl. }
  split; [exact H|].
  eapply Qle_trans; [exact H | apply recall_at_k_bounds].
Qed.

Lemma average_precision_at_most_recall_witness :
  NoDup [lit "A"; lit "B"]
  /\ (average_precision [lit "A"; lit "B"] [lit "A"; lit "C"] <= 1)%Q.
Proof.
  assert (H : NoDup [lit "A"; lit "B"]).
  { constructor; [|constructor; [|constructor]].
    - intros [E|[]]. discriminate E.
    - intros []. }
  split; [exact H|].
  exact (proj2 (average_precision_at_most_recall [lit "A"; lit "C"] H)).
Defined.

(** Two catalog rows with the same name make the average precision of
    a query exceed 1. *)
Example average_precision_with_duplicates :
  (average_precision [lit "A"; lit "A"] [lit "A"] == 2)%Q.
Proof. reflexivity. Qed.

(** X24. A test query whose expected list repeats a name never
    reaches recall 1, whatever is recommended: the recall counts the
    distinct expected names that are recommended and divides by the
    length of the list, so that it is at most the size of the expected
    set over that length. *)
Theorem recall_with_repeated_expected {Sigma : Alphabet}
        (recommended_items relevant_items : list text) :
  ~ NoDup relevant_items ->
  (recall_at_k recommended_items relevant_items
   <= set_size relevant_items / len relevant_items)%Q
  /\ (set_size relevant_items / len relevant_items < 1)%Q.
Proof.
  intros Hrep.
  assert (Hne : is_empty relevant_items = false).
  { destruct relevant_items; [exfalso; apply Hrep; constructor | reflexivity]. }
  split.
  - rewrite recall_at_k_common, Hne. apply ratio_monotone; [|apply len_nonneg].
    unfold set_size. apply len_le, NoDup_incl_length; [apply distinct_NoDup|].
    intros x. unfold common. rewrite !distinct_In, filter_In. tauto.
  - apply Qlt_shift_div_r; [apply len_pos, Hne|]. rewrite Qmult_1_l.
    unfold set_size, len. rewrite <- Zlt_Qlt.
    apply Nat2Z.inj_lt, distinct_length_repeated, Hrep.
Qed.

Lemma recall_with_repeated_expected_witness :
  ~ NoDup [lit "A"; lit "A"]
  /\ (recall_at_k [lit "A"] [lit "A"; lit "A"]
      <= set_size [lit "A"; lit "A"] / len [lit "A"; lit "A"])%Q
  /\ (set_size [lit "A"; lit "A"] / len [lit "A"; lit "A"] == 1 # 2)%Q.
Proof.
  assert (H : ~ NoDup [lit "A"; lit "A"]).
  { intros Hnd. inversion Hnd as [|x l Hin _]. apply Hin. left. reflexivity. }
  split; [exact H|]. split.
  - exact (proj1 (recall_with_repeated_expected [lit "A"] H)).
  - reflexivity.
Defined.

(** ** The two evaluation loops *)

Section TwoLoops.
Context {Sigma : Alphabet}.

(** On a test query that has the key [expected_assessments] the two
    loops count alike and compute alike. *)
Lemma new_format_agreement (recommender : text -> Z -> list Recommendation) (k : Z)
      (test_queries : list TestItem) :
  Forall (fun t => t_expected_assessments t <> None) test_queries ->
  filter counted test_queries = filter counted_by_name test_queries
  /\ map (query_recall recommender k) (filter counted test_queries)
     = map (query_recall_by_name recommender k) (filter counted_by_name test_queries)
  /\ map (query_average_precision recommender k) (filter counted test_queries)
     = map (query_average_precision_by_name recommender k)
           (filter counted_by_name test_queries).
Proof.
  intros H. induction H as [|t ts Ht _ [IH1 [IH2 IH3]]]; [repeat split|].
  assert (Hc : counted t = counted_by_name t).
  { unfold counted, counted_by_name, relevant_items_of.
    destruct (t_expected_assessments t); [reflexivity | contradiction]. }
  assert (Hr : query_recall recommender k t = query_recall_by_name recommender k t).
  { unfold query_recall, query_recall_by_name, relevant_items_of.
    destruct (t_expected_assessments t); [reflexivity | contradiction]. }
  assert (Ha : query_average_precision recommender k t
               = query_average_precision_by_name recommender k t).
  { unfold query_average_precision, query_average_precision_by_name, relevant_items_of.
    destruct (t_expected_assessments t); [reflexivity | contradiction]. }
  cbn [filter]. rewrite <- Hc. destruct (counted t); cbn [map].
  - rewrite IH2, IH3, IH1, Hr, Ha. repeat split.
  - repeat split; assumption.
Qed.

Lemma old_format_not_counted (test_queries : list TestItem) :
  Forall (fun t => t_expected_assessments t = None) test_queries ->
  filter counted_by_name test_queries = [].
Proof.
  intros H. induction H as [|t ts Ht _ IH]; [reflexivity|].
  cbn [filter]. unfold counted_by_name at 1. rewrite Ht. cbn [dict_get is_empty negb].
  rewrite andb_false_r. exact IH.
Qed.

End TwoLoops.

(** X18. On test queries that all have the key [expected_assessments],
    [SHLRecommender.evaluate] and [calculate_metrics] called with the
    same recommender return the same pair. *)
Theorem evaluate_is_calculate_metrics {Sigma : Alphabet} {AS : ArgSort}
        (self : SHLRecommender) (test_queries : list TestItem) (k : Z) :
  Forall (fun t => t_expected_assessments t <> None) test_queries ->
  evaluate self test_queries k = calculate_metrics (recommend self) test_queries k.
Proof.
  intros H. rewrite evaluate_means, calculate_metrics_means.
  destruct (new_format_agreement (recommend self) k H) as [_ [-> ->]]. reflexivity.
Qed.

Lemma evaluate_is_calculate_metrics_witness :
  Forall (fun t => t_expected_assessments t <> None)
         [test_item "Sales?" ["A"; "C"]%string]
  /\ evaluate (AS := Insertion_argsort) twin_recommender
              [test_item "Sales?" ["A"; "C"]%string] 2
     = calculate_metrics (recommend twin_recommender)
                         [test_item "Sales?" ["A"; "C"]%string] 2.
Proof.
  assert (H : Forall (fun t => t_expected_assessments t <> None)
                     [test_item "Sales?" ["A"; "C"]%string])
    by (repeat constructor; discriminate).
  split; [exact H|].
  exact (evaluate_is_calculate_metrics (AS := Insertion_argsort) twin_recommender 2 H).
Defined.

(** X19. [calculate_metrics] reads only the key
    [expected_assessments]: on a test set in the older format, labelled
    with [relevant_ids] alone, it counts no query and returns (0, 0)
    whatever the recommender. *)
Theorem calculate_metrics_old_format {Sigma : Alphabet}
        (recommender : text -> Z -> list Recommendation)
        (test_queries : list TestItem) (k : Z) :
  Forall (fun t => t_expected_assessments t = None) test_queries ->
  filter counted_by_name test_queries = []
  /\ calculate_metrics recommender test_queries k = (0%Q, 0%Q).
Proof.
  intros H. pose proof (old_format_not_counted H) as E.
  split; [exact E|]. rewrite calculate_metrics_means, E. reflexivity.
Qed.

Lemma calculate_metrics_old_format_witness :
  Forall (fun t => t_expected_assessments t = None)
         [old_test_item "Sales?" ["A"]%string]
  /\ calculate_metrics ranked_A_B [old_test_item "Sales?" ["A"]%string] 2
     = (0%Q, 0%Q).
Proof.
  assert (H : Forall (fun t => t_expected_assessments t = None)
                     [old_test_item "Sales?" ["A"]%string])
    by (repeat constructor).
  split; [exact H|].
  exact (proj2 (calculate_metrics_old_format ranked_A_B 2 H)).
Defined.

(** The same test query is counted by [SHLRecommender.evaluate]. *)
Example evaluate_old_format :
  counted (old_test_item "Sales?" ["A"]%string) = true.
Proof. reflexivity. Qed.

(** ** The metrics as [k] grows *)

Section GrowingK.
Context {Sigma : Alphabet}.

Lemma recall_at_k_extends (recommended more relevant : list text) :
  (recall_at_k recommended relevant <= recall_at_k (recommended ++ more) relevant)%Q.
Proof.
  unfold recall_at_k. destruct (is_empty relevant); [apply Qle_refl|].
  apply ratio_monotone; [|apply len_nonneg].
  apply len_le. apply NoDup_incl_length; [apply distinct_NoDup|].
  intros x. rewrite !distinct_In, !filter_In, in_app_iff. tauto.
Qed.

Lemma enumerate_from_app (A : Type) (l more : list A) (start : nat) :
  combine (seq start (length (l ++ more))) (l ++ more)
  = combine (seq start (length l)) l
    ++ combine (seq (start + length l) (length more)) more.
Proof.
  revert start. induction l as [|x l IH]; intros start; cbn [app length].
  - rewrite Nat.add_0_r. reflexivity.
  - cbn [seq combine app]. rewrite IH.
    replace (S start + length l) with (start + S (length l)) by lia. reflexivity.
Qed.

(** The loop of the average precision only adds to its sum. *)
Lemma precision_loop_grows (relevant : list text) (l : list (nat * text))
      (acc : Q) (count : nat) :
  (acc <= fst (fold_left (precision_step relevant) l (acc, count)))%Q.
Proof.
  revert acc count. induction l as [|[i x] l IH]; intros acc count; [apply Qle_refl|].
  cbn [fold_left]. rewrite precision_step_eq. destruct (text_in x relevant); [|apply IH].
  eapply Qle_trans; [|apply IH].
  rewrite <- (Qplus_0_r acc) at 1. apply Qplus_le_compat; [apply Qle_refl|].
  apply Qle_shift_div_l.
  - rewrite <- (Zlt_Qlt 0). lia.
  - rewrite Qmult_0_l. rewrite <- (Zle_Qle 0). lia.
Qed.

Lemma average_precision_extends (recommended more relevant : list text) :
  (average_precision recommended relevant
   <= average_precision (recommended ++ more) relevant)%Q.
Proof.
  unfold average_precision, enumerate. destruct (is_empty relevant); [apply Qle_refl|].
  apply ratio_monotone; [|apply len_nonneg].
  rewrite enumerate_from_app, fold_left_app.
  destruct (fold_left (precision_step relevant)
                      (combine (seq 0 (length recommended)) recommended) (0%Q, 0))
    as [acc count].
  apply precision_loop_grows.
Qed.

End GrowingK.

Section GrowingKMetrics.
Context {Sigma : Alphabet} {AS : ArgSort}.

(** Both metrics of [calculate_metrics] on a recommender object grow
    with [k]. *)
Lemma calculate_metrics_grows (self : SHLRecommender) (test_queries : list TestItem)
      (k k' : Z) :
  (1 <= k <= k')%Z ->
  (fst (calculate_metrics (recommend self) test_queries k)
   <= fst (calculate_metrics (recommend self) test_queries k'))%Q
  /\ (snd (calculate_metrics (recommend self) test_queries k)
      <= snd (calculate_metrics (recommend self) test_queries k'))%Q.
Proof.
  intros Hk. rewrite !calculate_metrics_means. cbn [fst snd]. rewrite !mean_map.
  split; apply mean_over_monotone; intros t.
  - unfold query_recall_by_name, recommended_for.
    destruct (recommend_extends self (dict_get (t_query t) (lit "")) Hk) as [more ->].
    rewrite map_app. apply recall_at_k_extends.
  - unfold query_average_precision_by_name, recommended_for.
    destruct (recommend_extends self (dict_get (t_query t) (lit "")) Hk) as [more ->].
    rewrite map_app. apply average_precision_extends.
Qed.

Lemma evaluate_grows (self : SHLRecommender) (test_queries : list TestItem)
      (k k' : Z) :
  (1 <= k <= k')%Z ->
  (fst (evaluate self test_queries k) <= fst (evaluate self test_queries k'))%Q
  /\ (snd (evaluate self test_queries k) <= snd (evaluate self test_queries k'))%Q.
Proof.
  intros Hk. rewrite !evaluate_means. cbn [fst snd]. rewrite !mean_map.
  split; apply mean_over_monotone; intros t.
  - unfold query_recall, recommended_for.
    destruct (recommend_extends self (dict_get (t_query t) (lit "")) Hk) as [more ->].
    rewrite map_app. apply recall_at_k_extends.
  - unfold query_average_precision, recommended_for.
    destruct (recommend_extends self (dict_get (t_query t) (lit "")) Hk) as [more ->].
    rewrite map_app. apply average_precision_extends.
Qed.

End GrowingKMetrics.

(** X20. For [1 <= k <= k'] and any state of the recommender, the mean
    recall and the mean average precision at [k'] are not below those
    at [k], in [SHLRecommender.evaluate] and in [calculate_metrics] on
    the same recommender. *)
Theorem metrics_grow_with_k {Sigma : Alphabet} {AS : ArgSort}
        (self : SHLRecommender) (test_queries : list TestItem) (k k' : Z) :
  (1 <= k <= k')%Z ->
  (fst (evaluate self test_queries k) <= fst (evaluate self test_queries k'))%Q
  /\ (snd (evaluate self test_queries k) <= snd (evaluate self test_queries k'))%Q
  /\ (fst (calculate_metrics (recommend self) test_queries k)
      <= fst (calculate_metrics (recommend self) test_queries k'))%Q
  /\ (snd (calculate_metrics (recommend self) test_queries k)
      <= snd (calculate_metrics (recommend self) test_queries k'))%Q.
Proof.
  intros Hk. destruct (evaluate_grows self test_queries Hk) as [H1 H2].
  destruct (calculate_metrics_grows self test_queries Hk) as [H3 H4].
  repeat split; assumption.
Qed.

Lemma metrics_grow_with_k_witness :
  (1 <= 1 <= 3)%Z
  /\ (fst (evaluate (AS := Insertion_argsort) twin_recommender
                    [test_item "Sales?" ["A"; "C"]%string] 1)
      <= fst (evaluate twin_recommender [test_item "Sales?" ["A"; "C"]%string] 3))%Q.
Proof.
  assert (H : (1 <= 1 <= 3)%Z) by lia.
  split; [exact H|].
  exact (proj1 (metrics_grow_with_k (AS := Insertion_argsort) twin_recommender
                  [test_item "Sales?" ["A"; "C"]%string] H)).
Defined.

(** X21. When [run_evaluation.main] gets to its report, the report has
    one entry for each of k = 1, 3, 5, 10, in this order, and along it
    neither the mean recall nor the mean average precision decreases;
    every mean recall is between 0 and 1. *)
Theorem run_evaluation_report {Sigma : Alphabet} {AS : ArgSort} {SW : StopWords}
        (test_file : test_file_content) (data_file : file_content)
        (results : list (Z * (Q * Q))) :
  run_evaluation test_file data_file = Some results ->
  map fst results = [1; 3; 5; 10]%Z
  /\ StronglySorted (fun r1 r2 => (fst (snd r1) <= fst (snd r2))%Q
                                  /\ (snd (snd r1) <= snd (snd r2))%Q) results
  /\ Forall (fun r => (0 <= fst (snd r) <= 1)%Q /\ (0 <= snd (snd r))%Q) results.
Proof.
  unfold run_evaluation.
  destruct (json_load_tests test_file) as [tests|e]; [|discriminate].
  destruct (SHLRecommender_init (Some data_file) None) as [r|e]; [|discriminate].
  intros H. injection H as <-. cbn [k_values map].
  split; [reflexivity|]. split.
  - repeat (first [apply SSorted_nil | apply SSorted_cons
                   | apply Forall_nil | apply Forall_cons]);
      cbn [fst snd]; apply calculate_metrics_grows; lia.
  - repeat (first [apply Forall_nil | apply Forall_cons]);
      cbn [fst snd]; rewrite calculate_metrics_means; cbn [fst snd];
      rewrite !mean_map; repeat split;
      try (apply mean_over_bounds; intros t; apply recall_at_k_bounds);
      apply mean_over_bounds; intros t; apply average_precision_bounds.
Qed.

(** Asked for two recommendations or more, the twin recommender gives
    both assessments. *)
Lemma twin_recommend_all (k : Z) :
  (2 <= k)%Z ->
  recommend (AS := Insertion_argsort) twin_recommender (lit "Sales?") k
  = [recommendation_of "B" 1; recommendation_of "A" 1].
Proof.
  intros Hk. rewrite <- twin_recommend_zero. unfold twin_recommender.
  rewrite !recommend_fitted. unfold ranking.
  rewrite top_indices_all; [reflexivity|].
  rewrite twin_similarities. cbn [length]. lia.
Qed.

(** The metrics of the twin recommender on one test query that expects
    A and C: nothing is found at [k = 1], A is found from [k = 2] on. *)
Lemma twin_metrics (k : Z) :
  (1 <= k)%Z ->
  calculate_metrics (recommend (AS := Insertion_argsort) twin_recommender)
                    [test_item "Sales?" ["A"; "C"]%string] k
  = if (k =? 1)%Z
    then calculate_metrics (fun _ _ => [recommendation_of "B" 1])
                           [test_item "Sales?" ["A"; "C"]%string] k
    else calculate_metrics (fun _ _ => [recommendation_of "B" 1; recommendation_of "A" 1])
                           [test_item "Sales?" ["A"; "C"]%string] k.
Proof.
  intros Hk. rewrite !calculate_metrics_means.
  change (filter counted_by_name [test_item "Sales?" ["A"; "C"]%string])
    with [test_item "Sales?" ["A"; "C"]%string].
  cbn [map]. unfold query_recall_by_name, query_average_precision_by_name, recommended_for.
  change (dict_get (t_query (test_item "Sales?" ["A"; "C"]%string)) (lit ""))
    with (lit "Sales?").
  destruct (Z.eqb_spec k 1) as [->|Hne].
  - rewrite twin_recommend_one. reflexivity.
  - rewrite twin_recommend_all by lia. reflexivity.
Qed.

Lemma run_evaluation_report_witness :
  run_evaluation (AS := Insertion_argsort)
                 (JsonTestItems [test_item "Sales?" ["A"; "C"]%string])
                 (JsonRecords required_columns twin_catalog)
  = Some (map (fun k => (k, calculate_metrics
                              (recommend (AS := Insertion_argsort) twin_recommender)
                              [test_item "Sales?" ["A"; "C"]%string] k))
              k_values)
  /\ StronglySorted
       (fun r1 r2 => (fst (snd r1) <= fst (snd r2))%Q
                     /\ (snd (snd r1) <= snd (snd r2))%Q)
       (map (fun k => (k, calculate_metrics
                            (recommend (AS := Insertion_argsort) twin_recommender)
                            [test_item "Sales?" ["A"; "C"]%string] k))
            k_values)
  /\ (fst (calculate_metrics (recommend (AS := Insertion_argsort) twin_recommender)
                             [test_item "Sales?" ["A"; "C"]%string] 1) == 0)%Q
  /\ (fst (calculate_metrics (recommend (AS := Insertion_argsort) twin_recommender)
                             [test_item "Sales?" ["A"; "C"]%string] 3) == 1 # 2)%Q
  /\ (snd (calculate_metrics (recommend (AS := Insertion_argsort) twin_recommender)
                             [test_item "Sales?" ["A"; "C"]%string] 3) == 1 # 4)%Q.
Proof.
  assert (H : run_evaluation (AS := Insertion_argsort)
                (JsonTestItems [test_item "Sales?" ["A"; "C"]%string])
                (JsonRecords required_columns twin_catalog)
              = Some (map (fun k => (k, calculate_metrics
                                          (recommend (AS := Insertion_argsort)
                                                     twin_recommender)
                                          [test_item "Sales?" ["A"; "C"]%string] k))
                          k_values)).
  { unfold run_evaluation. cbn [json_load_tests]. rewrite twin_init. reflexivity. }
  split; [exact H|]. split.
  - exact (proj1 (proj2 (run_evaluation_report _ _ H))).
  - rewrite !twin_metrics by lia. repeat split; vm_compute; reflexivity.
Defined.

(** ** Loading the test queries *)

Section TestQueries.
Context {Sigma : Alphabet}.

Lemma in_enumerate_from (A : Type) (l : list A) (start i : nat) (x : A) :
  In (i, x) (combine (seq start (length l)) l)
  <-> start <= i /\ nth_error l (i - start) = Some x.
Proof.
  revert start. induction l as [|y l IH]; intros start; cbn [length seq combine In].
  - split; [tauto|]. intros [_ H]. destruct (i - start); discriminate H.
  - rewrite IH. split.
    + intros [H|[Hle H]].
      * injection H as <- <-. rewrite Nat.sub_diag. split; [lia | reflexivity].
      * split; [lia|]. replace (i - start) with (S (i - S start)) by lia. exact H.
    + intros [Hle H]. destruct (i - start) as [|n] eqn:E.
      * left. cbn in H. injection H as <-. f_equal. lia.
      * right. split; [lia|]. replace (i - S start) with n by lia. exact H.
Qed.

Lemma warnings_printed (l : list (nat * TestItem)) (printed : list loader_message) :
  fold_left
    (fun printed i_query =>
       if lacks_field (snd i_query)
       then printed ++ [MissingFieldWarning (fst i_query)]
       else printed)
    l printed
  = printed ++ map (fun i_query => MissingFieldWarning (fst i_query))
                   (filter (fun i_query => lacks_field (snd i_query)) l).
Proof.
  revert printed. induction l as [|iq l IH]; intros printed; cbn [fold_left filter].
  - cbn. rewrite app_nil_r. reflexivity.
  - rewrite IH. destruct (lacks_field (snd iq)); cbn [map];
      [rewrite <- app_assoc|]; reflexivity.
Qed.

Lemma lacks_field_not_counted (t : TestItem) :
  lacks_field t = true -> counted_by_name t = false.
Proof.
  unfold lacks_field, counted_by_name.
  destruct (t_query t), (t_expected_assessments t); cbn; try discriminate;
    intros _; try reflexivity.
  apply andb_false_r.
Qed.

End TestQueries.

(** X22. When the test file is read, [load_test_queries] returns its
    queries unchanged and prints a warning for exactly the queries that
    lack the key [query] or the key [expected_assessments]; every query
    it warns about is one that [calculate_metrics] skips. *)
Theorem load_test_queries_warnings {Sigma : Alphabet} (items : list TestItem) :
  let loaded := load_test_queries (JsonTestItems items) in
  fst loaded = items
  /\ (forall i,
         In (MissingFieldWarning i) (snd loaded)
         <-> exists t, nth_error items i = Some t /\ lacks_field t = true)
  /\ (forall i t,
         In (MissingFieldWarning i) (snd loaded) ->
         nth_error (fst loaded) i = Some t -> counted_by_name t = false).
Proof.
  cbn [load_test_queries json_load_tests fst snd].
  assert (Hw : forall i,
             In (MissingFieldWarning i)
                (fold_left
                   (fun printed i_query =>
                      if lacks_field (snd i_query)
                      then printed ++ [MissingFieldWarning (fst i_query)]
                      else printed)
                   (enumerate items) [])
             <-> exists t, nth_error items i = Some t /\ lacks_field t = true).
  { intros i. rewrite warnings_printed. cbn [app]. rewrite in_map_iff. split.
    - intros [[j t] [E Hin]]. cbn [fst] in E. injection E as ->.
      apply filter_In in Hin. destruct Hin as [Hin Hl]. cbn [snd] in Hl.
      apply in_enumerate_from in Hin. rewrite Nat.sub_0_r in Hin.
      exists t. split; [apply Hin | exact Hl].
    - intros [t [Hn Hl]]. exists (i, t). split; [reflexivity|].
      apply filter_In. split; [|exact Hl].
      apply in_enumerate_from. rewrite Nat.sub_0_r. split; [lia | exact Hn]. }
  split; [reflexivity|]. split; [exact Hw|].
  intros i t Hin Hn. apply Hw in Hin. destruct Hin as [t' [Hn' Hl]].
  rewrite Hn in Hn'. injection Hn' as <-. apply lacks_field_not_counted, Hl.
Qed.

(** ** The user interface *)

(** X23. [get_recommendations] never fails and always echoes the
    query; for [k >= 1] it returns at most [k] recommendations, whether
    it uses the local catalog or the service, and whatever goes wrong
    on the way. *)
Theorem get_recommendations_bounds {Sigma : Alphabet} {AS : ArgSort} {SW : StopWords}
        (env : Environment) (query : text) (k : Z) :
  (1 <= k)%Z ->
  ui_query (get_recommendations env query k) = query
  /\ (Z.of_nat (length (ui_recommendations (get_recommendations env query k))) <= k)%Z.
Proof.
  intros Hk. unfold get_recommendations.
  assert (Hfailed : ui_query {| ui_query := query; ui_recommendations := [] |} = query
                    /\ (Z.of_nat (length (ui_recommendations
                                            {| ui_query := query;
                                               ui_recommendations := [] |})) <= k)%Z)
    by (split; [reflexivity | cbn; lia]).
  assert (Hapi :
            ui_query
              match api_service env with
              | Some service =>
                  match app_recommend_get service query k with
                  | Ok response =>
                      {| ui_query := resp_query response;
                         ui_recommendations := map inr (resp_recommendations response) |}
                  | Raise _ => {| ui_query := query; ui_recommendations := [] |}
                  end
              | None => {| ui_query := query; ui_recommendations := [] |}
              end = query
            /\ (Z.of_nat (length (ui_recommendations
                  match api_service env with
                  | Some service =>
                      match app_recommend_get service query k with
                      | Ok response =>
                          {| ui_query := resp_query response;
                             ui_recommendations :=
                               map inr (resp_recommendations response) |}
                      | Raise _ => {| ui_query := query; ui_recommendations := [] |}
                      end
                  | None => {| ui_query := query; ui_recommendations := [] |}
                  end)) <= k)%Z).
  { destruct (api_service env) as [service|]; [|exact Hfailed].
    destruct (app_recommend_get service query k) as [response|e] eqn:E; [|exact Hfailed].
    destruct (handler_answer _ _ _ E) as [Hq Hlen].
    cbn [ui_query ui_recommendations]. rewrite length_map. split; assumption. }
  destruct (local_catalog env) as [data_file|]; [|exact Hapi].
  destruct (api_url_is_http env); [exact Hapi|].
  destruct (SHLRecommender_init (Some data_file) None) as [r|e]; [|exact Hfailed].
  cbn [ui_query ui_recommendations]. rewrite length_map.
  split; [reflexivity | apply recommend_bounds, Hk].
Qed.

Lemma get_recommendations_bounds_witness :
  (1 <= 2)%Z
  /\ (Z.of_nat (length (ui_recommendations
                          (get_recommendations (AS := Insertion_argsort)
                             {| local_catalog := Some (JsonRecords required_columns twin_catalog);
                                api_url_is_http := false;
                                api_service := None |}
                             (lit "Sales?") 2))) <= 2)%Z.
Proof.
  assert (H : (1 <= 2)%Z) by lia.
  split; [exact H|].
  exact (proj2 (get_recommendations_bounds (AS := Insertion_argsort)
                  {| local_catalog := Some (JsonRecords required_columns twin_catalog);
                     api_url_is_http := false;
                     api_service := None |}
                  (lit "Sales?") H)).
Defined.
